(** * Network health monitor: a shallow embedding of
    [scripts/network-health-monitor.py] and the properties of its
    probe / classification / aggregation engine.

    Python dictionaries (endpoint descriptors and probe results) are finite
    maps from strings to Python values; exceptions are an explicit sum;
    the network, the [ping] subprocess, the clock and the file system are
    an oracle record [World]; the [HealthChecker] object, the clock, the
    console and the written files are the state threaded by the monad [M].

    Strings are byte strings: [s[:50]] counts bytes, which is exact for
    ASCII texts. Floats are taken with their exact rational value.

    Not modelled: the [logging] calls (they format values with [str()],
    which cannot raise, and the [response_time_ms] of a healthy result,
    which is always a number, and write to the log; the [len] that a
    log line takes of a value that may have none is kept). [main] is the
    part of the source's [main] from the loaded endpoints on, which is where
    the engine starts; [main_whole] puts before it what [parse_args] makes
    of the command line and the loading of the configuration file. *)

From Stdlib Require Import ZArith QArith Qround Lqa String Ascii List Lia.
From stdpp Require Import base option list strings gmap pretty.

Open Scope string_scope.
Open Scope Z_scope.

Set Warnings "-register-all".

(** ** Python values *)

(** A binary64 float is taken with its exact rational value; the results of
    float arithmetic are not re-rounded to binary64. *)
Inductive pyfloat :=
| Finite (q : Q)
| PosInf
| NegInf
| NaN.

Inductive number :=
| Int (z : Z)
| Float (f : pyfloat).

(** What [json.load] can produce, which is also what the script stores in
    its result dictionaries. *)
Inductive value :=
| VNone
| VBool (b : bool)
| VNum (n : number)
| VStr (s : string)
| VList (l : list value)
| VDict (kvs : list (string * value)).

Inductive exn :=
| KeyError (key : string)
| TypeError (msg : string)
| ValueError (msg : string)
| ZeroDivisionError (msg : string)
| RequestsTimeout (msg : string)
| RequestsConnectionError (msg : string)
| SocketGaierror (msg : string)
| SubprocessTimeoutExpired (msg : string)
| OverflowError (msg : string)
| AttributeError (msg : string)
| OtherException (msg : string).

(** [str(e)] *)
Definition exn_str (e : exn) : string :=
  match e with
  | KeyError k => "'" +:+ k +:+ "'"
  | TypeError m | ValueError m | ZeroDivisionError m | RequestsTimeout m
  | RequestsConnectionError m | SocketGaierror m | SubprocessTimeoutExpired m
  | OverflowError m | AttributeError m | OtherException m => m
  end.

(** [s[:n]] *)
Definition str_take (n : nat) (s : string) : string := String.substring 0 n s.

(** [s * n] on strings and lists *)
Fixpoint str_repeat (s : string) (n : nat) : string :=
  match n with
  | O => ""
  | S n' => s +:+ str_repeat s n'
  end.

Fixpoint list_repeat {A} (l : list A) (n : nat) : list A :=
  match n with
  | O => []
  | S n' => l ++ list_repeat l n'
  end.

Definition pad_left (width : nat) (s : string) : string :=
  str_repeat " " (width - String.length s) +:+ s.

Definition pad_right (width : nat) (s : string) : string :=
  s +:+ str_repeat " " (width - String.length s).

(** [s.startswith(p)] and [sub in s] *)
Fixpoint startswith (p s : string) : bool :=
  match p, s with
  | EmptyString, _ => true
  | String a p', String b s' => if Ascii.eqb a b then startswith p' s' else false
  | String _ _, EmptyString => false
  end.

Fixpoint str_contains (sub s : string) : bool :=
  startswith sub s ||
  match s with
  | EmptyString => false
  | String _ s' => str_contains sub s'
  end.

(** [s.split(sep)] for a one-character separator: never the empty list. *)
Fixpoint str_split (sep : ascii) (s : string) : list string :=
  match s with
  | EmptyString => [""]
  | String c s' =>
      if Ascii.eqb c sep then "" :: str_split sep s'
      else match str_split sep s' with
           | h :: t => String c h :: t
           | [] => [String c ""]
           end
  end.

Definition newline : ascii := "010"%char.

(** Truth value of an object, as [if x:] and [sum(1 for ... if x)] take it. *)
Definition py_truthy (v : value) : bool :=
  match v with
  | VNone => false
  | VBool b => b
  | VNum (Int z) => negb (z =? 0)
  | VNum (Float (Finite q)) => negb (Qeq_bool q 0)
  | VNum (Float _) => true
  | VStr s => negb (String.eqb s "")
  | VList l => match l with [] => false | _ => true end
  | VDict kvs => match kvs with [] => false | _ => true end
  end.

(** [v == 'literal'] *)
Definition py_eq_str (v : value) (s : string) : bool :=
  match v with
  | VStr s' => String.eqb s' s
  | _ => false
  end.

(** [x > n] for a float [x] and an int constant [n]: Python compares the
    exact values. *)
Definition float_gt (f : pyfloat) (n : Z) : bool :=
  match f with
  | Finite q => negb (Qle_bool q (inject_Z n))
  | PosInf => true
  | NegInf => false
  | NaN => false
  end.

Definition num_gt (x : number) (n : Z) : bool :=
  match x with
  | Int z => n <? z
  | Float f => float_gt f n
  end.

Definition float_mul (f : pyfloat) (n : Z) : pyfloat :=
  match f with
  | Finite q => Finite (q * inject_Z n)
  | PosInf => if 0 <? n then PosInf else if n <? 0 then NegInf else NaN
  | NegInf => if 0 <? n then NegInf else if n <? 0 then PosInf else NaN
  | NaN => NaN
  end.

(** [v * n] for an int constant [n] *)
Definition py_mul (v : value) (n : Z) : exn + value :=
  match v with
  | VNone => inl (TypeError "unsupported operand type(s) for *: 'NoneType' and 'int'")
  | VBool b => inr (VNum (Int (if b then n else 0)))
  | VNum (Int z) => inr (VNum (Int (z * n)))
  | VNum (Float f) => inr (VNum (Float (float_mul f n)))
  | VStr s => inr (VStr (str_repeat s (Z.to_nat n)))
  | VList l => inr (VList (list_repeat l (Z.to_nat n)))
  | VDict _ => inl (TypeError "unsupported operand type(s) for *: 'dict' and 'int'")
  end.

(** Rounding of an exact value to the nearest integer, ties to even. *)
Definition round_half_even (q : Q) : Z :=
  let f := Qfloor q in
  match (q - inject_Z f ?= 1 # 2)%Q with
  | Lt => f
  | Gt => f + 1
  | Eq => if Z.even f then f else f + 1
  end.

(** [round(x, 2)] *)
Definition py_round2 (x : number) : number :=
  match x with
  | Int z => Int z
  | Float (Finite q) => Float (Finite (round_half_even (q * 100) # 100))
  | Float f => Float f
  end.

(** [a / b] on ints *)
Definition py_truediv (a b : Z) : exn + Q :=
  if b =? 0 then inl (ZeroDivisionError "division by zero")
  else inr (inject_Z a / inject_Z b)%Q.

Definition zero_pad (d : nat) (s : string) : string :=
  str_repeat "0" (d - String.length s) +:+ s.

(** [format(x, '.<d>f')] *)
Definition format_f (d : nat) (x : number) : string :=
  let fixed (q : Q) :=
    let n := Z.abs (round_half_even (q * inject_Z (10 ^ Z.of_nat d))) in
    (if Qle_bool 0 q then "" else "-") +:+
    pretty (n / 10 ^ Z.of_nat d) +:+
    (match d with O => "" | _ => "." +:+ zero_pad d (pretty (n mod 10 ^ Z.of_nat d)) end) in
  match x with
  | Int z => fixed (inject_Z z)
  | Float (Finite q) => fixed q
  | Float PosInf => "inf"
  | Float NegInf => "-inf"
  | Float NaN => "nan"
  end.

(** [float(z)] for an int, which is what the format [f] makes of it: the
    nearest binary64, ties to even. An int of magnitude [2^1024 - 2^970] or
    more rounds to [2^1024], beyond the largest float: [OverflowError]. *)
Definition float_of_int (z : Z) : exn + pyfloat :=
  let a := Z.abs z in
  if 2 ^ 1024 - 2 ^ 970 <=? a then inl (OverflowError "int too large to convert to float")
  else
    let e := Z.log2 a - 52 in
    if e <=? 0 then inr (Finite (inject_Z z))
    else inr (Finite (inject_Z
           (Z.sgn z * (round_half_even (inject_Z a / inject_Z (2 ^ e)) * 2 ^ e)))).

(** [format(v, '<width>.<d>f')] *)
Definition py_format_f (width d : nat) (v : value) : exn + string :=
  match v with
  | VNum (Int z) =>
      match float_of_int z with
      | inr f => inr (pad_left width (format_f d (Float f)))
      | inl e => inl e
      end
  | VNum (Float f) => inr (pad_left width (format_f d (Float f)))
  | VBool b => inr (pad_left width (format_f d (Int (if b then 1 else 0))))
  | VStr _ => inl (ValueError "Unknown format code 'f' for object of type 'str'")
  | VNone => inl (TypeError "unsupported format string passed to NoneType.__format__")
  | VList _ => inl (TypeError "unsupported format string passed to list.__format__")
  | VDict _ => inl (TypeError "unsupported format string passed to dict.__format__")
  end.

(** [format(v, '<width>s')] *)
Definition py_format_s (width : nat) (v : value) : exn + string :=
  match v with
  | VStr s => inr (pad_right width s)
  | VBool _ => inl (ValueError "Unknown format code 's' for object of type 'bool'")
  | VNum (Int _) => inl (ValueError "Unknown format code 's' for object of type 'int'")
  | VNum (Float _) => inl (ValueError "Unknown format code 's' for object of type 'float'")
  | VNone => inl (TypeError "unsupported format string passed to NoneType.__format__")
  | VList _ => inl (TypeError "unsupported format string passed to list.__format__")
  | VDict _ => inl (TypeError "unsupported format string passed to dict.__format__")
  end.

(** ** Dictionaries *)

Abbreviation Dict := (gmap string value).

(** [d[k]] *)
Definition getitem (d : Dict) (k : string) : exn + value :=
  match d !! k with
  | Some v => inr v
  | None => inl (KeyError k)
  end.

(** [d.get(k, dflt)] *)
Definition dict_get (d : Dict) (k : string) (dflt : value) : value :=
  default dflt (d !! k).

(** ** Configuration *)

Definition version : string := "1.0.0".
Definition author : string := "Harlen Morris".

Definition vint (z : Z) : value := VNum (Int z).

Definition DEFAULT_ENDPOINTS : list Dict :=
  [ {[ "name" := VStr "GLPI ITSM"; "type" := VStr "http";
       "url" := VStr "https://glpi.harlenmorris.me";
       "critical" := VBool true; "timeout" := vint 5 ]};
    {[ "name" := VStr "BookStack KB"; "type" := VStr "http";
       "url" := VStr "https://kb.harlenmorris.me";
       "critical" := VBool false; "timeout" := vint 5 ]};
    {[ "name" := VStr "IT Ops Dashboard"; "type" := VStr "http";
       "url" := VStr "https://dashboard.harlenmorris.me";
       "critical" := VBool false; "timeout" := vint 5 ]};
    {[ "name" := VStr "Active Directory"; "type" := VStr "ldap";
       "host" := VStr "dc1.northwoodshealth.local"; "port" := vint 389;
       "critical" := VBool true; "timeout" := vint 3 ]};
    {[ "name" := VStr "Exchange Server"; "type" := VStr "smtp";
       "host" := VStr "exchange.northwoodshealth.local"; "port" := vint 25;
       "critical" := VBool true; "timeout" := vint 5 ]};
    {[ "name" := VStr "VPN Gateway"; "type" := VStr "ping";
       "host" := VStr "vpn.northwoodshealth.org";
       "critical" := VBool true; "timeout" := vint 2 ]};
    {[ "name" := VStr "EHR Database"; "type" := VStr "tcp";
       "host" := VStr "ehr-db.northwoodshealth.local"; "port" := vint 5432;
       "critical" := VBool true; "timeout" := vint 3 ]};
    {[ "name" := VStr "Backup Server"; "type" := VStr "tcp";
       "host" := VStr "backup.northwoodshealth.local"; "port" := vint 22;
       "critical" := VBool false; "timeout" := vint 3 ]} ].

(** Performance thresholds (milliseconds) *)
Definition RESPONSE_TIME_WARN : Z := 1000.
Definition RESPONSE_TIME_CRITICAL : Z := 3000.

(** ** The world outside the script *)

Record World := {
  (** [requests.get(url, timeout=timeout, allow_redirects=True)] together
      with the two [time.time()] readings around it: the status code and
      the elapsed milliseconds, or the exception raised. *)
  requests_get : value → value → exn + (Z * pyfloat);
  (** [socket.socket(...)], [settimeout(timeout)], [connect_ex((host, port))],
      the clock readings and [close()]: the [connect_ex] result and the
      elapsed milliseconds, or the exception raised. *)
  socket_connect_ex : value → value → value → exn + (Z * pyfloat);
  (** [subprocess.run(['ping', '-c', '3', '-W', str(timeout), host], ...,
      timeout=t3)]: return code and standard output, or the exception. *)
  subprocess_run_ping : value → value → value → exn + (Z * string);
  (** [float(s)]; [None] is [ValueError]. *)
  float_of_str : string → option pyfloat;
  (** [repr(v)], used by [str()] for floats and containers. *)
  py_repr : value → string;
  (** [datetime.now().isoformat()] at the n-th reading of the clock. *)
  now_isoformat : nat → string;
  (** [datetime.now().strftime(fmt)] at the n-th reading of the clock. *)
  now_strftime : string → nat → string;
  (** [open(path, 'w')] followed by [json.dump]: the exception raised, if any. *)
  open_w : string → option exn
}.

(** ** Program state *)

Record HealthChecker := {
  results : list Dict;
  critical_failures : Z;
  warnings : Z;
  successes : Z
}.

(** The document that [generate_json_output] dumps. *)
Record JsonDoc := {
  generated : string;
  overall_status : string;
  summary_total_endpoints : Z;
  summary_healthy : Z;
  summary_warnings : Z;
  summary_critical : Z;
  summary_down : Z;
  endpoints : list Dict;
  metadata_version : string;
  metadata_author : string
}.

Record St := {
  clock : nat;                       (* readings of the clock so far *)
  stdout : list string;              (* what each print wrote, oldest first *)
  files : list (string * JsonDoc);   (* files written, latest first *)
  self : HealthChecker               (* the checker object *)
}.

Definition set_clock (c : nat) (st : St) : St :=
  {| clock := c; stdout := stdout st; files := files st; self := self st |}.
Definition set_stdout (o : list string) (st : St) : St :=
  {| clock := clock st; stdout := o; files := files st; self := self st |}.
Definition set_files (f : list (string * JsonDoc)) (st : St) : St :=
  {| clock := clock st; stdout := stdout st; files := f; self := self st |}.
Definition set_self (h : HealthChecker) (st : St) : St :=
  {| clock := clock st; stdout := stdout st; files := files st; self := h |}.

(** ** State and exception monad *)

Definition M (A : Type) : Type := St → (exn + A) * St.

Definition M_ret {A} (a : A) : M A := λ st, (inr a, st).

Definition M_bind {A B} (f : A → M B) (m : M A) : M B :=
  λ st, match m st with
        | (inr a, st') => f a st'
        | (inl e, st') => (inl e, st')
        end.

#[global] Instance M_mret : MRet M := @M_ret.
#[global] Instance M_mbind : MBind M := @M_bind.

Definition raise {A} (e : exn) : M A := λ st, (inl e, st).

(** A pure computation that may raise. *)
Definition lift {A} (r : exn + A) : M A := λ st, (r, st).

(** [try: body except ...: handler]; a handler that does not match an
    exception class re-raises it with [raise]. *)
Definition try_except {A} (body : M A) (handler : exn → M A) : M A :=
  λ st, match body st with
        | (inl e, st') => handler e st'
        | (inr a, st') => (inr a, st')
        end.

Definition get_self : M HealthChecker := λ st, (inr (self st), st).
Definition put_self (h : HealthChecker) : M unit := λ st, (inr tt, set_self h st).

(** [print(line)] *)
Definition print (line : string) : M unit :=
  λ st, (inr tt, set_stdout (stdout st ++ [line]) st).

(** ** Health check functions *)

Section Monitor.

Variable w : World.

(** An operation of the world: its result, or the exception it raised. *)
Definition io {A} (r : exn + A) : M A := lift r.

(** [datetime.now().isoformat()] *)
Definition datetime_now_isoformat : M string :=
  λ st, (inr (now_isoformat w (clock st)), set_clock (S (clock st)) st).

(** [datetime.now().strftime(fmt)] *)
Definition datetime_now_strftime (fmt : string) : M string :=
  λ st, (inr (now_strftime w fmt (clock st)), set_clock (S (clock st)) st).

(** [str(v)], as an f-string field without a format takes it. *)
Definition py_str (v : value) : string :=
  match v with
  | VNone => "None"
  | VBool true => "True"
  | VBool false => "False"
  | VNum (Int z) => pretty z
  | VStr s => s
  | _ => py_repr w v
  end.

(** [HealthChecker.__init__] *)
Definition HealthChecker_init : HealthChecker :=
  {| results := []; critical_failures := 0; warnings := 0; successes := 0 |}.

(** [HealthChecker.check_http]: check HTTP/HTTPS service availability. *)
Definition check_http (endpoint : Dict) : M Dict :=
  url ← lift (getitem endpoint "url");
  let timeout := dict_get endpoint "timeout" (vint 5) in
  try_except
    ('(status_code, elapsed_ms) ← io (requests_get w url timeout);
     let status :=
       if 500 <=? status_code then "critical"
       else if 400 <=? status_code then "warning"
       else if float_gt elapsed_ms RESPONSE_TIME_CRITICAL then "critical"
       else if float_gt elapsed_ms RESPONSE_TIME_WARN then "warning"
       else "healthy" in
     name ← lift (getitem endpoint "name");
     timestamp ← datetime_now_isoformat;
     mret ({[ "name" := name;
              "type" := VStr "http";
              "status" := VStr status;
              "available" := VBool true;
              "response_time_ms" := VNum (py_round2 (Float elapsed_ms));
              "http_code" := vint status_code;
              "details" := VStr ("HTTP " +:+ pretty status_code);
              "timestamp" := VStr timestamp ]} : Dict))
    (λ e,
       match e with
       | RequestsTimeout _ =>
           name ← lift (getitem endpoint "name");
           response_time_ms ← lift (py_mul timeout 1000);
           timestamp ← datetime_now_isoformat;
           mret ({[ "name" := name;
                    "type" := VStr "http";
                    "status" := VStr "critical";
                    "available" := VBool false;
                    "response_time_ms" := response_time_ms;
                    "details" := VStr "Connection timeout";
                    "timestamp" := VStr timestamp ]} : Dict)
       | RequestsConnectionError _ =>
           name ← lift (getitem endpoint "name");
           timestamp ← datetime_now_isoformat;
           mret ({[ "name" := name;
                    "type" := VStr "http";
                    "status" := VStr "critical";
                    "available" := VBool false;
                    "details" := VStr ("Connection refused: " +:+ str_take 50 (exn_str e));
                    "timestamp" := VStr timestamp ]} : Dict)
       | _ =>
           name ← lift (getitem endpoint "name");
           timestamp ← datetime_now_isoformat;
           mret ({[ "name" := name;
                    "type" := VStr "http";
                    "status" := VStr "critical";
                    "available" := VBool false;
                    "details" := VStr ("Error: " +:+ str_take 50 (exn_str e));
                    "timestamp" := VStr timestamp ]} : Dict)
       end).

(** [HealthChecker.check_tcp]: check TCP port availability. *)
Definition check_tcp (endpoint : Dict) : M Dict :=
  host ← lift (getitem endpoint "host");
  port ← lift (getitem endpoint "port");
  let timeout := dict_get endpoint "timeout" (vint 3) in
  try_except
    ('(result, elapsed_ms) ← io (socket_connect_ex w host port timeout);
     if result =? 0 then
       let status :=
         if float_gt elapsed_ms RESPONSE_TIME_CRITICAL then "critical"
         else if float_gt elapsed_ms RESPONSE_TIME_WARN then "warning"
         else "healthy" in
       name ← lift (getitem endpoint "name");
       timestamp ← datetime_now_isoformat;
       mret ({[ "name" := name;
                "type" := VStr "tcp";
                "status" := VStr status;
                "available" := VBool true;
                "response_time_ms" := VNum (py_round2 (Float elapsed_ms));
                "details" := VStr ("Port " +:+ py_str port +:+ " open");
                "timestamp" := VStr timestamp ]} : Dict)
     else
       name ← lift (getitem endpoint "name");
       timestamp ← datetime_now_isoformat;
       mret ({[ "name" := name;
                "type" := VStr "tcp";
                "status" := VStr "critical";
                "available" := VBool false;
                "details" := VStr ("Port " +:+ py_str port +:+ " closed or filtered");
                "timestamp" := VStr timestamp ]} : Dict))
    (λ e,
       match e with
       | SocketGaierror _ =>
           name ← lift (getitem endpoint "name");
           timestamp ← datetime_now_isoformat;
           mret ({[ "name" := name;
                    "type" := VStr "tcp";
                    "status" := VStr "critical";
                    "available" := VBool false;
                    "details" := VStr "DNS resolution failed";
                    "timestamp" := VStr timestamp ]} : Dict)
       | _ =>
           name ← lift (getitem endpoint "name");
           timestamp ← datetime_now_isoformat;
           mret ({[ "name" := name;
                    "type" := VStr "tcp";
                    "status" := VStr "critical";
                    "available" := VBool false;
                    "details" := VStr ("Error: " +:+ str_take 50 (exn_str e));
                    "timestamp" := VStr timestamp ]} : Dict)
       end).

(** Lines 305-313 of [check_ping]: the average round-trip time read from the
    output of [ping], [0] when it is not there or cannot be read (the bare
    [except:] catches the [IndexError] and the [ValueError]). *)
Definition ping_avg_ms (output : string) : number :=
  if str_contains "avg" output then
    match filter (λ l, str_contains "avg" l = true) (str_split newline output) with
    | avg_line :: _ =>
        match str_split "/" avg_line !! 4%nat with
        | Some field =>
            match float_of_str w field with
            | Some f => Float f
            | None => Int 0
            end
        | None => Int 0
        end
    | [] => Int 0
    end
  else Int 0.

(** [HealthChecker.check_ping]: check ICMP ping connectivity. *)
Definition check_ping (endpoint : Dict) : M Dict :=
  host ← lift (getitem endpoint "host");
  let timeout := dict_get endpoint "timeout" (vint 2) in
  try_except
    (run_timeout ← lift (py_mul timeout 3);
     '(returncode, stdout) ← io (subprocess_run_ping w host timeout run_timeout);
     if returncode =? 0 then
       let avg_ms := ping_avg_ms stdout in
       let status :=
         if num_gt avg_ms RESPONSE_TIME_CRITICAL then "critical"
         else if num_gt avg_ms RESPONSE_TIME_WARN then "warning"
         else "healthy" in
       name ← lift (getitem endpoint "name");
       timestamp ← datetime_now_isoformat;
       mret ({[ "name" := name;
                "type" := VStr "ping";
                "status" := VStr status;
                "available" := VBool true;
                "response_time_ms" := VNum (py_round2 avg_ms);
                "details" := VStr ("Avg RTT: " +:+ format_f 2 avg_ms +:+ "ms");
                "timestamp" := VStr timestamp ]} : Dict)
     else
       name ← lift (getitem endpoint "name");
       timestamp ← datetime_now_isoformat;
       mret ({[ "name" := name;
                "type" := VStr "ping";
                "status" := VStr "critical";
                "available" := VBool false;
                "details" := VStr "Host unreachable";
                "timestamp" := VStr timestamp ]} : Dict))
    (λ e,
       match e with
       | SubprocessTimeoutExpired _ =>
           name ← lift (getitem endpoint "name");
           timestamp ← datetime_now_isoformat;
           mret ({[ "name" := name;
                    "type" := VStr "ping";
                    "status" := VStr "critical";
                    "available" := VBool false;
                    "details" := VStr "Ping timeout";
                    "timestamp" := VStr timestamp ]} : Dict)
       | _ =>
           name ← lift (getitem endpoint "name");
           timestamp ← datetime_now_isoformat;
           mret ({[ "name" := name;
                    "type" := VStr "ping";
                    "status" := VStr "critical";
                    "available" := VBool false;
                    "details" := VStr ("Error: " +:+ str_take 50 (exn_str e));
                    "timestamp" := VStr timestamp ]} : Dict)
       end).

(** [HealthChecker.check_ldap]: a TCP port check against port 389. *)
Definition check_ldap (endpoint : Dict) : M Dict :=
  name ← lift (getitem endpoint "name");
  host ← lift (getitem endpoint "host");
  let endpoint_tcp : Dict :=
    {[ "name" := name;
       "host" := host;
       "port" := dict_get endpoint "port" (vint 389);
       "timeout" := dict_get endpoint "timeout" (vint 3) ]} in
  result ← check_tcp endpoint_tcp;
  mret (<["type" := VStr "ldap"]> result).

(** [HealthChecker.check_smtp]: a TCP port check against port 25. *)
Definition check_smtp (endpoint : Dict) : M Dict :=
  name ← lift (getitem endpoint "name");
  host ← lift (getitem endpoint "host");
  let endpoint_tcp : Dict :=
    {[ "name" := name;
       "host" := host;
       "port" := dict_get endpoint "port" (vint 25);
       "timeout" := dict_get endpoint "timeout" (vint 5) ]} in
  result ← check_tcp endpoint_tcp;
  mret (<["type" := VStr "smtp"]> result).

(** [HealthChecker.check_endpoint]: route to the check of the endpoint type. *)
Definition check_endpoint (endpoint : Dict) : M Dict :=
  let check_type := dict_get endpoint "type" (VStr "tcp") in
  if py_eq_str check_type "http" || py_eq_str check_type "https" then
    check_http endpoint
  else if py_eq_str check_type "tcp" then check_tcp endpoint
  else if py_eq_str check_type "ping" then check_ping endpoint
  else if py_eq_str check_type "ldap" then check_ldap endpoint
  else if py_eq_str check_type "smtp" then check_smtp endpoint
  else
    name ← lift (getitem endpoint "name");
    timestamp ← datetime_now_isoformat;
    mret ({[ "name" := name;
             "type" := check_type;
             "status" := VStr "unknown";
             "available" := VBool false;
             "details" := VStr "Unknown check type";
             "timestamp" := VStr timestamp ]} : Dict).

(** The body of the [for] loop of [run_checks], over the endpoints left. *)
Fixpoint run_checks_loop (endpoints : list Dict) : M unit :=
  match endpoints with
  | [] => mret tt
  | endpoint :: rest =>
      result ← check_endpoint endpoint;
      let result := <["critical" := dict_get endpoint "critical" (VBool false)]> result in
      h ← get_self;
      put_self {| results := results h ++ [result];
                  critical_failures := critical_failures h;
                  warnings := warnings h;
                  successes := successes h |};;
      (* Update counters *)
      status ← lift (getitem result "status");
      (if py_eq_str status "healthy" then
         h ← get_self;
         put_self {| results := results h;
                     critical_failures := critical_failures h;
                     warnings := warnings h;
                     successes := successes h + 1 |}
       else
         status ← lift (getitem result "status");
         if py_eq_str status "warning" then
           h ← get_self;
           put_self {| results := results h;
                       critical_failures := critical_failures h;
                       warnings := warnings h + 1;
                       successes := successes h |}
         else
           critical ← lift (getitem result "critical");
           if py_truthy critical then
             h ← get_self;
             put_self {| results := results h;
                         critical_failures := critical_failures h + 1;
                         warnings := warnings h;
                         successes := successes h |}
           else mret tt);;
      run_checks_loop rest
  end.

(** [HealthChecker.run_checks]: run health checks on all endpoints. *)
Definition run_checks (endpoints : list Dict) : M (list Dict) :=
  h ← get_self;
  put_self {| results := [];
              critical_failures := critical_failures h;
              warnings := warnings h;
              successes := successes h |};;
  run_checks_loop endpoints;;
  h ← get_self;
  mret (results h).

(** ** Report generation *)

(** [sum(1 for r in results if cond(r))] *)
Fixpoint count_if (cond : Dict → exn + bool) (rs : list Dict) : exn + Z :=
  match rs with
  | [] => inr 0
  | r :: rs' =>
      match cond r with
      | inl e => inl e
      | inr b =>
          match count_if cond rs' with
          | inl e => inl e
          | inr n => inr ((if b then 1 else 0) + n)
          end
      end
  end.

(** [[r for r in results if cond(r)]] *)
Fixpoint select_if (cond : Dict → exn + bool) (rs : list Dict) : exn + list Dict :=
  match rs with
  | [] => inr []
  | r :: rs' =>
      match cond r with
      | inl e => inl e
      | inr b =>
          match select_if cond rs' with
          | inl e => inl e
          | inr l => inr (if b then r :: l else l)
          end
      end
  end.

(** [r['status'] == s] *)
Definition status_is (s : string) (r : Dict) : exn + bool :=
  match getitem r "status" with
  | inl e => inl e
  | inr status => inr (py_eq_str status s)
  end.

(** [r['status'] == 'critical' and r['critical']], taken as a condition *)
Definition critical_and_marked (r : Dict) : exn + bool :=
  match getitem r "status" with
  | inl e => inl e
  | inr status =>
      if py_eq_str status "critical" then
        match getitem r "critical" with
        | inl e => inl e
        | inr c => inr (py_truthy c)
        end
      else inr false
  end.

(** [not r.get('available', False)] *)
Definition not_available (r : Dict) : exn + bool :=
  inr (negb (py_truthy (dict_get r "available" (VBool false)))).

(** Lines 455-480 of [generate_json_output]: the document to dump. *)
Definition json_document (results : list Dict) : M JsonDoc :=
  critical_down ← lift (count_if critical_and_marked results);
  warnings ← lift (count_if (status_is "warning") results);
  let overall_status :=
    if 0 <? critical_down then "critical"
    else if 0 <? warnings then "warning"
    else "healthy" in
  generated ← datetime_now_isoformat;
  healthy ← lift (count_if (status_is "healthy") results);
  down ← lift (count_if not_available results);
  mret {| generated := generated;
          overall_status := overall_status;
          summary_total_endpoints := Z.of_nat (length results);
          summary_healthy := healthy;
          summary_warnings := warnings;
          summary_critical := critical_down;
          summary_down := down;
          endpoints := results;
          metadata_version := version;
          metadata_author := author |}.

(** [generate_json_output]: JSON output for dashboard integration. *)
Definition generate_json_output (results : list Dict) (output_file : string) : M unit :=
  output ← json_document results;
  match open_w w output_file with
  | Some e => raise e
  | None => λ st, (inr tt, set_files ((output_file, output) :: files st) st)
  end.

(** [for r in rs: body(r)] *)
Fixpoint for_each (body : Dict → M unit) (rs : list Dict) : M unit :=
  match rs with
  | [] => mret tt
  | r :: rs' => body r;; for_each body rs'
  end.

(** [generate_console_report]: human-readable console report. *)
Definition generate_console_report (results : list Dict) : M unit :=
  print (String newline (str_repeat "=" 80));;
  print "NETWORK HEALTH MONITORING REPORT";;
  print (str_repeat "=" 80);;
  now ← datetime_now_strftime "%Y-%m-%d %H:%M:%S";
  print ("Generated: " +:+ now);;
  print ("Total Endpoints: " +:+ pretty (Z.of_nat (length results)));;
  print "";;
  (* Group by status *)
  healthy ← lift (select_if (status_is "healthy") results);
  warnings ← lift (select_if (status_is "warning") results);
  critical ← lift (select_if (status_is "critical") results);
  (match healthy with
   | [] => mret tt
   | _ =>
       print "✓ HEALTHY SERVICES:";;
       for_each (λ r,
         let rt := dict_get r "response_time_ms" (vint 0) in
         name ← lift (getitem r "name");
         name_s ← lift (py_format_s 30 name);
         rt_s ← lift (py_format_f 6 2 rt);
         print ("  ✓ " +:+ name_s +:+ " - " +:+ rt_s +:+ "ms")) healthy;;
       print ""
   end);;
  (match warnings with
   | [] => mret tt
   | _ =>
       print "⚠ WARNINGS:";;
       for_each (λ r,
         name ← lift (getitem r "name");
         name_s ← lift (py_format_s 30 name);
         details ← lift (getitem r "details");
         print ("  ⚠ " +:+ name_s +:+ " - " +:+ py_str details)) warnings;;
       print ""
   end);;
  (match critical with
   | [] => mret tt
   | _ =>
       print "✗ CRITICAL/DOWN:";;
       for_each (λ r,
         let critical_flag :=
           if py_truthy (dict_get r "critical" VNone) then " [CRITICAL]" else "" in
         name ← lift (getitem r "name");
         name_s ← lift (py_format_s 30 name);
         details ← lift (getitem r "details");
         print ("  ✗ " +:+ name_s +:+ " - " +:+ py_str details +:+ critical_flag)) critical;;
       print ""
   end);;
  (* Overall health score *)
  ratio ← lift (py_truediv (Z.of_nat (length healthy)) (Z.of_nat (length results)));
  let health_score := (ratio * 100)%Q in
  print (str_repeat "-" 80);;
  print ("OVERALL HEALTH SCORE: " +:+ format_f 1 (Float (Finite health_score)) +:+ "%");;
  (if Qeq_bool health_score 100 then print "Status: ✓ ALL SYSTEMS OPERATIONAL"
   else if Qle_bool 90 health_score then print "Status: ⚠ DEGRADED PERFORMANCE"
   else print "Status: ✗ CRITICAL ISSUES DETECTED");;
  print (str_repeat "=" 80).

(** ** Main execution *)

(** Lines 575-592 of [main], for the checker object of the state: run the
    checks, generate the outputs, determine the exit code. *)
Definition main_cycle (output : string) (quick : bool) (endpoints : list Dict) : M Z :=
  (* Run health checks *)
  results ← run_checks endpoints;
  (* Generate outputs *)
  generate_json_output results output;;
  (if negb quick then generate_console_report results else mret tt);;
  (* Determine exit code *)
  checker ← get_self;
  if 0 <? critical_failures checker then mret 2
  else if 0 <? warnings checker then mret 1
  else mret 0.

(** [main], from the loaded endpoints on: [checker = HealthChecker()] and
    the cycle above. *)
Definition main (output : string) (quick : bool) (endpoints : list Dict) : M Z :=
  put_self HealthChecker_init;;
  main_cycle output quick endpoints.

End Monitor.

(** [sys.exit(main())]: the exit status of the process; an exception that
    reaches the top level ends it with status 1. *)
Definition process_exit_status (r : exn + Z) : Z :=
  match r with
  | inr code => code
  | inl _ => 1
  end.

(** ** The whole of [main] (lines 539-592)

    What comes before the cycle: the parser with its default output name,
    the parsing of the command line, and the loading of the endpoints. The
    command line comes in as what [parse_args] makes of it, and the
    configuration file as what [open] and [json.load] give for its path. *)

(** What [parser.parse_args()] (line 555) makes of the command line. For an
    argument that it does not take it prints the usage and ends the process
    with status 2; for [--help] it prints the help and ends the process with
    status 0 (both through [SystemExit], which no handler of the script
    catches); else it returns the namespace: [--config] and [--output] when
    they are given, and the flags [--quick] and [--verbose]. *)
Inductive parsed_args :=
| UsageError
| HelpShown
| Namespace (config output : option string) (quick verbose : bool).

(** How [main] ends when no exception leaves it. *)
Inductive ending :=
| Return (code : Z)
| SystemExit (status : Z).

(** The keys of a dictionary given by its items, each at its first place. *)
Fixpoint dict_keys (seen : list string) (kvs : list (string * value)) : list string :=
  match kvs with
  | [] => []
  | (k, _) :: kvs' =>
      if bool_decide (k ∈ seen) then dict_keys seen kvs'
      else k :: dict_keys (k :: seen) kvs'
  end.

(** The dictionary given by its items: of two items with one key the later
    one counts, as in [json.load]. *)
Definition dict_of_items (kvs : list (string * value)) : Dict :=
  foldl (λ d kv, <[kv.1 := kv.2]> d) ∅ kvs.

(** [len(v)] *)
Definition py_len (v : value) : exn + Z :=
  match v with
  | VList l => inr (Z.of_nat (length l))
  | VStr s => inr (Z.of_nat (String.length s))
  | VDict kvs => inr (Z.of_nat (length (dict_keys [] kvs)))
  | VNone => inl (TypeError "object of type 'NoneType' has no len()")
  | VBool _ => inl (TypeError "object of type 'bool' has no len()")
  | VNum (Int _) => inl (TypeError "object of type 'int' has no len()")
  | VNum (Float _) => inl (TypeError "object of type 'float' has no len()")
  end.

(** What [for endpoint in v] goes through: the elements of a list, the
    characters of a string, the keys of a dictionary. *)
Definition py_iter (v : value) : exn + list value :=
  match v with
  | VList l => inr l
  | VStr s => inr (map (λ c, VStr (String c "")) (list_ascii_of_string s))
  | VDict kvs => inr (map VStr (dict_keys [] kvs))
  | VNone => inl (TypeError "'NoneType' object is not iterable")
  | VBool _ => inl (TypeError "'bool' object is not iterable")
  | VNum (Int _) => inl (TypeError "'int' object is not iterable")
  | VNum (Float _) => inl (TypeError "'float' object is not iterable")
  end.

(** [endpoint.get], the first thing that [check_endpoint] asks of its
    argument (line 389): only a dictionary has it. *)
Definition as_endpoint (v : value) : exn + Dict :=
  match v with
  | VDict kvs => inr (dict_of_items kvs)
  | VStr _ => inl (AttributeError "'str' object has no attribute 'get'")
  | VList _ => inl (AttributeError "'list' object has no attribute 'get'")
  | VNone => inl (AttributeError "'NoneType' object has no attribute 'get'")
  | VBool _ => inl (AttributeError "'bool' object has no attribute 'get'")
  | VNum (Int _) => inl (AttributeError "'int' object has no attribute 'get'")
  | VNum (Float _) => inl (AttributeError "'float' object has no attribute 'get'")
  end.

(** The [for] loop of [run_checks] over what a configuration file holds,
    which need not be dictionaries: a turn of the loop on a dictionary is
    the turn of [run_checks_loop]. *)
Fixpoint run_checks_loop_json (w : World) (endpoints : list value) : M unit :=
  match endpoints with
  | [] => mret tt
  | endpoint :: rest =>
      endpoint ← lift (as_endpoint endpoint);
      run_checks_loop w [endpoint];;
      run_checks_loop_json w rest
  end.

(** [HealthChecker.run_checks] on what a configuration file holds; its
    first log line takes [len(endpoints)] (line 415). *)
Definition run_checks_json (w : World) (endpoints : value) : M (list Dict) :=
  _ ← lift (py_len endpoints);
  h ← get_self;
  put_self {| results := [];
              critical_failures := critical_failures h;
              warnings := warnings h;
              successes := successes h |};;
  items ← lift (py_iter endpoints);
  run_checks_loop_json w items;;
  h ← get_self;
  mret (results h).

(** Lines 574-592 of [main] on what a configuration file holds. *)
Definition main_json (w : World) (output : string) (quick : bool) (endpoints : value) : M Z :=
  put_self HealthChecker_init;;
  (* Run health checks *)
  results ← run_checks_json w endpoints;
  (* Generate outputs *)
  generate_json_output w results output;;
  (if negb quick then generate_console_report w results else mret tt);;
  (* Determine exit code *)
  checker ← get_self;
  if 0 <? critical_failures checker then mret 2
  else if 0 <? warnings checker then mret 1
  else mret 0.

(** Lines 561-568: the endpoints of the configuration file at [path], where
    [load path] is what [open] and [json.load] give for it. [None] stands
    for the [return 1] of the handler, which takes every exception of the
    [try], that of [len(endpoints)] in its log line among them. *)
Definition load_endpoints (load : string → exn + value) (path : string) : M (option value) :=
  try_except
    (endpoints ← io (load path);
     _ ← lift (py_len endpoints);
     mret (Some endpoints))
    (λ _, mret None).

(** [main], whole. The default of [--output] is made when the parser is
    built (line 548), whatever the command line holds; [--verbose] only
    sets the level of the logger; an empty [--config] counts as none. *)
Definition main_whole (w : World) (load : string → exn + value) (args : parsed_args)
    : M ending :=
  stamp ← datetime_now_strftime w "%Y%m%d-%H%M%S";
  match args with
  | UsageError => mret (SystemExit 2)
  | HelpShown => mret (SystemExit 0)
  | Namespace config output quick verbose =>
      let output := default ("health-data-" +:+ stamp +:+ ".json") output in
      match config with
      | Some (String c path) =>
          (* Load endpoints *)
          loaded ← load_endpoints load (String c path);
          match loaded with
          | None => mret (Return 1)
          | Some endpoints =>
              code ← main_json w output quick endpoints;
              mret (Return code)
          end
      | _ =>
          code ← main w output quick DEFAULT_ENDPOINTS;
          mret (Return code)
      end
  end.

(** [sys.exit(main())] for the whole of [main]. *)
Definition script_exit_status (r : exn + ending) : Z :=
  match r with
  | inr (Return code) => code
  | inr (SystemExit status) => status
  | inl _ => 1
  end.

(** The state before anything ran. *)
Definition initial_state : St :=
  {| clock := 0; stdout := []; files := []; self := HealthChecker_init |}.

(** ** Sample worlds

    [lab] answers for the default endpoints; [offline] is a network where
    every operation times out or fails to resolve. *)

Definition ping_report : string :=
  "3 packets transmitted, 3 received, 0% packet loss, time 2003ms" +:+
  String newline "rtt min/avg/max/mdev = 0.123/0.456/0.789/0.123 ms".

Definition lab : World :=
  {| requests_get := λ url _,
       match url with
       | VStr "https://glpi.harlenmorris.me" => inr (200, Finite 50)
       | VStr "https://kb.harlenmorris.me" => inr (404, Finite 20)
       | VStr "https://dashboard.harlenmorris.me" => inr (200, Finite 1000)
       | VStr "https://intranet.northwoodshealth.local" => inr (503, Finite 8)
       | VStr "https://archive.northwoodshealth.local" =>
           inl (RequestsConnectionError "Max retries exceeded with url: / (Caused by NewConnectionError)")
       | _ => inl (RequestsTimeout "Read timed out.")
       end;
     socket_connect_ex := λ host _ _,
       match host with
       | VStr "dc1.northwoodshealth.local" => inr (0, Finite 3000)
       | VStr "exchange.northwoodshealth.local" => inr (0, Finite 3000.5)
       | VStr "ehr-db.northwoodshealth.local" => inr (0, Finite 12)
       | VStr "backup.northwoodshealth.local" => inr (111, Finite 1)
       | _ => inl (SocketGaierror "[Errno -2] Name or service not known")
       end;
     subprocess_run_ping := λ host _ _,
       match host with
       | VStr "vpn.northwoodshealth.org" => inr (0, ping_report)
       | VStr "printer.northwoodshealth.local" => inr (0, "3 packets transmitted, 3 received")
       | _ => inr (1, "")
       end;
     float_of_str := λ s, if String.eqb s "0.456" then Some (Finite 0.456) else None;
     py_repr := λ _, "<object>";
     now_isoformat := λ n, "2026-01-31T08:00:" +:+ zero_pad 2 (pretty (Z.of_nat n));
     now_strftime := λ _ n, "2026-01-31 08:00:" +:+ zero_pad 2 (pretty (Z.of_nat n));
     open_w := λ _, None |}.

Definition offline : World :=
  {| requests_get := λ _ _, inl (RequestsTimeout "Connection to host timed out.");
     socket_connect_ex := λ _ _ _, inl (SocketGaierror "[Errno -2] Name or service not known");
     subprocess_run_ping := λ _ _ _, inl (SubprocessTimeoutExpired "Command 'ping' timed out");
     float_of_str := λ _, None;
     py_repr := λ _, "<object>";
     now_isoformat := λ n, "2026-01-31T08:00:" +:+ zero_pad 2 (pretty (Z.of_nat n));
     now_strftime := λ _ n, "2026-01-31 08:00:" +:+ zero_pad 2 (pretty (Z.of_nat n));
     open_w := λ _, None |}.

(** * Vocabulary of the properties

    The notions that the statements below are written with, by subject. *)

(** ** States *)

(** The state after one more reading of the clock. *)
Definition tick (st : St) : St := set_clock (S (clock st)) st.

(** ** Latency grading (section 4.3 of the specification) *)

(** The grading as the specification words it, for a latency [t] in
    milliseconds. *)
Definition graded (t : Q) (state : string) : Prop :=
  ((3000 < t)%Q → state = "critical") ∧
  ((1000 < t)%Q ∧ (t <= 3000)%Q → state = "warning") ∧
  ((t <= 1000)%Q → state = "healthy").

(** The [if]/[elif] chain that the three strategies repeat. *)
Definition threshold_chain (x : number) : string :=
  if num_gt x RESPONSE_TIME_CRITICAL then "critical"
  else if num_gt x RESPONSE_TIME_WARN then "warning"
  else "healthy".

(** A successful, available probe with measured latency [t]: an http(s)
    request answered with a 2xx/3xx code, a TCP connect that succeeded, a
    ping that returned 0 and whose average could be read. *)
Inductive measured_success (w : World) (e : Dict) (t : Q) : Prop :=
| success_http u code :
    dict_get e "type" (VStr "tcp") = VStr "http" ∨
    dict_get e "type" (VStr "tcp") = VStr "https" →
    e !! "url" = Some u →
    requests_get w u (dict_get e "timeout" (vint 5)) = inr (code, Finite t) →
    200 ≤ code < 400 →
    measured_success w e t
| success_tcp h p :
    dict_get e "type" (VStr "tcp") = VStr "tcp" →
    e !! "host" = Some h →
    e !! "port" = Some p →
    socket_connect_ex w h p (dict_get e "timeout" (vint 3)) = inr (0, Finite t) →
    measured_success w e t
| success_ping h run_timeout out :
    dict_get e "type" (VStr "tcp") = VStr "ping" →
    e !! "host" = Some h →
    py_mul (dict_get e "timeout" (vint 2)) 3 = inr run_timeout →
    subprocess_run_ping w h (dict_get e "timeout" (vint 2)) run_timeout = inr (0, out) →
    ping_avg_ms w out = Float (Finite t) →
    measured_success w e t.

(** ** Aggregation (section 4.4 of the specification) *)

(** What [run_checks] hands to the report generators: dictionaries with a
    health state and the criticality flag of the endpoint. *)
Definition probe_result (r : Dict) : Prop :=
  is_Some (r !! "status") ∧ is_Some (r !! "critical").

Definition has_state (s : string) (r : Dict) : Prop :=
  r !! "status" = Some (VStr s).

(** The flag is true in Python's sense: [True], or any other truthy value
    that the configuration gave. *)
Definition flagged_critical (r : Dict) : Prop :=
  ∃ c, r !! "critical" = Some c ∧ py_truthy c = true.

(** ** Unknown check types *)

Definition known_check_types : list string :=
  ["http"; "https"; "tcp"; "ping"; "ldap"; "smtp"].

(** The declared type of the descriptor is none of the known ones. (A
    descriptor without a type is a tcp one.) *)
Definition unknown_check_type (e : Dict) : Prop :=
  ∀ s, s ∈ known_check_types → dict_get e "type" (VStr "tcp") ≠ VStr s.

(** The result of the unknown branch of [check_endpoint]. *)
Definition unknown_result (w : World) (e : Dict) (n : value) (st : St) : Dict :=
  {[ "name" := n;
     "type" := dict_get e "type" (VStr "tcp");
     "status" := VStr "unknown";
     "available" := VBool false;
     "details" := VStr "Unknown check type";
     "timestamp" := VStr (now_isoformat w (clock st)) ]}.

(** ** One turn of the dispatcher loop *)

(** The result as [run_checks] stores it: with the flag of the endpoint. *)
Definition with_critical (e r : Dict) : Dict :=
  <["critical" := dict_get e "critical" (VBool false)]> r.

(** The checker after the result [r] of endpoint [e], in state [status],
    was appended and counted. *)
Definition count_result (e r : Dict) (status : value) (h : HealthChecker) : HealthChecker :=
  {| results := results h ++ [with_critical e r];
     critical_failures :=
       if py_eq_str status "healthy" then critical_failures h
       else if py_eq_str status "warning" then critical_failures h
       else if py_truthy (dict_get e "critical" (VBool false)) then critical_failures h + 1
       else critical_failures h;
     warnings :=
       if py_eq_str status "healthy" then warnings h
       else if py_eq_str status "warning" then warnings h + 1
       else warnings h;
     successes :=
       if py_eq_str status "healthy" then successes h + 1 else successes h |}.

(** ** The HTTP strategy *)

(** Values that [timeout * 1000] accepts: anything but [None] and a dict. *)
Definition multipliable (v : value) : Prop :=
  match v with
  | VNone | VDict _ => False
  | _ => True
  end.

(** The detail of a failed request: a fixed text, or a prefix and the first
    50 characters of the error text. *)
Definition http_failure_detail (x : exn) : string :=
  match x with
  | RequestsTimeout _ => "Connection timeout"
  | RequestsConnectionError _ => "Connection refused: " +:+ str_take 50 (exn_str x)
  | _ => "Error: " +:+ str_take 50 (exn_str x)
  end.

(** ** The ping strategy *)

(** The ways in which the timing of a successful [ping] cannot be read:
    its output has no "avg"; the first line with "avg" has fewer than five
    fields between slashes; the fifth field is not a number. *)
Inductive timing_unparsed (w : World) (output : string) : Prop :=
| unparsed_no_avg :
    str_contains "avg" output = false →
    timing_unparsed w output
| unparsed_few_fields avg_line others :
    filter (λ l, str_contains "avg" l = true) (str_split newline output) = avg_line :: others →
    str_split "/" avg_line !! 4%nat = None →
    timing_unparsed w output
| unparsed_not_a_number avg_line others field :
    filter (λ l, str_contains "avg" l = true) (str_split newline output) = avg_line :: others →
    str_split "/" avg_line !! 4%nat = Some field →
    float_of_str w field = None →
    timing_unparsed w output.

(** ** The console report *)

(** Every exception that [m] can raise satisfies [P]. *)
Definition raises_only {A} (P : exn → Prop) (m : M A) : Prop :=
  ∀ st, match fst (m st) with inl x => P x | inr _ => True end.

Definition not_zero_division (x : exn) : Prop :=
  match x with
  | ZeroDivisionError _ => False
  | _ => True
  end.

(** ** Timeouts *)

(** The timeout a strategy works with: the one given in the descriptor,
    whatever it is, and the default of the strategy when none is given. *)
Definition effective_timeout (e : Dict) (dflt : Z) : value :=
  match e !! "timeout" with
  | Some given => given
  | None => vint dflt
  end.

(** Two worlds that answer alike when asked with the given timeouts (and
    have the same clock and the same [float] and [repr]); at any other
    timeout they may differ. *)
Definition agree_at (t_http t_tcp t_ping : value) (w1 w2 : World) : Prop :=
  (∀ url, requests_get w1 url t_http = requests_get w2 url t_http) ∧
  (∀ host port, socket_connect_ex w1 host port t_tcp = socket_connect_ex w2 host port t_tcp) ∧
  (∀ host run_timeout,
     subprocess_run_ping w1 host t_ping run_timeout =
     subprocess_run_ping w2 host t_ping run_timeout) ∧
  (∀ s, float_of_str w1 s = float_of_str w2 s) ∧
  (∀ v, py_repr w1 v = py_repr w2 v) ∧
  (∀ n, now_isoformat w1 n = now_isoformat w2 n).

(** A world that answers as [lab] when asked with timeout 0 and refuses any
    other timeout. *)
Definition lab_at_zero : World :=
  let refuse {A} : exn + A := inl (OtherException "asked with another timeout") in
  {| requests_get := λ url t,
       match t with VNum (Int 0) => requests_get lab url t | _ => refuse end;
     socket_connect_ex := λ host port t,
       match t with VNum (Int 0) => socket_connect_ex lab host port t | _ => refuse end;
     subprocess_run_ping := λ host t run_timeout,
       match t with VNum (Int 0) => subprocess_run_ping lab host t run_timeout | _ => refuse end;
     float_of_str := float_of_str lab;
     py_repr := py_repr lab;
     now_isoformat := now_isoformat lab;
     now_strftime := now_strftime lab;
     open_w := open_w lab |}.

(** A world in which every operation fails and tells the timeout it was
    asked with. *)
Definition telltale : World :=
  let show (t : value) : string :=
    match t with
    | VNum (Int z) => pretty z
    | _ => "?"
    end in
  {| requests_get := λ _ t, inl (RequestsTimeout ("timeout=" +:+ show t));
     socket_connect_ex := λ _ _ t, inl (OtherException ("timeout=" +:+ show t));
     subprocess_run_ping := λ _ t run_timeout,
       inl (OtherException ("-W " +:+ show t +:+ " timeout=" +:+ show run_timeout));
     float_of_str := λ _, None;
     py_repr := λ _, "<object>";
     now_isoformat := λ _, "2026-01-31T08:00:00";
     now_strftime := λ _ _, "2026-01-31 08:00:00";
     open_w := λ _, None |}.

(** The field [k] of the result of a check, if it gave one. *)
Definition result_field (k : string) (o : (exn + Dict) * St) : option value :=
  match fst o with
  | inr r => r !! k
  | inl _ => None
  end.

(** ** The dispatcher *)

(** The descriptor carries what its strategy reads with [endpoint[...]]: a
    name; a url for http/https (and a timeout that [timeout * 1000]
    accepts); a host and a port for tcp; a host for ping, ldap and smtp. *)
Definition complete (e : Dict) : Prop :=
  let check_type := dict_get e "type" (VStr "tcp") in
  is_Some (e !! "name") ∧
  if py_eq_str check_type "http" || py_eq_str check_type "https" then
    is_Some (e !! "url") ∧ multipliable (dict_get e "timeout" (vint 5))
  else if py_eq_str check_type "tcp" then
    is_Some (e !! "host") ∧ is_Some (e !! "port")
  else if py_eq_str check_type "ping" || py_eq_str check_type "ldap"
          || py_eq_str check_type "smtp" then
    is_Some (e !! "host")
  else True.

(** The operation behind the probe of [e] raised [x]. *)
Inductive probe_raised (w : World) (e : Dict) (x : exn) : Prop :=
| raised_http u :
    py_eq_str (dict_get e "type" (VStr "tcp")) "http"
      || py_eq_str (dict_get e "type" (VStr "tcp")) "https" = true →
    e !! "url" = Some u →
    requests_get w u (dict_get e "timeout" (vint 5)) = inl x →
    probe_raised w e x
| raised_tcp h p :
    dict_get e "type" (VStr "tcp") = VStr "tcp" →
    e !! "host" = Some h →
    e !! "port" = Some p →
    socket_connect_ex w h p (dict_get e "timeout" (vint 3)) = inl x →
    probe_raised w e x
| raised_ping_timeout h :
    dict_get e "type" (VStr "tcp") = VStr "ping" →
    e !! "host" = Some h →
    py_mul (dict_get e "timeout" (vint 2)) 3 = inl x →
    probe_raised w e x
| raised_ping h run_timeout :
    dict_get e "type" (VStr "tcp") = VStr "ping" →
    e !! "host" = Some h →
    py_mul (dict_get e "timeout" (vint 2)) 3 = inr run_timeout →
    subprocess_run_ping w h (dict_get e "timeout" (vint 2)) run_timeout = inl x →
    probe_raised w e x
| raised_ldap h :
    dict_get e "type" (VStr "tcp") = VStr "ldap" →
    e !! "host" = Some h →
    socket_connect_ex w h (dict_get e "port" (vint 389)) (dict_get e "timeout" (vint 3)) = inl x →
    probe_raised w e x
| raised_smtp h :
    dict_get e "type" (VStr "tcp") = VStr "smtp" →
    e !! "host" = Some h →
    socket_connect_ex w h (dict_get e "port" (vint 25)) (dict_get e "timeout" (vint 5)) = inl x →
    probe_raised w e x.

(** The detail names the failure or quotes the first 50 characters of the
    error text. *)
Definition carries_error_text (x : exn) (detail : string) : Prop :=
  detail ∈ ["Connection timeout"; "DNS resolution failed"; "Ping timeout"] ∨
  ∃ prefix, detail = prefix +:+ str_take 50 (exn_str x).

Definition failure_result (x : exn) (r : Dict) : Prop :=
  r !! "status" = Some (VStr "critical") ∧
  r !! "available" = Some (VBool false) ∧
  ∃ detail, r !! "details" = Some (VStr detail) ∧ carries_error_text x detail.

Definition named_result (n : value) (r : Dict) : Prop :=
  r !! "name" = Some n ∧ ∃ s, r !! "status" = Some (VStr s).

(** The result that [run_checks] returns for the descriptor [e]. *)
Definition result_for (w : World) (e r : Dict) : Prop :=
  r !! "name" = e !! "name" ∧
  r !! "critical" = Some (dict_get e "critical" (VBool false)) ∧
  (∃ s, r !! "status" = Some (VStr s)) ∧
  ∀ x, probe_raised w e x → failure_result x r.

(** ** Exit code and Overall Status *)

(** The Overall Status written by the latest [generate_json_output]. *)
Definition last_overall_status (st : St) : option string :=
  match files st with
  | (_, doc) :: _ => Some (overall_status doc)
  | [] => None
  end.

(** ** Repeated cycles *)

(** A result without the time it was taken at. *)
Definition view (r : Dict) : Dict := delete "timestamp" r.

(** The states [st] and [st'] differ in the clock at most. *)
Definition same_but_clock (st st' : St) : Prop :=
  self st' = self st ∧ files st' = files st ∧ stdout st' = stdout st.

(** Two runs of a check, from the states [st1] and [st2]: both raise the
    same exception, or both give a result, the same but for the time. *)
Definition probe_rel (o1 : (exn + Dict) * St) (st1 : St)
    (o2 : (exn + Dict) * St) (st2 : St) : Prop :=
  same_but_clock st1 (snd o1) ∧ same_but_clock st2 (snd o2) ∧
  match fst o1, fst o2 with
  | inl x1, inl x2 => x1 = x2
  | inr r1, inr r2 => view r1 = view r2 ∧ ∃ s, r1 !! "status" = Some (VStr s)
  | _, _ => False
  end.

(** The counters of [h'] are those of [h] plus the given increments. *)
Definition advanced_by (dc dw ds : Z) (h h' : HealthChecker) : Prop :=
  critical_failures h' = critical_failures h + dc ∧
  warnings h' = warnings h + dw ∧
  successes h' = successes h + ds.

Definition timeless (cond : Dict → exn + bool) : Prop :=
  ∀ r1 r2, view r1 = view r2 → cond r1 = cond r2.

(** Whether [m1] and [m2] raise, and what, does not depend on the states
    they start from; what they return is related by [VR]. *)
Definition same_outcome {A B} (VR : A → B → Prop) (m1 : M A) (m2 : M B) : Prop :=
  ∀ st1 st2,
    match fst (m1 st1), fst (m2 st2) with
    | inl x1, inl x2 => x1 = x2
    | inr a, inr b => VR a b
    | _, _ => False
    end.

Definition any {A B} : A → B → Prop := λ _ _, True.

(** [m] leaves the checker and the files as they are. *)
Definition keeps_checker {A} (m : M A) : Prop :=
  ∀ st, self (snd (m st)) = self st ∧ files (snd (m st)) = files st.

(** The exit code that [main] derives from the counters. *)
Definition exit_code_of (h : HealthChecker) : Z :=
  if 0 <? critical_failures h then 2
  else if 0 <? warnings h then 1
  else 0.

(** The files written during a cycle: none, or one document. *)
Definition wrote (output : string) (overall : option string) (st st' : St) : Prop :=
  match overall with
  | None => files st' = files st
  | Some o => ∃ doc, files st' = (output, doc) :: files st ∧ overall_status doc = o
  end.

Definition counters_nonneg (h : HealthChecker) : Prop :=
  0 ≤ critical_failures h ∧ 0 ≤ warnings h ∧ 0 ≤ successes h.

(** The health states of the results that the checker holds, in order. *)
Definition health_states (st : St) : list (option value) :=
  map (λ r : Dict, r !! "status") (results (self st)).

(** ** Shape of the results *)

(** What every result of a check looks like: the six keys that all the
    result dictionaries of the script have, and either an available result
    with a numeric response time and one of the three graded states, or an
    unavailable one in state critical or unknown. *)
Definition result_schema (r : Dict) : Prop :=
  is_Some (r !! "name") ∧
  is_Some (r !! "type") ∧
  (∃ d, r !! "details" = Some (VStr d)) ∧
  (∃ ts, r !! "timestamp" = Some (VStr ts)) ∧
  ((r !! "available" = Some (VBool true) ∧
    (∃ x, r !! "response_time_ms" = Some (VNum x)) ∧
    (has_state "healthy" r ∨ has_state "warning" r ∨ has_state "critical" r))
   ∨
   (r !! "available" = Some (VBool false) ∧
    (has_state "critical" r ∨ has_state "unknown" r))).

(** The type that the result reports for a descriptor of declared type [t]. *)
Definition reported_type (t : value) : value :=
  if py_eq_str t "https" then VStr "http" else t.

(** [o] with the type of its result, if any, set to [t]. *)
Definition relabel (t : string) (o : (exn + Dict) * St) : (exn + Dict) * St :=
  match o with
  | (inr r, st) => (inr (<["type" := VStr t]> r), st)
  | (inl x, st) => (inl x, st)
  end.

(** The result of a check that gave one (the empty dictionary if it raised). *)
Definition result_of (o : (exn + Dict) * St) : Dict :=
  match fst o with
  | inr r => r
  | inl _ => ∅
  end.

(** The keys of a descriptor that the checks read. *)
Definition probe_keys : list string :=
  ["name"; "type"; "url"; "host"; "port"; "timeout"].

(** ** Counting results *)

(** [r['status'] == s], false for a dictionary without a status. *)
Definition in_state (s : string) (r : Dict) : bool :=
  match r !! "status" with
  | Some v => py_eq_str v s
  | None => false
  end.

(** The truth value of the criticality flag of a result. *)
Definition flag_set (r : Dict) : bool :=
  match r !! "critical" with
  | Some c => py_truthy c
  | None => false
  end.

(** What the loop of [run_checks] counts as a critical failure: a result
    that is neither healthy nor warning, on an endpoint marked critical. *)
Definition counted_critical (r : Dict) : bool :=
  negb (in_state "healthy" r) && negb (in_state "warning" r) && flag_set r.

(** What [generate_json_output] counts as critical: the state critical on
    an endpoint marked critical. *)
Definition reported_critical (r : Dict) : bool :=
  in_state "critical" r && flag_set r.

(** How many results pass the test [p]. *)
Fixpoint count_where (p : Dict → bool) (rs : list Dict) : Z :=
  match rs with
  | [] => 0
  | r :: rs' => (if p r then 1 else 0) + count_where p rs'
  end.

(** The result [r] is the one that [run_checks] stores for the descriptor
    [e]: its name, its flag, its reported type, the shape of a result, and
    the state unknown for an unknown check type only. *)
Definition echoes (e r : Dict) : Prop :=
  r !! "name" = e !! "name" ∧
  r !! "critical" = Some (dict_get e "critical" (VBool false)) ∧
  r !! "type" = Some (reported_type (dict_get e "type" (VStr "tcp"))) ∧
  result_schema r ∧
  (has_state "unknown" r ↔ unknown_check_type e).

(** [not r.get('available', False)] as a test. *)
Definition unavailable (r : Dict) : bool :=
  negb (py_truthy (dict_get r "available" (VBool false))).

(** A result as the checker holds it: the shape of a result, and a flag. *)
Definition stored_result (r : Dict) : Prop :=
  result_schema r ∧ is_Some (r !! "critical").

(** The Overall Status that goes with an exit code. *)
Definition status_of_exit_code (code : Z) : string :=
  if code =? 2 then "critical" else if code =? 1 then "warning" else "healthy".

(** ** The console report *)

(** The name of the result is a string, as the format [:30s] wants it. *)
Definition printable (r : Dict) : Prop := ∃ s, r !! "name" = Some (VStr s).

(** The response time of the result is one that the format [:6.2f] takes:
    not an int too large for a float. *)
Definition float_sized (r : Dict) : Prop :=
  ∀ z, dict_get r "response_time_ms" (vint 0) = VNum (Int z) →
       Z.abs z < 2 ^ 1024 - 2 ^ 970.

(** The results that the report lists: those of the three states it groups
    by. *)
Definition listed (r : Dict) : bool :=
  in_state "healthy" r || in_state "warning" r || in_state "critical" r.

Definition name_column (r : Dict) : string :=
  match r !! "name" with
  | Some (VStr s) => pad_right 30 s
  | _ => ""
  end.

Definition healthy_row (r : Dict) : string :=
  "  ✓ " +:+ name_column r +:+ " - " +:+
  match py_format_f 6 2 (dict_get r "response_time_ms" (vint 0)) with
  | inr s => s
  | inl _ => ""
  end +:+ "ms".

Definition warning_row (w : World) (r : Dict) : string :=
  "  ⚠ " +:+ name_column r +:+ " - " +:+ py_str w (dict_get r "details" VNone).

Definition critical_row (w : World) (r : Dict) : string :=
  "  ✗ " +:+ name_column r +:+ " - " +:+ py_str w (dict_get r "details" VNone) +:+
  (if py_truthy (dict_get r "critical" VNone) then " [CRITICAL]" else "").

(** A group of the report: nothing when it is empty, else its title, its
    rows and an empty line. *)
Definition report_section (title : string) (rows : list string) : list string :=
  match rows with
  | [] => []
  | _ => title :: rows ++ [""]
  end.

(** What the calls of [print] write in a report that goes through, for the
    time [now]: one item per call. The first item is a line break and the
    rule, two lines on the console. *)
Definition report_lines (w : World) (rs : list Dict) (now : string) : list string :=
  let healthy := List.filter (in_state "healthy") rs in
  let health_score :=
    (inject_Z (Z.of_nat (length healthy)) / inject_Z (Z.of_nat (length rs)) * 100)%Q in
  [String newline (str_repeat "=" 80); "NETWORK HEALTH MONITORING REPORT";
   str_repeat "=" 80; "Generated: " +:+ now;
   "Total Endpoints: " +:+ pretty (Z.of_nat (length rs)); ""] ++
  report_section "✓ HEALTHY SERVICES:" (map healthy_row healthy) ++
  report_section "⚠ WARNINGS:" (map (warning_row w) (List.filter (in_state "warning") rs)) ++
  report_section "✗ CRITICAL/DOWN:"
    (map (critical_row w) (List.filter (in_state "critical") rs)) ++
  [str_repeat "-" 80;
   "OVERALL HEALTH SCORE: " +:+ format_f 1 (Float (Finite health_score)) +:+ "%";
   (if Qeq_bool health_score 100 then "Status: ✓ ALL SYSTEMS OPERATIONAL"
    else if Qle_bool 90 health_score then "Status: ⚠ DEGRADED PERFORMANCE"
    else "Status: ✗ CRITICAL ISSUES DETECTED");
   str_repeat "=" 80].

(** The calls of [print] that a group of [k] results takes in the report. *)
Definition group_prints (k : Z) : Z := if k =? 0 then 0 else k + 2.

(** ** Lines of the ping output *)

(** The separator does not occur in the string. *)
Fixpoint free_of (sep : ascii) (s : string) : bool :=
  match s with
  | EmptyString => true
  | String c s' => negb (Ascii.eqb c sep) && free_of sep s'
  end.

(** ** The whole of [main] *)

(** The value is a list of dictionaries, those of [kvss]. *)
Definition list_of_objects (v : value) (kvss : list (list (string * value))) : Prop :=
  v = VList (map VDict kvss).

(** Some element of what the loop goes through is not a dictionary. *)
Definition has_non_object (v : value) : Prop :=
  ∃ items, py_iter v = inr items ∧ Exists (λ i, ∀ kvs, i ≠ VDict kvs) items.

(** The outcome of the engine as an outcome of [main]. *)
Definition returned (r : exn + Z) : exn + ending :=
  match r with
  | inr code => inr (Return code)
  | inl x => inl x
  end.

(** * Properties *)

(** ** Reasoning about the monad *)

Ltac unfold_monad :=
  unfold mbind, mret, M_mbind, M_mret, M_bind, M_ret, lift, io, raise,
    try_except, get_self, put_self, print, datetime_now_isoformat,
    datetime_now_strftime in *.

Lemma getitem_Some (d : Dict) k v : d !! k = Some v → getitem d k = inr v.
Proof. unfold getitem. by intros ->. Qed.

Lemma getitem_None (d : Dict) k : d !! k = None → getitem d k = inl (KeyError k).
Proof. unfold getitem. by intros ->. Qed.

Lemma dict_get_Some (d : Dict) k v dflt : d !! k = Some v → dict_get d k dflt = v.
Proof. unfold dict_get. by intros ->. Qed.

Lemma dict_get_None (d : Dict) k dflt : d !! k = None → dict_get d k dflt = dflt.
Proof. unfold dict_get. by intros ->. Qed.

(** ** Latency grading (section 4.3 of the specification) *)

Lemma threshold_chain_graded (t : Q) : graded t (threshold_chain (Float (Finite t))).
Proof.
  unfold graded, threshold_chain, num_gt, float_gt,
    RESPONSE_TIME_CRITICAL, RESPONSE_TIME_WARN.
  destruct (Qle_bool t (inject_Z 3000)) eqn:H3;
    destruct (Qle_bool t (inject_Z 1000)) eqn:H1; simpl;
    rewrite ?Qle_bool_iff in *;
    try (apply not_true_iff_false in H3; rewrite Qle_bool_iff in H3);
    try (apply not_true_iff_false in H1; rewrite Qle_bool_iff in H1);
    change (inject_Z 3000) with 3000%Q in *; change (inject_Z 1000) with 1000%Q in *;
    repeat split; intros; try done.
  all: try (exfalso; lra).
Qed.

(** An unmeasured latency ([0]) is in the lowest tier. *)
Lemma threshold_chain_zero : threshold_chain (Int 0) = "healthy".
Proof. reflexivity. Qed.

Section Grading.

Variable w : World.

Lemma check_http_graded (e : Dict) st n u code t :
  e !! "name" = Some n →
  e !! "url" = Some u →
  requests_get w u (dict_get e "timeout" (vint 5)) = inr (code, Finite t) →
  200 ≤ code < 400 →
  ∃ r s, check_http w e st = (inr r, tick st) ∧
         r !! "available" = Some (VBool true) ∧
         r !! "status" = Some (VStr s) ∧ graded t s.
Proof.
  intros Hn Hu Hget [_ Hcode].
  unfold check_http. unfold_monad.
  rewrite (getitem_Some _ _ _ Hu), Hget, (getitem_Some _ _ _ Hn). simpl.
  assert ((500 <=? code) = false) as -> by lia.
  assert ((400 <=? code) = false) as -> by lia.
  eexists _, (threshold_chain (Float (Finite t))).
  split; [reflexivity|]. split; [reflexivity|]. split; [reflexivity|].
  apply threshold_chain_graded.
Qed.

Lemma check_tcp_graded (e : Dict) st n h p t :
  e !! "name" = Some n →
  e !! "host" = Some h →
  e !! "port" = Some p →
  socket_connect_ex w h p (dict_get e "timeout" (vint 3)) = inr (0, Finite t) →
  ∃ r s, check_tcp w e st = (inr r, tick st) ∧
         r !! "available" = Some (VBool true) ∧
         r !! "status" = Some (VStr s) ∧ graded t s.
Proof.
  intros Hn Hh Hp Hconn.
  unfold check_tcp. unfold_monad.
  rewrite (getitem_Some _ _ _ Hh), (getitem_Some _ _ _ Hp), Hconn.
  rewrite (getitem_Some _ _ _ Hn). simpl.
  eexists _, (threshold_chain (Float (Finite t))).
  split; [reflexivity|]. split; [reflexivity|]. split; [reflexivity|].
  apply threshold_chain_graded.
Qed.

Lemma check_ping_graded (e : Dict) st n h run_timeout out t :
  e !! "name" = Some n →
  e !! "host" = Some h →
  py_mul (dict_get e "timeout" (vint 2)) 3 = inr run_timeout →
  subprocess_run_ping w h (dict_get e "timeout" (vint 2)) run_timeout = inr (0, out) →
  ping_avg_ms w out = Float (Finite t) →
  ∃ r s, check_ping w e st = (inr r, tick st) ∧
         r !! "available" = Some (VBool true) ∧
         r !! "status" = Some (VStr s) ∧ graded t s.
Proof.
  intros Hn Hh Hmul Hrun Havg.
  unfold check_ping. unfold_monad.
  rewrite (getitem_Some _ _ _ Hh), Hmul, Hrun, (getitem_Some _ _ _ Hn).
  cbn -[ping_avg_ms insert]. rewrite Havg.
  eexists _, (threshold_chain (Float (Finite t))).
  split; [reflexivity|]. split; [reflexivity|]. split; [reflexivity|].
  apply threshold_chain_graded.
Qed.

End Grading.

Lemma graded_boundaries t s :
  graded t s → ((t == 1000)%Q → s = "healthy") ∧ ((t == 3000)%Q → s = "warning").
Proof.
  intros (_ & Hw & Hh). split; intros Ht.
  - apply Hh. lra.
  - apply Hw. lra.
Qed.

(** C3. A successful probe with measured latency [t] ms is given the state
    critical when [t > 3000], warning when [1000 < t <= 3000] and healthy
    when [t <= 1000], by the http, the tcp and the ping strategy alike; at
    exactly 1000 it is healthy and at exactly 3000 it is warning. *)
Theorem latency_grading w (e : Dict) st n t :
  measured_success w e t →
  e !! "name" = Some n →
  ∃ r s, check_endpoint w e st = (inr r, tick st) ∧
         r !! "available" = Some (VBool true) ∧
         r !! "status" = Some (VStr s) ∧
         graded t s ∧
         ((t == 1000)%Q → s = "healthy") ∧ ((t == 3000)%Q → s = "warning").
Proof.
  intros Hs Hn.
  assert (∃ r s, check_endpoint w e st = (inr r, tick st) ∧
                 r !! "available" = Some (VBool true) ∧
                 r !! "status" = Some (VStr s) ∧ graded t s) as (r & s & ? & ? & ? & Hg).
  { unfold check_endpoint.
    destruct Hs as [u code [Ht|Ht] Hu Hget Hcode | h p Ht Hh Hp Hconn
                   | h rt out Ht Hh Hmul Hrun Havg]; rewrite Ht; simpl.
    - by eapply check_http_graded.
    - by eapply check_http_graded.
    - by eapply check_tcp_graded.
    - by eapply check_ping_graded. }
  destruct (graded_boundaries _ _ Hg) as [? ?].
  exists r, s. auto 10.
Qed.

(** The dashboard of the default endpoints answers in exactly 1000 ms in
    [lab]: healthy. *)
Lemma latency_grading_witness :
  let e : Dict := {[ "name" := VStr "IT Ops Dashboard"; "type" := VStr "http";
                     "url" := VStr "https://dashboard.harlenmorris.me";
                     "critical" := VBool false; "timeout" := vint 5 ]} in
  measured_success lab e 1000 ∧
  e !! "name" = Some (VStr "IT Ops Dashboard") ∧
  ∃ r s, check_endpoint lab e initial_state = (inr r, tick initial_state) ∧
         r !! "available" = Some (VBool true) ∧
         r !! "status" = Some (VStr s) ∧
         graded 1000 s ∧
         ((1000 == 1000)%Q → s = "healthy") ∧ ((1000 == 3000)%Q → s = "warning").
Proof.
  intros e.
  assert (Hs : measured_success lab e 1000).
  { eapply (success_http lab e 1000 (VStr "https://dashboard.harlenmorris.me") 200).
    - left. reflexivity.
    - reflexivity.
    - reflexivity.
    - lia. }
  split; [exact Hs|]. split; [reflexivity|].
  exact (latency_grading lab e initial_state (VStr "IT Ops Dashboard") 1000 Hs eq_refl).
Defined.

(** ** Aggregation (section 4.4 of the specification) *)

Lemma py_eq_str_true v s : py_eq_str v s = true ↔ v = VStr s.
Proof.
  destruct v; simpl; try (split; [discriminate|congruence]).
  rewrite String.eqb_eq. split; congruence.
Qed.

Lemma Exists_equiv {A} (P Q : A → Prop) (l : list A) :
  (∀ x, P x ↔ Q x) → Exists P l ↔ Exists Q l.
Proof.
  intros HPQ. rewrite !Exists_exists. split; intros (x & ? & ?); exists x; split; auto;
    by apply HPQ.
Qed.

Lemma count_if_spec cond rs :
  Forall (λ r, ∃ b, cond r = inr b) rs →
  ∃ n, count_if cond rs = inr n ∧ 0 ≤ n ∧
       (0 < n ↔ Exists (λ r, cond r = inr true) rs).
Proof.
  induction 1 as [|r rs [b Hb] _ (n & Hn & Hpos & Hiff)]; simpl.
  - exists 0. split; [done|]. split; [lia|]. rewrite Exists_nil. lia.
  - rewrite Hb, Hn. eexists. split; [done|]. rewrite Exists_cons, Hb.
    destruct b; split; try lia.
    + split; [auto | lia].
    + split; [intros ?; right; apply Hiff; lia | intros [?|?]; [done | apply Hiff in H; lia]].
Qed.

Lemma status_is_total s r : probe_result r → ∃ b, status_is s r = inr b.
Proof. intros [[v Hv] _]. unfold status_is. rewrite (getitem_Some _ _ _ Hv). eauto. Qed.

Lemma status_is_true s r : status_is s r = inr true ↔ has_state s r.
Proof.
  unfold status_is, has_state, getitem. destruct (r !! "status") as [v|]; [|split; done].
  split.
  - intros [= H]. apply py_eq_str_true in H. by subst.
  - intros [= ->]. f_equal. by apply py_eq_str_true.
Qed.

Lemma critical_and_marked_total r : probe_result r → ∃ b, critical_and_marked r = inr b.
Proof.
  intros [[v Hv] [c Hc]]. unfold critical_and_marked.
  rewrite (getitem_Some _ _ _ Hv), (getitem_Some _ _ _ Hc).
  destruct (py_eq_str v "critical"); eauto.
Qed.

Lemma critical_and_marked_true r :
  critical_and_marked r = inr true ↔ has_state "critical" r ∧ flagged_critical r.
Proof.
  unfold critical_and_marked, has_state, flagged_critical, getitem.
  destruct (r !! "status") as [v|]; [|split; [done | by intros [? _]]].
  destruct (py_eq_str v "critical") eqn:Hv.
  - apply py_eq_str_true in Hv as ->.
    destruct (r !! "critical") as [c|].
    + split.
      * intros [= H]. eauto.
      * intros [_ (c' & [= <-] & ->)]. done.
    + split; [done | by intros [_ (? & ? & _)]].
  - split; [done|]. intros [[= ->] _]. done.
Qed.

(** C1. The Overall Status of the JSON document is critical exactly when
    some result is in state critical with a true criticality flag; failing
    that it is warning exactly when some result is in state warning; failing
    both it is healthy. Results in state critical whose flag is false never
    make it critical, however many they are. *)
Theorem overall_status_rule w (results : list Dict) st :
  Forall probe_result results →
  ∃ doc, json_document w results st = (inr doc, tick st) ∧
    let escalated := Exists (λ r, has_state "critical" r ∧ flagged_critical r) results in
    let degraded := Exists (has_state "warning") results in
    (overall_status doc = "critical" ↔ escalated) ∧
    (overall_status doc = "warning" ↔ ¬ escalated ∧ degraded) ∧
    (overall_status doc = "healthy" ↔ ¬ escalated ∧ ¬ degraded) ∧
    (Forall (λ r, has_state "critical" r → ¬ flagged_critical r) results →
     overall_status doc ≠ "critical").
Proof.
  intros Hwf.
  destruct (count_if_spec critical_and_marked results) as (nc & Hc & Hc0 & Hci).
  { eapply Forall_impl; [exact Hwf|]. apply critical_and_marked_total. }
  destruct (count_if_spec (status_is "warning") results) as (nw & Hw & Hw0 & Hwi).
  { eapply Forall_impl; [exact Hwf|]. apply status_is_total. }
  destruct (count_if_spec (status_is "healthy") results) as (nh & Hh & _ & _).
  { eapply Forall_impl; [exact Hwf|]. apply status_is_total. }
  destruct (count_if_spec not_available results) as (nd & Hd & _ & _).
  { apply Forall_forall. intros r _. unfold not_available. eauto. }
  unfold json_document. unfold_monad. rewrite Hc, Hw. simpl. rewrite Hh, Hd.
  eexists. split; [reflexivity|]. simpl.
  assert (Exists (λ r, has_state "critical" r ∧ flagged_critical r) results ↔ 0 < nc) as He.
  { rewrite Hci. apply Exists_equiv. intros r. symmetry. apply critical_and_marked_true. }
  assert (Exists (has_state "warning") results ↔ 0 < nw) as Hg.
  { rewrite Hwi. apply Exists_equiv. intros r. symmetry. apply status_is_true. }
  rewrite He, Hg.
  assert (Forall (λ r, has_state "critical" r → ¬ flagged_critical r) results → ¬ 0 < nc) as Hn.
  { intros Hall Hpos. apply He in Hpos. apply Exists_exists in Hpos as (r & Hin & Hs & Hf).
    rewrite Forall_forall in Hall. by apply (Hall r). }
  destruct (0 <? nc) eqn:E1; [apply Z.ltb_lt in E1 | apply Z.ltb_ge in E1];
    [|destruct (0 <? nw) eqn:E2; [apply Z.ltb_lt in E2 | apply Z.ltb_ge in E2]].
  all: repeat split; try done; try lia; try (intros; exfalso; lia).
  all: try (intros [? ?]; exfalso; lia).
  all: try (intros H; apply Hn in H; lia).
Qed.

(** Two endpoints that are down without being marked critical and one slow
    endpoint: the Overall Status is warning, not critical. *)
Lemma overall_status_rule_witness :
  let results : list Dict :=
    [ {[ "name" := VStr "Backup Server"; "status" := VStr "critical";
         "available" := VBool false; "critical" := VBool false ]};
      {[ "name" := VStr "BookStack KB"; "status" := VStr "critical";
         "available" := VBool false; "critical" := VBool false ]};
      {[ "name" := VStr "IT Ops Dashboard"; "status" := VStr "warning";
         "available" := VBool true; "critical" := VBool true ]} ] in
  Forall probe_result results ∧
  ∃ doc, json_document lab results initial_state = (inr doc, tick initial_state) ∧
         overall_status doc = "warning".
Proof.
  intros results.
  assert (Hwf : Forall probe_result results).
  { repeat constructor; eexists; reflexivity. }
  split; [exact Hwf|].
  destruct (overall_status_rule lab results initial_state Hwf) as (doc & Hdoc & _ & Hw & _).
  exists doc. split; [exact Hdoc|].
  vm_compute in Hdoc. injection Hdoc as <-. reflexivity.
Defined.

(** ** Unknown check types *)

Lemma py_eq_str_false v s : v ≠ VStr s → py_eq_str v s = false.
Proof.
  intros Hne. destruct (py_eq_str v s) eqn:E; [|done].
  by apply py_eq_str_true in E.
Qed.

Lemma unknown_check_type_dispatch (e : Dict) :
  unknown_check_type e →
  Forall (λ s, py_eq_str (dict_get e "type" (VStr "tcp")) s = false) known_check_types.
Proof.
  intros Hu. apply Forall_forall. intros s Hs. apply py_eq_str_false. by apply Hu.
Qed.

Lemma check_endpoint_unknown w (e : Dict) st n :
  e !! "name" = Some n →
  unknown_check_type e →
  check_endpoint w e st = (inr (unknown_result w e n st), tick st).
Proof.
  intros Hn Hu. apply unknown_check_type_dispatch in Hu.
  unfold known_check_types in Hu. repeat (apply Forall_cons in Hu as [? Hu]).
  unfold check_endpoint. repeat match goal with H : py_eq_str _ _ = false |- _ => rewrite H; clear H end.
  simpl. unfold_monad. rewrite (getitem_Some _ _ _ Hn). reflexivity.
Qed.

(** ** One turn of the dispatcher loop *)

Lemma getitem_insert_eq (d : Dict) k v : getitem (<[k:=v]> d) k = inr v.
Proof. unfold getitem. by rewrite lookup_insert_eq. Qed.

Lemma getitem_insert_ne (d : Dict) k k' v : k ≠ k' → getitem (<[k:=v]> d) k' = getitem d k'.
Proof. intros. unfold getitem. by rewrite lookup_insert_ne. Qed.

Lemma run_checks_loop_cons w (e : Dict) rest st r st1 status :
  check_endpoint w e st = (inr r, st1) →
  r !! "status" = Some status →
  run_checks_loop w (e :: rest) st =
  run_checks_loop w rest (set_self (count_result e r status (self st1)) st1).
Proof.
  intros Hc Hs. simpl. unfold_monad. rewrite Hc. simpl.
  rewrite !getitem_insert_ne by done. rewrite (getitem_Some _ _ _ Hs).
  rewrite getitem_insert_eq. unfold count_result, with_critical.
  destruct (py_eq_str status "healthy"); [reflexivity|].
  destruct (py_eq_str status "warning"); [reflexivity|].
  destruct (py_truthy _); reflexivity.
Qed.

Lemma run_checks_loop_raise w (e : Dict) rest st x st1 :
  check_endpoint w e st = (inl x, st1) →
  run_checks_loop w (e :: rest) st = (inl x, st1).
Proof. intros Hc. simpl. unfold_monad. by rewrite Hc. Qed.

(** C5 (amended). A descriptor that has a name and whose check type is none
    of http, https, tcp, ping, ldap, smtp gets the state unknown, is
    unavailable, has the detail "Unknown check type" and echoes the given
    type; producing it raises nothing, and the loop of [run_checks] goes on
    with the endpoints left. *)
Theorem unknown_type_result w (e : Dict) st n :
  e !! "name" = Some n →
  unknown_check_type e →
  ∃ r, check_endpoint w e st = (inr r, tick st) ∧
       r !! "status" = Some (VStr "unknown") ∧
       r !! "available" = Some (VBool false) ∧
       r !! "details" = Some (VStr "Unknown check type") ∧
       r !! "type" = Some (dict_get e "type" (VStr "tcp")) ∧
       r !! "name" = Some n ∧
       ∀ rest, run_checks_loop w (e :: rest) st =
               run_checks_loop w rest
                 (set_self (count_result e r (VStr "unknown") (self st)) (tick st)).
Proof.
  intros Hn Hu. exists (unknown_result w e n st).
  pose proof (check_endpoint_unknown w e st n Hn Hu) as Hc.
  split; [exact Hc|]. do 5 (split; [reflexivity|]).
  intros rest.
  by rewrite (run_checks_loop_cons w e rest st _ _ (VStr "unknown") Hc eq_refl).
Qed.

(** A descriptor of type "dns" in the offline world. *)
Lemma unknown_type_result_witness :
  let e : Dict := {[ "name" := VStr "Name Server"; "type" := VStr "dns";
                     "host" := VStr "ns1.northwoodshealth.local";
                     "critical" := VBool true ]} in
  e !! "name" = Some (VStr "Name Server") ∧
  unknown_check_type e ∧
  ∃ r, check_endpoint offline e initial_state = (inr r, tick initial_state) ∧
       r !! "status" = Some (VStr "unknown") ∧
       r !! "available" = Some (VBool false) ∧
       r !! "details" = Some (VStr "Unknown check type") ∧
       r !! "type" = Some (dict_get e "type" (VStr "tcp")) ∧
       r !! "name" = Some (VStr "Name Server") ∧
       ∀ rest, run_checks_loop offline (e :: rest) initial_state =
               run_checks_loop offline rest
                 (set_self (count_result e r (VStr "unknown") (self initial_state))
                    (tick initial_state)).
Proof.
  intros e.
  assert (Hu : unknown_check_type e).
  { intros s Hs. unfold known_check_types in Hs.
    repeat (apply elem_of_cons in Hs as [-> | Hs]; [discriminate|]).
    by apply elem_of_nil in Hs. }
  split; [reflexivity|]. split; [exact Hu|].
  exact (unknown_type_result offline e initial_state (VStr "Name Server") eq_refl Hu).
Defined.

(** C5 as stated fails: a descriptor of an unknown type that has no name
    makes [check_endpoint] raise [KeyError], and the batch it is in ends
    there, before the endpoints that follow are probed. *)
Lemma unknown_type_without_name_raises :
  let e : Dict := {[ "type" := VStr "dns"; "host" := VStr "ns1.northwoodshealth.local" ]} in
  let next : Dict := {[ "name" := VStr "GLPI ITSM"; "type" := VStr "http";
                        "url" := VStr "https://glpi.harlenmorris.me" ]} in
  unknown_check_type e ∧
  check_endpoint lab e initial_state = (inl (KeyError "name"), initial_state) ∧
  run_checks lab [e; next] initial_state = (inl (KeyError "name"), initial_state).
Proof.
  intros e next. split; [|split; reflexivity].
  intros s Hs. unfold known_check_types in Hs.
  repeat (apply elem_of_cons in Hs as [-> | Hs]; [discriminate|]).
  by apply elem_of_nil in Hs.
Qed.

(** ** The HTTP strategy *)

Lemma substring_length_le n s : (String.length (String.substring 0 n s) ≤ n)%nat.
Proof.
  revert s. induction n as [|n IH]; intros [|c s]; simpl; try lia.
  specialize (IH s). lia.
Qed.

Lemma str_take_length n s : (String.length (str_take n s) ≤ n)%nat.
Proof. apply substring_length_le. Qed.

Lemma app_length_string (a b : string) :
  String.length (a +:+ b) = (String.length a + String.length b)%nat.
Proof. induction a as [|c a IH]; simpl; [done | by rewrite IH]. Qed.

Lemma py_mul_multipliable v n : multipliable v → ∃ p, py_mul v n = inr p.
Proof. destruct v as [| | [|] | | |]; simpl; intros H; try done; eauto. Qed.

Lemma http_failure_detail_bounded x : (String.length (http_failure_detail x) ≤ 70)%nat.
Proof.
  destruct x as [key|msg|msg|msg|msg|msg|msg|msg|msg|msg|msg];
    unfold http_failure_detail; rewrite ?app_length_string;
    try (pose proof (str_take_length 50 (exn_str (KeyError key))));
    try (pose proof (str_take_length 50 msg)); simpl in *; lia.
Qed.

(** C6 (amended). For an http/https descriptor that has a name and whose
    timeout, if given, is neither null nor an object: a response with a
    status code of 500 or more is available and critical, one with a code
    in [400, 500) is available and warning, both whatever the latency; a
    response below 400 is available and latency-graded; and every exception
    raised by the request gives a result that is unavailable and critical
    with a detail of at most 70 characters, and reaches no caller. *)
Theorem http_outcomes w (e : Dict) st n u :
  e !! "name" = Some n →
  e !! "url" = Some u →
  multipliable (dict_get e "timeout" (vint 5)) →
  ∃ r, check_http w e st = (inr r, tick st) ∧
    match requests_get w u (dict_get e "timeout" (vint 5)) with
    | inr (code, elapsed) =>
        r !! "available" = Some (VBool true) ∧
        (500 ≤ code → r !! "status" = Some (VStr "critical")) ∧
        (400 ≤ code < 500 → r !! "status" = Some (VStr "warning")) ∧
        (code < 400 → ∀ t, elapsed = Finite t →
           ∃ s, r !! "status" = Some (VStr s) ∧ graded t s)
    | inl x =>
        r !! "available" = Some (VBool false) ∧
        r !! "status" = Some (VStr "critical") ∧
        r !! "details" = Some (VStr (http_failure_detail x)) ∧
        (String.length (http_failure_detail x) ≤ 70)%nat
    end.
Proof.
  intros Hn Hu Hm.
  destruct (py_mul_multipliable _ 1000 Hm) as [p Hp].
  unfold check_http. unfold_monad.
  rewrite (getitem_Some _ _ _ Hu), (getitem_Some _ _ _ Hn), Hp.
  destruct (requests_get w u _) as [x | [code elapsed]]; simpl.
  - pose proof (http_failure_detail_bounded x) as Hb.
    destruct x; simpl in *; eexists; (split; [reflexivity|]); auto.
  - eexists. split; [reflexivity|]. split; [reflexivity|].
    split; [|split].
    + intros H5. assert ((500 <=? code) = true) as -> by lia. reflexivity.
    + intros H4. assert ((500 <=? code) = false) as -> by lia.
      assert ((400 <=? code) = true) as -> by lia. reflexivity.
    + intros H2 t ->. assert ((500 <=? code) = false) as -> by lia.
      assert ((400 <=? code) = false) as -> by lia.
      exists (threshold_chain (Float (Finite t))). split; [reflexivity|].
      apply threshold_chain_graded.
Qed.

(** In [lab] the archive refuses the connection. *)
Lemma http_outcomes_witness :
  let e : Dict := {[ "name" := VStr "Archive"; "type" := VStr "https";
                     "url" := VStr "https://archive.northwoodshealth.local" ]} in
  e !! "name" = Some (VStr "Archive") ∧
  e !! "url" = Some (VStr "https://archive.northwoodshealth.local") ∧
  multipliable (dict_get e "timeout" (vint 5)) ∧
  ∃ r, check_http lab e initial_state = (inr r, tick initial_state) ∧
       r !! "available" = Some (VBool false) ∧
       r !! "status" = Some (VStr "critical") ∧
       r !! "details" =
         Some (VStr "Connection refused: Max retries exceeded with url: / (Caused by NewCon").
Proof.
  intros e. split; [reflexivity|]. split; [reflexivity|]. split; [exact I|].
  destruct (http_outcomes lab e initial_state (VStr "Archive")
              (VStr "https://archive.northwoodshealth.local") eq_refl eq_refl I)
    as (r & Hr & H).
  exists r. split; [exact Hr|]. 
  change (requests_get lab (VStr "https://archive.northwoodshealth.local") (dict_get e "timeout" (vint 5))) with (@inl exn (Z * pyfloat) (RequestsConnectionError "Max retries exceeded with url: / (Caused by NewConnectionError)")) in H.
  destruct H as (Ha & Hs & Hd & _).
  split; [exact Ha|]. split; [exact Hs|]. exact Hd.
Defined.

(** C6 as stated fails: an exception raised during the request can end in
    an exception at the caller. With a null timeout and a request that
    times out, the handler's [timeout * 1000] raises [TypeError]; with a
    descriptor that has no name, the handler's [endpoint['name']] raises
    [KeyError]. *)
Lemma http_exception_reaches_caller :
  let no_timeout : Dict := {[ "name" := VStr "GLPI ITSM"; "type" := VStr "http";
                              "url" := VStr "https://glpi.harlenmorris.me";
                              "timeout" := VNone ]} in
  let no_name : Dict := {[ "type" := VStr "http";
                           "url" := VStr "https://archive.northwoodshealth.local" ]} in
  check_http offline no_timeout initial_state =
    (inl (TypeError "unsupported operand type(s) for *: 'NoneType' and 'int'"), initial_state) ∧
  check_http lab no_name initial_state = (inl (KeyError "name"), initial_state).
Proof. split; reflexivity. Qed.

(** ** The ping strategy *)

Lemma ping_avg_ms_unparsed w output : timing_unparsed w output → ping_avg_ms w output = Int 0.
Proof.
  unfold ping_avg_ms.
  intros [Hno | l ls Hl Hf | l ls f Hl Hf Hn].
  - by rewrite Hno.
  - rewrite Hl, Hf. by destruct (str_contains "avg" output).
  - rewrite Hl, Hf, Hn. by destruct (str_contains "avg" output).
Qed.

(** C8. A ping that reports success but whose timing cannot be read still
    gives an available result, with latency 0, graded healthy: the failure
    to read the timing does not end the check. *)
Theorem ping_unparsed_is_healthy w (e : Dict) st n h run_timeout output :
  e !! "name" = Some n →
  e !! "host" = Some h →
  py_mul (dict_get e "timeout" (vint 2)) 3 = inr run_timeout →
  subprocess_run_ping w h (dict_get e "timeout" (vint 2)) run_timeout = inr (0, output) →
  timing_unparsed w output →
  ∃ r, check_ping w e st = (inr r, tick st) ∧
       r !! "available" = Some (VBool true) ∧
       r !! "response_time_ms" = Some (vint 0) ∧
       r !! "status" = Some (VStr "healthy").
Proof.
  intros Hn Hh Hmul Hrun Hu. apply ping_avg_ms_unparsed in Hu.
  unfold check_ping. unfold_monad.
  rewrite (getitem_Some _ _ _ Hh), Hmul, Hrun, (getitem_Some _ _ _ Hn).
  cbn -[ping_avg_ms insert]. rewrite Hu.
  eexists. split; [reflexivity|]. by repeat split.
Qed.

(** In [lab] the printer answers the ping, and the output has no timing
    line. *)
Lemma ping_unparsed_is_healthy_witness :
  let e : Dict := {[ "name" := VStr "Printer"; "type" := VStr "ping";
                     "host" := VStr "printer.northwoodshealth.local" ]} in
  let output := "3 packets transmitted, 3 received" in
  e !! "name" = Some (VStr "Printer") ∧
  e !! "host" = Some (VStr "printer.northwoodshealth.local") ∧
  py_mul (dict_get e "timeout" (vint 2)) 3 = inr (vint 6) ∧
  subprocess_run_ping lab (VStr "printer.northwoodshealth.local")
    (dict_get e "timeout" (vint 2)) (vint 6) = inr (0, output) ∧
  timing_unparsed lab output ∧
  ∃ r, check_ping lab e initial_state = (inr r, tick initial_state) ∧
       r !! "available" = Some (VBool true) ∧
       r !! "response_time_ms" = Some (vint 0) ∧
       r !! "status" = Some (VStr "healthy").
Proof.
  intros e output.
  assert (Hu : timing_unparsed lab output) by (apply unparsed_no_avg; reflexivity).
  do 4 (split; [reflexivity|]). split; [exact Hu|].
  exact (ping_unparsed_is_healthy lab e initial_state (VStr "Printer")
           (VStr "printer.northwoodshealth.local") (vint 6) output
           eq_refl eq_refl eq_refl eq_refl Hu).
Defined.

(** The line with "avg" is there but too short, or its fifth field is not a
    number: the average is taken to be 0 all the same. *)
Example ping_avg_ms_fallbacks :
  ping_avg_ms lab "round-trip avg 0.456 ms" = Int 0 ∧
  ping_avg_ms lab "rtt min/avg/max/mdev = 0.123/n.a./0.789/0.123 ms" = Int 0 ∧
  ping_avg_ms lab ping_report = Float (Finite 0.456).
Proof. repeat split; reflexivity. Qed.

(** ** The console report *)

Lemma raises_only_ret {A} P (a : A) : raises_only P (mret a).
Proof. by intros st. Qed.

Lemma raises_only_bind {A B} P (m : M A) (k : A → M B) :
  raises_only P m → (∀ a, raises_only P (k a)) → raises_only P (m ≫= k).
Proof.
  intros Hm Hk st. specialize (Hm st). unfold_monad.
  destruct (m st) as [[x|a] st']; simpl in *; [done|]. apply Hk.
Qed.

Lemma raises_only_print P line : raises_only P (print line).
Proof. by intros st. Qed.

Lemma raises_only_strftime w P fmt : raises_only P (datetime_now_strftime w fmt).
Proof. by intros st. Qed.

Lemma raises_only_lift {A} (P : exn → Prop) (r : exn + A) :
  match r with inl x => P x | inr _ => True end → raises_only P (lift r).
Proof. by intros Hr st. Qed.

Lemma raises_only_for_each P body rs :
  (∀ r, raises_only P (body r)) → raises_only P (for_each body rs).
Proof.
  intros Hb. induction rs as [|r rs IH]; simpl.
  - apply raises_only_ret.
  - apply raises_only_bind; [apply Hb | intros _; apply IH].
Qed.

Lemma getitem_not_zero_division (d : Dict) k :
  match getitem d k with inl x => not_zero_division x | inr _ => True end.
Proof. unfold getitem. by destruct (d !! k). Qed.

Lemma select_if_status_not_zero_division s rs :
  match select_if (status_is s) rs with inl x => not_zero_division x | inr _ => True end.
Proof.
  induction rs as [|r rs IH]; simpl; [done|].
  unfold status_is at 1. pose proof (getitem_not_zero_division r "status") as Hg.
  destruct (getitem r "status"); [done|].
  by destruct (select_if (status_is s) rs).
Qed.

Lemma py_format_s_not_zero_division width v :
  match py_format_s width v with inl x => not_zero_division x | inr _ => True end.
Proof. by destruct v as [| | [|] | | |]. Qed.

Lemma py_format_f_not_zero_division width d v :
  match py_format_f width d v with inl x => not_zero_division x | inr _ => True end.
Proof.
  destruct v as [| | [z|] | | |]; try done.
  simpl. unfold float_of_int. destruct (_ <=? Z.abs z); [done|]. by destruct (_ <=? 0).
Qed.

Lemma py_truediv_defined a b : (∃ q, py_truediv a b = inr q) ↔ b ≠ 0.
Proof.
  unfold py_truediv. destruct (b =? 0) eqn:E.
  - apply Z.eqb_eq in E. split; [by intros [? ?] | done].
  - apply Z.eqb_neq in E. split; eauto.
Qed.

Ltac raises_only_step :=
  first
    [ apply raises_only_print
    | apply raises_only_ret
    | apply raises_only_strftime
    | apply raises_only_lift; first
        [ apply getitem_not_zero_division
        | apply select_if_status_not_zero_division
        | apply py_format_s_not_zero_division
        | apply py_format_f_not_zero_division ]
    | apply raises_only_for_each; intros ?
    | apply raises_only_bind; [|intros ?] ].

Lemma console_report_not_zero_division w (results : list Dict) :
  results ≠ [] → raises_only not_zero_division (generate_console_report w results).
Proof.
  intros Hne. unfold generate_console_report.
  repeat raises_only_step.
  all: try (match goal with |- raises_only _ (match ?l with [] => _ | _ => _ end) =>
              destruct l end; repeat raises_only_step).
  all: repeat raises_only_step.
  all: try (match goal with |- raises_only _ (if ?b then _ else _) =>
              destruct b end; repeat raises_only_step).
  all: try (match goal with |- raises_only _ (if ?b then _ else _) =>
              destruct b end; repeat raises_only_step).
  all: apply raises_only_lift;
    match goal with
    | |- context [py_truediv ?a ?b] =>
        destruct (proj2 (py_truediv_defined a b)) as [q ->]; [|done]
    end;
    destruct results; [done | simpl; lia].
Qed.

(** C10. The health score is [len(healthy) / len(results) * 100] with no
    guard on the divisor: [generate_console_report] raises a division by
    zero exactly for the empty list of results, and for every list that is
    not empty the division is defined. *)
Theorem health_score_division w (results : list Dict) st :
  (fst (generate_console_report w results st) = inl (ZeroDivisionError "division by zero")
   ↔ results = []) ∧
  ((∃ msg, fst (generate_console_report w results st) = inl (ZeroDivisionError msg))
   ↔ results = []) ∧
  ((∃ q, py_truediv 0 (Z.of_nat (length results)) = inr q) ↔ results ≠ []) ∧
  (∀ healthy : list Dict,
     results ≠ [] →
     ∃ q, py_truediv (Z.of_nat (length healthy)) (Z.of_nat (length results)) = inr q).
Proof.
  assert (Hraise : ∀ msg, fst (generate_console_report w results st) = inl (ZeroDivisionError msg)
                          → results = []).
  { intros msg Hz. destruct results as [|r rs]; [done|]. exfalso.
    pose proof (console_report_not_zero_division w (r :: rs) ltac:(done) st) as Hn.
    by rewrite Hz in Hn. }
  assert (Hlen : Z.of_nat (length results) ≠ 0 ↔ results ≠ []).
  { destruct results; simpl; split; try done; lia. }
  split; [|split; [|split]].
  - split; [apply Hraise | by intros ->].
  - split; [intros [msg Hz]; by apply (Hraise msg) | intros ->; by eexists].
  - by rewrite py_truediv_defined.
  - intros healthy Hne. apply py_truediv_defined. by apply Hlen.
Qed.

(** Run without [--quick] on an empty configuration, [main] writes the JSON
    document and then dies in the console report; the process ends with
    status 1. *)
Example main_empty_configuration :
  fst (main lab "health-data.json" false [] initial_state)
    = inl (ZeroDivisionError "division by zero") ∧
  process_exit_status (fst (main lab "health-data.json" false [] initial_state)) = 1 ∧
  fst (main lab "health-data.json" true [] initial_state) = inr 0.
Proof. repeat split; reflexivity. Qed.

(** ** Timeouts *)

Lemma dict_get_timeout (e : Dict) dflt :
  dict_get e "timeout" (vint dflt) = effective_timeout e dflt.
Proof. unfold dict_get, effective_timeout. by destruct (e !! "timeout"). Qed.

Lemma py_str_agree w1 w2 v : (∀ v, py_repr w1 v = py_repr w2 v) → py_str w1 v = py_str w2 v.
Proof. intros H. destruct v as [| [|] | [|] | | |]; simpl; by rewrite ?H. Qed.

Lemma ping_avg_ms_agree w1 w2 output :
  (∀ s, float_of_str w1 s = float_of_str w2 s) → ping_avg_ms w1 output = ping_avg_ms w2 output.
Proof.
  intros H. unfold ping_avg_ms. destruct (str_contains "avg" output); [|done].
  destruct (filter _ _) as [|l ls]; [done|].
  destruct (str_split "/" l !! 4%nat) as [f|]; [|done]. by rewrite H.
Qed.

(** C7 (amended). Each strategy works with the timeout of the descriptor
    when there is one, whatever its value (zero and negative values
    included), and with its default (http 5, tcp 3, ping 2) only when the
    descriptor has none: what the strategy returns depends on the world
    only through its answers at that timeout. *)
Theorem timeout_used w1 w2 (e : Dict) st :
  agree_at (effective_timeout e 5) (effective_timeout e 3) (effective_timeout e 2) w1 w2 →
  check_http w1 e st = check_http w2 e st ∧
  check_tcp w1 e st = check_tcp w2 e st ∧
  check_ping w1 e st = check_ping w2 e st ∧
  (e !! "timeout" = None →
   effective_timeout e 5 = vint 5 ∧ effective_timeout e 3 = vint 3 ∧
   effective_timeout e 2 = vint 2) ∧
  (∀ given, e !! "timeout" = Some given →
   effective_timeout e 5 = given ∧ effective_timeout e 3 = given ∧
   effective_timeout e 2 = given).
Proof.
  intros (Hhttp & Htcp & Hping & Hfloat & Hrepr & Hnow).
  split; [|split; [|split; [|split]]].
  - unfold check_http. unfold_monad. rewrite dict_get_timeout.
    destruct (getitem e "url") as [|url]; [done|]. rewrite Hhttp.
    destruct (requests_get w2 url _) as [x|[code elapsed]]; simpl.
    + destruct x; destruct (getitem e "name"); try done;
        try (destruct (py_mul _ _); [done|]); simpl; by rewrite Hnow.
    + destruct (getitem e "name"); [done|]. simpl. by rewrite Hnow.
  - unfold check_tcp. unfold_monad. rewrite dict_get_timeout.
    destruct (getitem e "host") as [|host]; [done|].
    destruct (getitem e "port") as [|port]; [done|]. rewrite Htcp.
    destruct (socket_connect_ex w2 host port _) as [x|[result elapsed]]; simpl.
    + destruct x; destruct (getitem e "name"); try done; simpl; by rewrite Hnow.
    + destruct (result =? 0); destruct (getitem e "name"); try done; simpl;
        by rewrite Hnow, ?(py_str_agree w1 w2 port Hrepr).
  - unfold check_ping. unfold_monad. rewrite dict_get_timeout.
    destruct (getitem e "host") as [|host]; [done|].
    destruct (py_mul _ 3) as [x|run_timeout]; simpl.
    + destruct x; destruct (getitem e "name"); try done; simpl; by rewrite Hnow.
    + rewrite Hping.
      destruct (subprocess_run_ping w2 host _ _) as [x|[returncode output]]; simpl.
      * destruct x; destruct (getitem e "name"); try done; simpl; by rewrite Hnow.
      * destruct (returncode =? 0); destruct (getitem e "name"); try done; simpl;
          by rewrite Hnow, ?(ping_avg_ms_agree w1 w2 output Hfloat).
  - unfold effective_timeout. by intros ->.
  - unfold effective_timeout. by intros given ->.
Qed.

(** The database endpoint with a timeout of 0: probed in [lab] and in
    [lab_at_zero] it gives the same result, so the timeout asked with is 0. *)
Lemma timeout_used_witness :
  let e : Dict := {[ "name" := VStr "EHR Database"; "type" := VStr "tcp";
                     "host" := VStr "ehr-db.northwoodshealth.local"; "port" := vint 5432;
                     "critical" := VBool true; "timeout" := vint 0 ]} in
  agree_at (effective_timeout e 5) (effective_timeout e 3) (effective_timeout e 2)
    lab lab_at_zero ∧
  check_tcp lab e initial_state = check_tcp lab_at_zero e initial_state ∧
  effective_timeout e 3 = vint 0.
Proof.
  intros e.
  assert (Ha : agree_at (effective_timeout e 5) (effective_timeout e 3) (effective_timeout e 2)
                 lab lab_at_zero).
  { repeat split; intros; reflexivity. }
  split; [exact Ha|].
  destruct (timeout_used lab lab_at_zero e initial_state Ha) as (_ & Htcp & _ & _ & Hgiven).
  split; [exact Htcp|]. exact (proj1 (proj2 (Hgiven (vint 0) eq_refl))).
Defined.

(** C7 as stated fails: a timeout of zero or less in the descriptor is the
    timeout the strategy works with; the default is used only when the
    descriptor has no timeout. *)
Lemma nonpositive_timeout_not_defaulted :
  let web (t : Z) : Dict := {[ "name" := VStr "GLPI ITSM"; "type" := VStr "http";
                                "url" := VStr "https://glpi.harlenmorris.me";
                                "timeout" := vint t ]} in
  let db (t : Z) : Dict := {[ "name" := VStr "EHR Database"; "type" := VStr "tcp";
                               "host" := VStr "ehr-db.northwoodshealth.local";
                               "port" := vint 5432; "timeout" := vint t ]} in
  let vpn (t : Z) : Dict := {[ "name" := VStr "VPN Gateway"; "type" := VStr "ping";
                                "host" := VStr "vpn.northwoodshealth.org";
                                "timeout" := vint t ]} in
  result_field "response_time_ms" (check_http telltale (web 0) initial_state) = Some (vint 0) ∧
  result_field "response_time_ms" (check_http telltale (delete "timeout" (web 0)) initial_state)
    = Some (vint 5000) ∧
  result_field "details" (check_tcp telltale (db (-1)) initial_state)
    = Some (VStr "Error: timeout=-1") ∧
  result_field "details" (check_tcp telltale (delete "timeout" (db (-1))) initial_state)
    = Some (VStr "Error: timeout=3") ∧
  result_field "details" (check_ping telltale (vpn 0) initial_state)
    = Some (VStr "Error: -W 0 timeout=0") ∧
  result_field "details" (check_ping telltale (delete "timeout" (vpn 0)) initial_state)
    = Some (VStr "Error: -W 2 timeout=6").
Proof. repeat split; reflexivity. Qed.

(** ** The dispatcher *)

Lemma carries_fixed x d :
  d ∈ ["Connection timeout"; "DNS resolution failed"; "Ping timeout"] → carries_error_text x d.
Proof. by left. Qed.

Lemma carries_quote x prefix : carries_error_text x (prefix +:+ str_take 50 (exn_str x)).
Proof. right. by exists prefix. Qed.

Ltac failure_result_tac :=
  split; [reflexivity|]; split; [reflexivity|]; eexists; split; [reflexivity|];
  first [ apply carries_quote | apply carries_fixed; set_solver ].

Lemma check_http_total w (e : Dict) st n u :
  e !! "name" = Some n →
  e !! "url" = Some u →
  multipliable (dict_get e "timeout" (vint 5)) →
  ∃ r, check_http w e st = (inr r, tick st) ∧ named_result n r ∧
       ∀ x, requests_get w u (dict_get e "timeout" (vint 5)) = inl x → failure_result x r.
Proof.
  intros Hn Hu Hm. destruct (py_mul_multipliable _ 1000 Hm) as [p Hp].
  unfold check_http. unfold_monad.
  rewrite (getitem_Some _ _ _ Hu), (getitem_Some _ _ _ Hn), Hp.
  destruct (requests_get w u _) as [x | [code elapsed]]; simpl.
  - destruct x; simpl; eexists; (split; [reflexivity|]);
      (split; [split; [reflexivity | eexists; reflexivity]|]);
      intros ? [= <-]; failure_result_tac.
  - eexists. split; [reflexivity|]. split; [|done].
    split; [reflexivity | eexists; reflexivity].
Qed.

Lemma check_tcp_total w (e : Dict) st n h p :
  e !! "name" = Some n →
  e !! "host" = Some h →
  e !! "port" = Some p →
  ∃ r, check_tcp w e st = (inr r, tick st) ∧ named_result n r ∧
       ∀ x, socket_connect_ex w h p (dict_get e "timeout" (vint 3)) = inl x →
            failure_result x r.
Proof.
  intros Hn Hh Hp.
  unfold check_tcp. unfold_monad.
  rewrite (getitem_Some _ _ _ Hh), (getitem_Some _ _ _ Hp), (getitem_Some _ _ _ Hn).
  destruct (socket_connect_ex w h p _) as [x | [result elapsed]]; simpl.
  - destruct x; simpl; eexists; (split; [reflexivity|]);
      (split; [split; [reflexivity | eexists; reflexivity]|]);
      intros ? [= <-]; failure_result_tac.
  - destruct (result =? 0); eexists; (split; [reflexivity|]); (split; [|done]);
      (split; [reflexivity | eexists; reflexivity]).
Qed.

Lemma check_ping_total w (e : Dict) st n h :
  e !! "name" = Some n →
  e !! "host" = Some h →
  ∃ r, check_ping w e st = (inr r, tick st) ∧ named_result n r ∧
       (∀ x, py_mul (dict_get e "timeout" (vint 2)) 3 = inl x → failure_result x r) ∧
       (∀ x run_timeout,
          py_mul (dict_get e "timeout" (vint 2)) 3 = inr run_timeout →
          subprocess_run_ping w h (dict_get e "timeout" (vint 2)) run_timeout = inl x →
          failure_result x r).
Proof.
  intros Hn Hh.
  unfold check_ping. unfold_monad.
  rewrite (getitem_Some _ _ _ Hh), (getitem_Some _ _ _ Hn).
  destruct (py_mul _ 3) as [x | run_timeout]; simpl.
  - destruct x; simpl; eexists; (split; [reflexivity|]);
      (split; [split; [reflexivity | eexists; reflexivity]|]);
      (split; [|done]); intros ? [= <-]; failure_result_tac.
  - destruct (subprocess_run_ping w h _ _) as [x | [returncode output]] eqn:E; simpl.
    + destruct x; simpl; eexists; (split; [reflexivity|]);
        (split; [split; [reflexivity | eexists; reflexivity]|]);
        (split; [done|]); intros ? ? [= <-] Hx; rewrite E in Hx;
        injection Hx as <-; failure_result_tac.
    + destruct (returncode =? 0); eexists; (split; [reflexivity|]);
        (split; [split; [reflexivity | eexists; reflexivity]|]);
        (split; [done|]); intros ? ? [= <-] Hx; by rewrite E in Hx.
Qed.

(** The descriptor that [check_ldap] and [check_smtp] hand to [check_tcp]. *)
Lemma check_tcp_on_copy w (n h port timeout : value) st :
  ∃ r, check_tcp w {[ "name" := n; "host" := h; "port" := port; "timeout" := timeout ]} st
         = (inr r, tick st) ∧
       named_result n r ∧
       ∀ x, socket_connect_ex w h port timeout = inl x → failure_result x r.
Proof.
  exact (check_tcp_total w {[ "name" := n; "host" := h; "port" := port; "timeout" := timeout ]}
           st n h port eq_refl eq_refl eq_refl).
Qed.

Lemma failure_result_retyped x (r : Dict) t :
  failure_result x r → failure_result x (<["type" := t]> r).
Proof.
  intros (Hs & Ha & d & Hd & Hc). unfold failure_result.
  rewrite !lookup_insert_ne by done. eauto.
Qed.

Lemma named_result_retyped n (r : Dict) t :
  named_result n r → named_result n (<["type" := t]> r).
Proof.
  intros (Hn & s & Hs). unfold named_result. rewrite !lookup_insert_ne by done. eauto.
Qed.

Lemma check_ldap_total w (e : Dict) st n h :
  e !! "name" = Some n →
  e !! "host" = Some h →
  ∃ r, check_ldap w e st = (inr r, tick st) ∧ named_result n r ∧
       ∀ x, socket_connect_ex w h (dict_get e "port" (vint 389))
              (dict_get e "timeout" (vint 3)) = inl x → failure_result x r.
Proof.
  intros Hn Hh. unfold check_ldap. unfold_monad.
  rewrite (getitem_Some _ _ _ Hn), (getitem_Some _ _ _ Hh).
  destruct (check_tcp_on_copy w n h (dict_get e "port" (vint 389))
              (dict_get e "timeout" (vint 3)) st) as (r & -> & Hr & Hf).
  eexists. split; [reflexivity|].
  split; [by apply named_result_retyped|].
  intros x Hx. by apply failure_result_retyped, Hf.
Qed.

Lemma check_smtp_total w (e : Dict) st n h :
  e !! "name" = Some n →
  e !! "host" = Some h →
  ∃ r, check_smtp w e st = (inr r, tick st) ∧ named_result n r ∧
       ∀ x, socket_connect_ex w h (dict_get e "port" (vint 25))
              (dict_get e "timeout" (vint 5)) = inl x → failure_result x r.
Proof.
  intros Hn Hh. unfold check_smtp. unfold_monad.
  rewrite (getitem_Some _ _ _ Hn), (getitem_Some _ _ _ Hh).
  destruct (check_tcp_on_copy w n h (dict_get e "port" (vint 25))
              (dict_get e "timeout" (vint 5)) st) as (r & -> & Hr & Hf).
  eexists. split; [reflexivity|].
  split; [by apply named_result_retyped|].
  intros x Hx. by apply failure_result_retyped, Hf.
Qed.

Lemma VStr_eq_str s s' : VStr s = VStr s' → py_eq_str (VStr s) s' = true.
Proof. intros [= ->]. by apply py_eq_str_true. Qed.

(** A complete descriptor is answered with a result, and a failure behind
    the probe shows in it. *)
Lemma check_endpoint_complete w (e : Dict) st :
  complete e →
  ∃ r, check_endpoint w e st = (inr r, tick st) ∧
       r !! "name" = e !! "name" ∧
       (∃ s, r !! "status" = Some (VStr s)) ∧
       ∀ x, probe_raised w e x → failure_result x r.
Proof.
  intros [[n Hn] Hc]. unfold check_endpoint. rewrite Hn.
  set (t := dict_get e "type" (VStr "tcp")) in *.
  destruct (py_eq_str t "http" || py_eq_str t "https") eqn:Ehttp.
  { destruct Hc as [[u Hu] Hm].
    destruct (check_http_total w e st n u Hn Hu Hm) as (r & Hr & [Hrn Hrs] & Hf).
    exists r. repeat (split; [done|]).
    intros x [u' _ Hu' Hx | ? ? Ht | ? Ht | ? ? Ht | ? Ht | ? Ht];
      try (fold t in Ht; rewrite Ht in Ehttp; discriminate).
    rewrite Hu in Hu'. injection Hu' as <-. by apply Hf. }
  destruct (py_eq_str t "tcp") eqn:Etcp.
  { destruct Hc as [[h Hh] [p Hp]].
    destruct (check_tcp_total w e st n h p Hn Hh Hp) as (r & Hr & [Hrn Hrs] & Hf).
    exists r. repeat (split; [done|]).
    intros x [? Ht | h' p' _ Hh' Hp' Hx | ? Ht | ? ? Ht | ? Ht | ? Ht];
      try (fold t in Ht; rewrite Ht in *; discriminate).
    rewrite Hh in Hh'. rewrite Hp in Hp'. injection Hh' as <-. injection Hp' as <-.
    by apply Hf. }
  destruct (py_eq_str t "ping") eqn:Eping.
  { destruct Hc as [h Hh].
    destruct (check_ping_total w e st n h Hn Hh) as (r & Hr & [Hrn Hrs] & Hf1 & Hf2).
    exists r. repeat (split; [done|]).
    intros x [? Ht | ? ? Ht | h' _ Hh' Hx | h' rt _ Hh' Hm Hx | ? Ht | ? Ht];
      try (fold t in Ht; rewrite Ht in *; discriminate).
    - by apply Hf1.
    - rewrite Hh in Hh'. injection Hh' as <-. by eapply Hf2. }
  destruct (py_eq_str t "ldap") eqn:Eldap.
  { destruct Hc as [h Hh].
    destruct (check_ldap_total w e st n h Hn Hh) as (r & Hr & [Hrn Hrs] & Hf).
    exists r. repeat (split; [done|]).
    intros x [? Ht | ? ? Ht | ? Ht | ? ? Ht | h' _ Hh' Hx | ? Ht];
      try (fold t in Ht; rewrite Ht in *; discriminate).
    rewrite Hh in Hh'. injection Hh' as <-. by apply Hf. }
  destruct (py_eq_str t "smtp") eqn:Esmtp.
  { destruct Hc as [h Hh].
    destruct (check_smtp_total w e st n h Hn Hh) as (r & Hr & [Hrn Hrs] & Hf).
    exists r. repeat (split; [done|]).
    intros x [? Ht | ? ? Ht | ? Ht | ? ? Ht | ? Ht | h' _ Hh' Hx];
      try (fold t in Ht; rewrite Ht in *; discriminate).
    rewrite Hh in Hh'. injection Hh' as <-. by apply Hf. }
  unfold_monad. rewrite (getitem_Some _ _ _ Hn). simpl.
  eexists. split; [reflexivity|]. split; [reflexivity|]. split; [by eexists|].
  intros x [? Ht | ? ? Ht | ? Ht | ? ? Ht | ? Ht | ? Ht];
    fold t in Ht; rewrite Ht in *; discriminate.
Qed.

Lemma failure_result_with_critical x e (r : Dict) :
  failure_result x r → failure_result x (with_critical e r).
Proof.
  intros (Hs & Ha & d & Hd & Hc). unfold failure_result, with_critical.
  rewrite !lookup_insert_ne by done. eauto.
Qed.

Lemma run_checks_loop_complete w (es : list Dict) :
  Forall complete es →
  ∀ st, ∃ rs st',
    run_checks_loop w es st = (inr tt, st') ∧
    results (self st') = (results (self st) ++ rs)%list ∧
    Forall2 (result_for w) es rs.
Proof.
  induction 1 as [|e es He _ IH]; intros st.
  - exists [], st. split; [done|]. by rewrite app_nil_r.
  - destruct (check_endpoint_complete w e st He) as (r & Hr & Hn & [s Hs] & Hf).
    rewrite (run_checks_loop_cons w e es st r (tick st) (VStr s) Hr Hs).
    destruct (IH (set_self (count_result e r (VStr s) (self (tick st))) (tick st)))
      as (rs & st' & Hloop & Hres & Hall).
    exists (with_critical e r :: rs), st'. split; [exact Hloop|]. split.
    + rewrite Hres. simpl. by rewrite <- app_assoc.
    + constructor; [|exact Hall]. unfold result_for, with_critical.
      rewrite lookup_insert_eq, !lookup_insert_ne by done.
      repeat (split; [by eauto|]). intros x Hx. by apply failure_result_with_critical, Hf.
Qed.

(** C4 (amended). For a list of descriptors that each carry what their
    strategy reads, [run_checks] completes the batch and returns exactly one
    result per descriptor, in the order of the input, each with the name and
    the flag of its descriptor; a failure raised by the operation behind a
    probe is caught inside the strategy and shows as a critical, unavailable
    result that names the failure or quotes its text. *)
Theorem run_checks_complete w (es : list Dict) st :
  Forall complete es →
  ∃ rs st', run_checks w es st = (inr rs, st') ∧
            results (self st') = rs ∧
            length rs = length es ∧
            Forall2 (result_for w) es rs.
Proof.
  intros Hes. unfold run_checks. unfold_monad. simpl.
  destruct (run_checks_loop_complete w es Hes
              (set_self {| results := [];
                           critical_failures := critical_failures (self st);
                           warnings := warnings (self st);
                           successes := successes (self st) |} st))
    as (rs & st' & -> & Hres & Hall).
  simpl in Hres. exists rs, st'. split; [by rewrite Hres|]. split; [done|].
  split; [|done]. symmetry. by eapply Forall2_length.
Qed.

Lemma DEFAULT_ENDPOINTS_complete : Forall complete DEFAULT_ENDPOINTS.
Proof. unfold DEFAULT_ENDPOINTS. repeat constructor; eexists; reflexivity. Qed.

(** The default endpoints, probed while the network is down. *)
Lemma run_checks_complete_witness :
  Forall complete DEFAULT_ENDPOINTS ∧
  ∃ rs st', run_checks offline DEFAULT_ENDPOINTS initial_state = (inr rs, st') ∧
            results (self st') = rs ∧
            length rs = length DEFAULT_ENDPOINTS ∧
            Forall2 (result_for offline) DEFAULT_ENDPOINTS rs.
Proof.
  split; [exact DEFAULT_ENDPOINTS_complete|].
  exact (run_checks_complete offline DEFAULT_ENDPOINTS initial_state
           DEFAULT_ENDPOINTS_complete).
Defined.

(** Whatever [check_endpoint] raises ends [run_checks]: the endpoints that
    follow are not probed. *)
Lemma run_checks_loop_propagates w (es1 : list Dict) (e : Dict) (es2 : list Dict) :
  Forall complete es1 →
  ∀ st, ∃ st1,
    run_checks_loop w (es1 ++ e :: es2) st =
    match check_endpoint w e st1 with
    | (inl x, st2) => (inl x, st2)
    | (inr r, st2) => run_checks_loop w (e :: es2) st1
    end.
Proof.
  induction 1 as [|e1 es1 He _ IH]; intros st.
  - exists st. simpl. unfold_monad. by destruct (check_endpoint w e st) as [[x|r] st2].
  - destruct (check_endpoint_complete w e1 st He) as (r & Hr & Hn & [s Hs] & Hf).
    simpl app. rewrite (run_checks_loop_cons w e1 _ st r (tick st) (VStr s) Hr Hs).
    apply IH.
Qed.

(** C4 as stated fails: [run_checks] catches nothing. A tcp descriptor
    without a host makes [check_tcp] raise [KeyError] before its [try], the
    exception leaves [run_checks], and the endpoint after it is not probed:
    the batch returns no result at all. *)
Lemma missing_field_ends_batch :
  let first : Dict := {[ "name" := VStr "GLPI ITSM"; "type" := VStr "http";
                         "url" := VStr "https://glpi.harlenmorris.me" ]} in
  let broken : Dict := {[ "name" := VStr "EHR Database"; "type" := VStr "tcp";
                          "port" := vint 5432 ]} in
  let last : Dict := {[ "name" := VStr "BookStack KB"; "type" := VStr "http";
                        "url" := VStr "https://kb.harlenmorris.me" ]} in
  fst (run_checks lab [first; broken; last] initial_state) = inl (KeyError "host") ∧
  length (results (self (snd (run_checks lab [first; broken; last] initial_state)))) = 1%nat.
Proof. split; reflexivity. Qed.

(** ** Exit code and Overall Status *)

(** C2 fails on the code. An endpoint of an unknown check type that is
    marked critical is counted as a critical failure by [run_checks], whose
    counters give the exit code, while [generate_json_output] counts only
    the state critical: the process exits with 2 and the document says
    healthy, as it does for an empty configuration, which exits with 0. *)
Theorem exit_code_disagrees_with_overall_status w output st :
  open_w w output = None →
  let e : Dict := {[ "name" := VStr "Name Server"; "type" := VStr "dns";
                     "critical" := VBool true ]} in
  let run := main w output true [e] st in
  let idle := main w output true [] st in
  fst run = inr 2 ∧ last_overall_status (snd run) = Some "healthy" ∧
  fst idle = inr 0 ∧ last_overall_status (snd idle) = Some "healthy".
Proof.
  intros Hopen e run idle. subst run idle.
  unfold main, main_cycle, run_checks, generate_json_output, json_document.
  unfold_monad. simpl. rewrite Hopen. simpl. done.
Qed.

Lemma exit_code_disagrees_with_overall_status_witness :
  open_w lab "health-data.json" = None ∧
  let e : Dict := {[ "name" := VStr "Name Server"; "type" := VStr "dns";
                     "critical" := VBool true ]} in
  let run := main lab "health-data.json" true [e] initial_state in
  let idle := main lab "health-data.json" true [] initial_state in
  fst run = inr 2 ∧ last_overall_status (snd run) = Some "healthy" ∧
  fst idle = inr 0 ∧ last_overall_status (snd idle) = Some "healthy".
Proof.
  split; [reflexivity|].
  exact (exit_code_disagrees_with_overall_status lab "health-data.json" initial_state eq_refl).
Defined.

(** ** Repeated cycles *)

Lemma view_lookup (r1 r2 : Dict) k :
  view r1 = view r2 → k ≠ "timestamp" → r1 !! k = r2 !! k.
Proof.
  intros Hv Hk. unfold view in Hv.
  rewrite <- (lookup_delete_ne r1 "timestamp" k), <- (lookup_delete_ne r2 "timestamp" k) by done.
  by rewrite Hv.
Qed.

Lemma view_insert (r : Dict) k v : k ≠ "timestamp" → view (<[k:=v]> r) = <[k:=v]> (view r).
Proof. intros Hk. unfold view. by rewrite delete_insert_ne. Qed.

Ltac probe_rel_tac :=
  simpl;
  repeat match goal with
         | |- context [match ?x with KeyError _ => _ | _ => _ end] => destruct x; simpl
         end;
  unfold same_but_clock; simpl;
  repeat match goal with
         | |- _ ∧ _ => split
         | |- ∃ _, _ => eexists
         end;
  try reflexivity.

Lemma check_http_rel w (e : Dict) st1 st2 :
  probe_rel (check_http w e st1) st1 (check_http w e st2) st2.
Proof.
  unfold check_http, probe_rel. unfold_monad.
  destruct (getitem e "url") as [|url]; [probe_rel_tac|].
  destruct (requests_get w url _) as [x|[code elapsed]]; simpl.
  - destruct x; destruct (getitem e "name"); try (by probe_rel_tac);
      try (destruct (py_mul _ _); by probe_rel_tac).
  - destruct (getitem e "name"); by probe_rel_tac.
Qed.

Lemma check_tcp_rel w (e : Dict) st1 st2 :
  probe_rel (check_tcp w e st1) st1 (check_tcp w e st2) st2.
Proof.
  unfold check_tcp, probe_rel. unfold_monad.
  destruct (getitem e "host") as [|host]; [probe_rel_tac|].
  destruct (getitem e "port") as [|port]; [probe_rel_tac|].
  destruct (socket_connect_ex w host port _) as [x|[result elapsed]]; simpl.
  - destruct x; destruct (getitem e "name"); by probe_rel_tac.
  - destruct (result =? 0); destruct (getitem e "name"); by probe_rel_tac.
Qed.

Lemma check_ping_rel w (e : Dict) st1 st2 :
  probe_rel (check_ping w e st1) st1 (check_ping w e st2) st2.
Proof.
  unfold check_ping, probe_rel. unfold_monad.
  destruct (getitem e "host") as [|host]; [probe_rel_tac|].
  destruct (py_mul _ 3) as [x|run_timeout]; simpl.
  - destruct x; destruct (getitem e "name"); by probe_rel_tac.
  - destruct (subprocess_run_ping w host _ _) as [x|[returncode output]]; simpl.
    + destruct x; destruct (getitem e "name"); by probe_rel_tac.
    + destruct (returncode =? 0); destruct (getitem e "name"); by probe_rel_tac.
Qed.

Lemma retyped_rel w (e : Dict) t st1 st2 :
  probe_rel
    ((check_tcp w e ≫= λ result, mret (<["type" := t]> result)) st1) st1
    ((check_tcp w e ≫= λ result, mret (<["type" := t]> result)) st2) st2.
Proof.
  pose proof (check_tcp_rel w e st1 st2) as (Hs1 & Hs2 & H).
  unfold probe_rel. unfold_monad.
  destruct (check_tcp w e st1) as [[x1|r1] s1], (check_tcp w e st2) as [[x2|r2] s2];
    simpl in *; try done.
  destruct H as [Hv [s Hs]]. split; [done|]. split; [done|]. split.
  - by rewrite !view_insert, Hv.
  - exists s. by rewrite lookup_insert_ne.
Qed.

Lemma check_endpoint_rel w (e : Dict) st1 st2 :
  probe_rel (check_endpoint w e st1) st1 (check_endpoint w e st2) st2.
Proof.
  unfold check_endpoint.
  destruct (_ || _); [apply check_http_rel|].
  destruct (py_eq_str _ "tcp"); [apply check_tcp_rel|].
  destruct (py_eq_str _ "ping"); [apply check_ping_rel|].
  destruct (py_eq_str _ "ldap").
  { unfold check_ldap. unfold_monad.
    destruct (getitem e "name"); [by probe_rel_tac|].
    destruct (getitem e "host"); [by probe_rel_tac|]. apply retyped_rel. }
  destruct (py_eq_str _ "smtp").
  { unfold check_smtp. unfold_monad.
    destruct (getitem e "name"); [by probe_rel_tac|].
    destruct (getitem e "host"); [by probe_rel_tac|]. apply retyped_rel. }
  unfold probe_rel. unfold_monad. destruct (getitem e "name"); by probe_rel_tac.
Qed.

Lemma count_result_advanced (e : Dict) status :
  ∃ dc dw ds, 0 ≤ dc ∧ 0 ≤ dw ∧ 0 ≤ ds ∧
    ∀ r' h', advanced_by dc dw ds h' (count_result e r' status h').
Proof.
  unfold advanced_by, count_result. simpl.
  destruct (py_eq_str status "healthy").
  { exists 0, 0, 1. repeat split; lia. }
  destruct (py_eq_str status "warning").
  { exists 0, 1, 0. repeat split; lia. }
  destruct (py_truthy _).
  { exists 1, 0, 0. repeat split; lia. }
  exists 0, 0, 0. repeat split; lia.
Qed.

Lemma view_with_critical e (r1 r2 : Dict) :
  view r1 = view r2 → view (with_critical e r1) = view (with_critical e r2).
Proof. intros Hv. unfold with_critical. by rewrite !view_insert, Hv. Qed.

(** Two runs of the loop of [run_checks], from any two states whose result
    lists agree: the same outcome, result lists that agree, the same
    increments of the counters; files and console untouched. *)
Lemma run_checks_loop_rel w (es : list Dict) :
  ∀ st1 st2,
    map view (results (self st1)) = map view (results (self st2)) →
    let o1 := run_checks_loop w es st1 in
    let o2 := run_checks_loop w es st2 in
    fst o1 = fst o2 ∧
    map view (results (self (snd o1))) = map view (results (self (snd o2))) ∧
    (∃ dc dw ds, 0 ≤ dc ∧ 0 ≤ dw ∧ 0 ≤ ds ∧
       advanced_by dc dw ds (self st1) (self (snd o1)) ∧
       advanced_by dc dw ds (self st2) (self (snd o2))) ∧
    (files (snd o1) = files st1 ∧ stdout (snd o1) = stdout st1) ∧
    (files (snd o2) = files st2 ∧ stdout (snd o2) = stdout st2).
Proof.
  induction es as [|e es IH]; intros st1 st2 Hres; cbv zeta.
  - simpl. split; [done|]. split; [done|]. split; [|done].
    exists 0, 0, 0. unfold advanced_by. repeat split; lia.
  - pose proof (check_endpoint_rel w e st1 st2) as (Hf1 & Hf2 & H).
    destruct (check_endpoint w e st1) as [[x1|r1] s1] eqn:E1,
             (check_endpoint w e st2) as [[x2|r2] s2] eqn:E2; simpl in H; try done.
    + subst x2. rewrite (run_checks_loop_raise _ _ _ _ _ _ E1),
        (run_checks_loop_raise _ _ _ _ _ _ E2). simpl.
      destruct Hf1 as (Hs1 & Hfi1 & Ho1), Hf2 as (Hs2 & Hfi2 & Ho2). simpl in *.
      split; [done|]. rewrite Hs1, Hs2. split; [done|]. split; [|done].
      exists 0, 0, 0. unfold advanced_by. repeat split; lia.
    + destruct H as [Hv [s Hs]].
      assert (r2 !! "status" = Some (VStr s)) as Hs2.
      { by rewrite <- (view_lookup r1 r2 "status" Hv). }
      rewrite (run_checks_loop_cons _ _ _ _ _ _ _ E1 Hs),
        (run_checks_loop_cons _ _ _ _ _ _ _ E2 Hs2).
      destruct Hf1 as (Hs1 & Hfi1 & Ho1), Hf2 as (Hf2 & Hfi2 & Ho2). simpl in *.
      set (n1 := set_self (count_result e r1 (VStr s) (self s1)) s1).
      set (n2 := set_self (count_result e r2 (VStr s) (self s2)) s2).
      destruct (IH n1 n2) as (Ho & Hr & (dc & dw & ds & ? & ? & ? & Ha1 & Ha2) & Hk1 & Hk2).
      { subst n1 n2. simpl. rewrite Hs1, Hf2, !map_app, Hres. simpl.
        by rewrite (view_with_critical e r1 r2 Hv). }
      split; [done|]. split; [done|]. split.
      * destruct (count_result_advanced e (VStr s))
          as (dc' & dw' & ds' & ? & ? & ? & Hadv).
        exists (dc' + dc), (dw' + dw), (ds' + ds).
        pose proof (Hadv r1 (self st1)) as Hb1. pose proof (Hadv r2 (self st2)) as Hb2.
        change (self n1) with (count_result e r1 (VStr s) (self s1)) in Ha1.
        change (self n2) with (count_result e r2 (VStr s) (self s2)) in Ha2.
        rewrite Hs1 in Ha1. rewrite Hf2 in Ha2.
        unfold advanced_by in *.
        destruct Ha1 as (? & ? & ?), Ha2 as (? & ? & ?), Hb1 as (? & ? & ?), Hb2 as (? & ? & ?).
        repeat split; lia.
      * subst n1 n2. simpl in *. by rewrite <- Hfi1, <- Ho1, <- Hfi2, <- Ho2.
Qed.

(** The conditions of the report generators do not look at the time. *)
Lemma getitem_view (r1 r2 : Dict) k :
  view r1 = view r2 → k ≠ "timestamp" → getitem r1 k = getitem r2 k.
Proof. intros Hv Hk. unfold getitem. by rewrite (view_lookup r1 r2 k Hv Hk). Qed.

Lemma dict_get_view (r1 r2 : Dict) k d :
  view r1 = view r2 → k ≠ "timestamp" → dict_get r1 k d = dict_get r2 k d.
Proof. intros Hv Hk. unfold dict_get. by rewrite (view_lookup r1 r2 k Hv Hk). Qed.

Lemma status_is_timeless s : timeless (status_is s).
Proof. intros r1 r2 Hv. unfold status_is. by rewrite (getitem_view r1 r2 "status" Hv). Qed.

Lemma critical_and_marked_timeless : timeless critical_and_marked.
Proof.
  intros r1 r2 Hv. unfold critical_and_marked.
  by rewrite (getitem_view r1 r2 "status" Hv), (getitem_view r1 r2 "critical" Hv).
Qed.

Lemma not_available_timeless : timeless not_available.
Proof.
  intros r1 r2 Hv. unfold not_available. by rewrite (dict_get_view r1 r2 "available" _ Hv).
Qed.

Lemma count_if_timeless cond (rs1 rs2 : list Dict) :
  timeless cond → map view rs1 = map view rs2 → count_if cond rs1 = count_if cond rs2.
Proof.
  intros Hc. revert rs2. induction rs1 as [|r1 rs1 IH]; intros [|r2 rs2] Hm; try done.
  simpl in Hm. injection Hm as Hv Hm. simpl. by rewrite (Hc r1 r2 Hv), (IH rs2 Hm).
Qed.

Lemma select_if_timeless cond (rs1 rs2 : list Dict) :
  timeless cond → map view rs1 = map view rs2 →
  match select_if cond rs1, select_if cond rs2 with
  | inl x1, inl x2 => x1 = x2
  | inr l1, inr l2 => map view l1 = map view l2
  | _, _ => False
  end.
Proof.
  intros Hc. revert rs2. induction rs1 as [|r1 rs1 IH]; intros [|r2 rs2] Hm; try done.
  simpl in Hm. injection Hm as Hv Hm. simpl. rewrite (Hc r1 r2 Hv).
  destruct (cond r2) as [x|b]; [done|]. specialize (IH rs2 Hm).
  destruct (select_if cond rs1), (select_if cond rs2); try done.
  destruct b; simpl; by rewrite ?Hv, ?IH.
Qed.

(** Two runs of [generate_json_output] on result lists that agree: both
    raise the same exception and write nothing, or both write a document,
    with the same Overall Status. *)
Lemma generate_json_output_rel w (rs1 rs2 : list Dict) output st1 st2 :
  map view rs1 = map view rs2 →
  let o1 := generate_json_output w rs1 output st1 in
  let o2 := generate_json_output w rs2 output st2 in
  self (snd o1) = self st1 ∧ self (snd o2) = self st2 ∧
  match fst o1, fst o2 with
  | inl x1, inl x2 => x1 = x2 ∧ files (snd o1) = files st1 ∧ files (snd o2) = files st2
  | inr _, inr _ =>
      ∃ doc1 doc2, files (snd o1) = (output, doc1) :: files st1 ∧
                   files (snd o2) = (output, doc2) :: files st2 ∧
                   overall_status doc1 = overall_status doc2
  | _, _ => False
  end.
Proof.
  intros Hm. unfold generate_json_output, json_document. unfold_monad.
  rewrite (count_if_timeless _ rs1 rs2 critical_and_marked_timeless Hm).
  rewrite (count_if_timeless _ rs1 rs2 (status_is_timeless "warning") Hm).
  rewrite (count_if_timeless _ rs1 rs2 (status_is_timeless "healthy") Hm).
  rewrite (count_if_timeless _ rs1 rs2 not_available_timeless Hm).
  destruct (count_if critical_and_marked rs2); [done|].
  destruct (count_if (status_is "warning") rs2); [done|]. simpl.
  destruct (count_if (status_is "healthy") rs2); [done|].
  destruct (count_if not_available rs2); [done|]. simpl.
  destruct (open_w w output); simpl; [done|].
  split; [done|]. split; [done|]. by eexists _, _.
Qed.

Lemma same_outcome_bind {A B A' B'} (VR : A → B → Prop) (VR' : A' → B' → Prop)
    (m1 : M A) (m2 : M B) (k1 : A → M A') (k2 : B → M B') :
  same_outcome VR m1 m2 →
  (∀ a b, VR a b → same_outcome VR' (k1 a) (k2 b)) →
  same_outcome VR' (m1 ≫= k1) (m2 ≫= k2).
Proof.
  intros Hm Hk st1 st2. specialize (Hm st1 st2). unfold_monad.
  destruct (m1 st1) as [[x1|a] s1], (m2 st2) as [[x2|b] s2]; simpl in *; try done.
  by apply Hk.
Qed.

Lemma same_outcome_ret {A B} (VR : A → B → Prop) a b :
  VR a b → same_outcome VR (mret a) (mret b).
Proof. by intros H st1 st2. Qed.

Lemma same_outcome_print l1 l2 : same_outcome any (print l1) (print l2).
Proof. by intros st1 st2. Qed.

Lemma same_outcome_strftime w fmt :
  same_outcome any (datetime_now_strftime w fmt) (datetime_now_strftime w fmt).
Proof. by intros st1 st2. Qed.

Lemma same_outcome_lift {A B} (VR : A → B → Prop) (r1 : exn + A) (r2 : exn + B) :
  match r1, r2 with
  | inl x1, inl x2 => x1 = x2
  | inr a, inr b => VR a b
  | _, _ => False
  end →
  same_outcome VR (lift r1) (lift r2).
Proof. by intros H st1 st2. Qed.

Lemma same_outcome_lift_eq {A} (r : exn + A) : same_outcome eq (lift r) (lift r).
Proof. apply same_outcome_lift. by destruct r. Qed.

Lemma same_outcome_weaken {A B} (VR : A → B → Prop) (m1 : M A) (m2 : M B) :
  same_outcome VR m1 m2 → same_outcome any m1 m2.
Proof.
  intros H st1 st2. specialize (H st1 st2).
  by destruct (fst (m1 st1)), (fst (m2 st2)).
Qed.

Lemma same_outcome_for_each body1 body2 (l1 l2 : list Dict) :
  (∀ r1 r2, view r1 = view r2 → same_outcome any (body1 r1) (body2 r2)) →
  map view l1 = map view l2 →
  same_outcome any (for_each body1 l1) (for_each body2 l2).
Proof.
  intros Hb. revert l2. induction l1 as [|r1 l1 IH]; intros [|r2 l2] Hm; try done.
  simpl in Hm. injection Hm as Hv Hm. simpl.
  eapply same_outcome_bind; [by apply Hb|]. intros _ _ _. by apply IH.
Qed.

(** The line of the report for one result. *)
Ltac same_line Hv :=
  repeat first
    [ apply same_outcome_print
    | rewrite (getitem_view _ _ "name" Hv) by done
    | rewrite (getitem_view _ _ "details" Hv) by done
    | rewrite (dict_get_view _ _ "response_time_ms" _ Hv) by done
    | rewrite (dict_get_view _ _ "critical" _ Hv) by done
    | eapply same_outcome_bind; [apply same_outcome_lift_eq | intros ? ? <-] ].

Lemma generate_console_report_rel w (rs1 rs2 : list Dict) :
  map view rs1 = map view rs2 →
  same_outcome any (generate_console_report w rs1) (generate_console_report w rs2).
Proof.
  intros Hm. unfold generate_console_report.
  assert (length rs1 = length rs2) as Hlen.
  { by rewrite <- (length_map view rs1), Hm, length_map. }
  do 3 (eapply same_outcome_bind; [apply same_outcome_print | intros _ _ _]).
  eapply same_outcome_bind; [apply same_outcome_strftime | intros now1 now2 _].
  do 3 (eapply same_outcome_bind; [apply same_outcome_print | intros _ _ _]).
  eapply same_outcome_bind.
  { apply same_outcome_lift, (select_if_timeless _ rs1 rs2 (status_is_timeless "healthy") Hm). }
  intros h1 h2 Hh.
  eapply same_outcome_bind.
  { apply same_outcome_lift, (select_if_timeless _ rs1 rs2 (status_is_timeless "warning") Hm). }
  intros w1 w2 Hw.
  eapply same_outcome_bind.
  { apply same_outcome_lift, (select_if_timeless _ rs1 rs2 (status_is_timeless "critical") Hm). }
  intros c1 c2 Hc.
  eapply same_outcome_bind.
  { instantiate (1 := any).
    destruct h1, h2; simpl in Hh; try done.
    eapply same_outcome_bind; [apply same_outcome_print | intros _ _ _].
    eapply same_outcome_bind; [|intros _ _ _; apply same_outcome_print].
    apply same_outcome_for_each; [|done]. intros r1 r2 Hv. same_line Hv. }
  intros _ _ _.
  eapply same_outcome_bind.
  { instantiate (1 := any).
    destruct w1, w2; simpl in Hw; try done.
    eapply same_outcome_bind; [apply same_outcome_print | intros _ _ _].
    eapply same_outcome_bind; [|intros _ _ _; apply same_outcome_print].
    apply same_outcome_for_each; [|done]. intros r1 r2 Hv. same_line Hv. }
  intros _ _ _.
  eapply same_outcome_bind.
  { instantiate (1 := any).
    destruct c1, c2; simpl in Hc; try done.
    eapply same_outcome_bind; [apply same_outcome_print | intros _ _ _].
    eapply same_outcome_bind; [|intros _ _ _; apply same_outcome_print].
    apply same_outcome_for_each; [|done]. intros r1 r2 Hv. same_line Hv. }
  intros _ _ _.
  assert (length h1 = length h2) as Hlh.
  { by rewrite <- (length_map view h1), Hh, length_map. }
  rewrite Hlen, Hlh.
  eapply same_outcome_bind; [apply same_outcome_lift_eq | intros ratio ? <-].
  do 2 (eapply same_outcome_bind; [apply same_outcome_print | intros _ _ _]).
  eapply same_outcome_bind; [|intros _ _ _; apply same_outcome_print].
  destruct (Qeq_bool _ _); [apply same_outcome_print|].
  destruct (Qle_bool _ _); apply same_outcome_print.
Qed.

Lemma keeps_checker_ret {A} (a : A) : keeps_checker (mret a).
Proof. by intros st. Qed.

Lemma keeps_checker_bind {A B} (m : M A) (k : A → M B) :
  keeps_checker m → (∀ a, keeps_checker (k a)) → keeps_checker (m ≫= k).
Proof.
  intros Hm Hk st. specialize (Hm st). unfold_monad.
  destruct (m st) as [[x|a] st']; simpl in *; [done|].
  destruct (Hk a st') as [-> ->]. done.
Qed.

Lemma keeps_checker_print line : keeps_checker (print line).
Proof. by intros st. Qed.

Lemma keeps_checker_strftime w fmt : keeps_checker (datetime_now_strftime w fmt).
Proof. by intros st. Qed.

Lemma keeps_checker_lift {A} (r : exn + A) : keeps_checker (lift r).
Proof. by intros st. Qed.

Lemma keeps_checker_for_each body rs :
  (∀ r, keeps_checker (body r)) → keeps_checker (for_each body rs).
Proof.
  intros Hb. induction rs as [|r rs IH]; simpl.
  - apply keeps_checker_ret.
  - apply keeps_checker_bind; [apply Hb | intros _; apply IH].
Qed.

Ltac keeps_checker_step :=
  first
    [ apply keeps_checker_print
    | apply keeps_checker_ret
    | apply keeps_checker_strftime
    | apply keeps_checker_lift
    | apply keeps_checker_for_each; intros ?
    | apply keeps_checker_bind; [|intros ?] ].

Lemma generate_console_report_keeps w (results : list Dict) :
  keeps_checker (generate_console_report w results).
Proof.
  unfold generate_console_report. repeat keeps_checker_step.
  all: try (match goal with |- keeps_checker (match ?l with [] => _ | _ => _ end) =>
              destruct l end; repeat keeps_checker_step).
  all: try (match goal with |- keeps_checker (if ?b then _ else _) =>
              destruct b end; repeat keeps_checker_step).
  all: try (match goal with |- keeps_checker (if ?b then _ else _) =>
              destruct b end; repeat keeps_checker_step).
Qed.

Lemma exit_code_step (h : HealthChecker) (st : St) :
  (if 0 <? critical_failures h then λ st : St, (@inr exn Z 2, st)
   else if 0 <? warnings h then λ st : St, (inr 1, st)
   else λ st : St, (inr 0, st)) st = (inr (exit_code_of h), st).
Proof.
  unfold exit_code_of. destruct (0 <? critical_failures h); [done|].
  by destruct (0 <? warnings h).
Qed.

(** Two cycles on the same endpoints in the same world, from any two states. *)
Lemma main_cycle_rel w output quick (es : list Dict) st1 st2 :
  let o1 := main_cycle w output quick es st1 in
  let o2 := main_cycle w output quick es st2 in
  map view (results (self (snd o1))) = map view (results (self (snd o2))) ∧
  (∃ dc dw ds, 0 ≤ dc ∧ 0 ≤ dw ∧ 0 ≤ ds ∧
     advanced_by dc dw ds (self st1) (self (snd o1)) ∧
     advanced_by dc dw ds (self st2) (self (snd o2))) ∧
  (∃ overall, wrote output overall st1 (snd o1) ∧ wrote output overall st2 (snd o2)) ∧
  match fst o1, fst o2 with
  | inl x1, inl x2 => x1 = x2
  | inr c1, inr c2 => c1 = exit_code_of (self (snd o1)) ∧ c2 = exit_code_of (self (snd o2))
  | _, _ => False
  end.
Proof.
  cbv zeta. unfold main_cycle, run_checks. unfold_monad. simpl.
  set (n1 := set_self _ st1). set (n2 := set_self _ st2).
  destruct (run_checks_loop_rel w es n1 n2 eq_refl)
    as (Ho & Hr & Hadv & [Hf1 _] & [Hf2 _]).
  change (files n1) with (files st1) in Hf1. change (files n2) with (files st2) in Hf2.
  assert (∃ dc dw ds, 0 ≤ dc ∧ 0 ≤ dw ∧ 0 ≤ ds ∧
            advanced_by dc dw ds (self st1) (self (snd (run_checks_loop w es n1))) ∧
            advanced_by dc dw ds (self st2) (self (snd (run_checks_loop w es n2)))) as Hadv'.
  { destruct Hadv as (dc & dw & ds & ? & ? & ? & Ha1 & Ha2). by exists dc, dw, ds. }
  clear Hadv.
  destruct (run_checks_loop w es n1) as [[x1|[]] s1], (run_checks_loop w es n2) as [[x2|[]] s2];
    simpl in *; try done.
  { injection Ho as <-. split; [done|]. split; [done|]. split; [|done]. by exists None. }
  clear Ho.
  pose proof (generate_json_output_rel w _ _ output s1 s2 Hr) as (Hj1 & Hj2 & Hj).
  pose proof (generate_console_report_rel w _ _ Hr) as Hg.
  pose proof (generate_console_report_keeps w (results (self s1))) as Hk1.
  pose proof (generate_console_report_keeps w (results (self s2))) as Hk2.
  destruct (generate_json_output w (results (self s1)) output s1) as [[y1|[]] t1],
           (generate_json_output w (results (self s2)) output s2) as [[y2|[]] t2];
    simpl in *; try done.
  { destruct Hj as (<- & Hw1 & Hw2). rewrite Hj1, Hj2.
    split; [done|]. split; [done|]. split; [|done]. exists None. simpl. by rewrite Hw1, Hw2. }
  destruct Hj as (doc1 & doc2 & Hw1 & Hw2 & Hov).
  rewrite Hf1 in Hw1. rewrite Hf2 in Hw2.
  destruct quick; simpl.
  { rewrite !exit_code_step. simpl. rewrite Hj1, Hj2.
    split; [done|]. split; [done|]. split; [|done].
    exists (Some (overall_status doc1)). simpl. split; [by exists doc1 | by exists doc2]. }
  specialize (Hg t1 t2). specialize (Hk1 t1). specialize (Hk2 t2).
  destruct (generate_console_report w (results (self s1)) t1) as [[z1|[]] u1],
           (generate_console_report w (results (self s2)) t2) as [[z2|[]] u2];
    simpl in *; try done.
  all: destruct Hk1 as [Hu1 Hv1], Hk2 as [Hu2 Hv2].
  all: rewrite ?exit_code_step; simpl; rewrite Hu1, Hu2, Hj1, Hj2.
  all: split; [done|]; split; [done|]; split; [|done].
  all: exists (Some (overall_status doc1)); simpl; rewrite Hv1, Hv2;
    split; [by exists doc1 | by exists doc2].
Qed.

Lemma health_states_view st1 st2 :
  map view (results (self st1)) = map view (results (self st2)) →
  health_states st1 = health_states st2.
Proof.
  unfold health_states. generalize (results (self st1)), (results (self st2)).
  induction l as [|r1 l1 IH]; intros [|r2 l2] Hm; try done.
  simpl in Hm. injection Hm as Hv Hm. simpl.
  by rewrite (view_lookup r1 r2 "status" Hv), (IH l2 Hm).
Qed.

Lemma exit_code_of_accumulated dc dw ds h0 h1 h2 :
  counters_nonneg h0 → 0 ≤ dc → 0 ≤ dw → 0 ≤ ds →
  advanced_by dc dw ds h0 h1 → advanced_by dc dw ds h1 h2 →
  exit_code_of h2 = exit_code_of h1.
Proof.
  intros (? & ? & ?) ? ? ? (? & ? & ?) (? & ? & ?). unfold exit_code_of.
  destruct (0 <? critical_failures h2) eqn:E2, (0 <? critical_failures h1) eqn:E1;
    destruct (0 <? warnings h2) eqn:F2, (0 <? warnings h1) eqn:F1; try done; lia.
Qed.

(** What does hold of two cycles: with the world answering the probes alike
    both times, two cycles (checks, aggregation, exit code) run one after
    the other on the same checker with the same descriptors give the same
    health state for each endpoint, the same Overall Status and the same
    exit code (or end in the same exception). The counters that the first
    cycle left are read by the second all the same; they have the same
    signs after it as before. *)
Theorem repeated_cycle_same_outputs w output quick (es : list Dict) st :
  counters_nonneg (self st) →
  let first := main_cycle w output quick es st in
  let second := main_cycle w output quick es (snd first) in
  fst second = fst first ∧
  health_states (snd second) = health_states (snd first) ∧
  last_overall_status (snd second) = last_overall_status (snd first).
Proof.
  intros Hnn first second.
  destruct (main_cycle_rel w output quick es st (snd first))
    as (Hr & (dc & dw & ds & ? & ? & ? & Ha1 & Ha2) & (overall & Hw1 & Hw2) & Hout).
  fold first in Hr, Ha1, Ha2, Hw1, Hw2, Hout.
  fold second in Hr, Ha2, Hw2, Hout.
  split; [|split].
  - destruct (fst first) as [x1|c1], (fst second) as [x2|c2]; try done.
    + by subst.
    + destruct Hout as [-> ->]. f_equal.
      by apply (exit_code_of_accumulated dc dw ds (self st)).
  - symmetry. by apply health_states_view.
  - unfold last_overall_status. destruct overall as [o|]; simpl in *.
    + destruct Hw1 as (doc1 & -> & <-), Hw2 as (doc2 & -> & Ho). by rewrite Ho.
    + by rewrite Hw2.
Qed.

(** Two cycles on the default endpoints in [lab]. *)
Lemma repeated_cycle_same_outputs_witness :
  counters_nonneg (self initial_state) ∧
  let first := main_cycle lab "health-data.json" false DEFAULT_ENDPOINTS initial_state in
  let second := main_cycle lab "health-data.json" false DEFAULT_ENDPOINTS (snd first) in
  fst second = fst first ∧
  health_states (snd second) = health_states (snd first) ∧
  last_overall_status (snd second) = last_overall_status (snd first).
Proof.
  assert (Hnn : counters_nonneg (self initial_state)).
  { unfold counters_nonneg. simpl. lia. }
  split; [exact Hnn|].
  exact (repeated_cycle_same_outputs lab "health-data.json" false DEFAULT_ENDPOINTS
           initial_state Hnn).
Defined.

(** The checker does keep its counters from one call of [run_checks] to the
    next: after the second cycle they are twice what one cycle counts. This
    does not show in [main], which makes a new checker for its one cycle. *)
Example counters_accumulate :
  let first := main_cycle lab "health-data.json" true DEFAULT_ENDPOINTS initial_state in
  let second := main_cycle lab "health-data.json" true DEFAULT_ENDPOINTS (snd first) in
  (critical_failures (self (snd first)), warnings (self (snd first)),
   successes (self (snd first))) = (1, 2, 4) ∧
  (critical_failures (self (snd second)), warnings (self (snd second)),
   successes (self (snd second))) = (2, 4, 8) ∧
  length (results (self (snd second))) = length DEFAULT_ENDPOINTS.
Proof. repeat split; vm_compute; reflexivity. Qed.

(** When the world changes between two cycles on the same checker, the
    exit code of the second cycle still reflects the failures of the first,
    while its document does not. *)
Example exit_code_after_recovery :
  let es := [ {[ "name" := VStr "GLPI ITSM"; "type" := VStr "http";
                 "url" := VStr "https://glpi.harlenmorris.me";
                 "critical" := VBool true; "timeout" := vint 5 ]} : Dict ] in
  let first := main_cycle offline "health-data.json" true es initial_state in
  let second := main_cycle lab "health-data.json" true es (snd first) in
  fst first = inr 2 ∧ last_overall_status (snd first) = Some "critical" ∧
  fst second = inr 2 ∧ last_overall_status (snd second) = Some "healthy" ∧
  fst (main lab "health-data.json" true es (snd first)) = inr 0.
Proof. repeat split; vm_compute; reflexivity. Qed.

(** Whatever [run_checks] holds or returns has a health state and a flag:
    the results that the report generators get are probe results. *)
Lemma run_checks_loop_probe_results w (es : list Dict) :
  ∀ st, Forall probe_result (results (self st)) →
        Forall probe_result (results (self (snd (run_checks_loop w es st)))).
Proof.
  induction es as [|e es IH]; intros st Hst; [done|].
  pose proof (check_endpoint_rel w e st st) as ((Hs & _) & _ & H).
  destruct (check_endpoint w e st) as [[x|r] s] eqn:E.
  - rewrite (run_checks_loop_raise _ _ _ _ _ _ E). simpl in *. by rewrite Hs.
  - destruct H as [_ [v Hv]].
    rewrite (run_checks_loop_cons _ _ _ _ _ _ _ E Hv). apply IH. simpl in *.
    rewrite Hs. apply Forall_app. split; [done|]. constructor; [|done].
    unfold probe_result, with_critical.
    rewrite lookup_insert_eq, lookup_insert_ne by done. split; by eexists.
Qed.

Lemma run_checks_probe_results w (es : list Dict) st rs st' :
  run_checks w es st = (inr rs, st') → Forall probe_result rs.
Proof.
  unfold run_checks. unfold_monad. simpl.
  set (n := set_self _ st).
  pose proof (run_checks_loop_probe_results w es n (Forall_nil_2 _)) as H.
  destruct (run_checks_loop w es n) as [[x|[]] s]; simpl in *; [done|].
  by intros [= <- <-].
Qed.

(** The counters never go down: what [counters_nonneg] asks of the checker
    holds of a new checker and after every cycle. *)
Lemma main_cycle_counters_nonneg w output quick (es : list Dict) st :
  counters_nonneg (self st) →
  counters_nonneg (self (snd (main_cycle w output quick es st))).
Proof.
  intros (? & ? & ?).
  destruct (main_cycle_rel w output quick es st st)
    as (_ & (dc & dw & ds & ? & ? & ? & (? & ? & ?) & _) & _).
  unfold counters_nonneg. repeat split; lia.
Qed.

(** ** Shape of the results *)

Ltac schema_tac :=
  unfold result_schema, has_state;
  repeat match goal with
         | |- _ ∧ _ => split
         | |- is_Some _ => eexists; reflexivity
         | |- ∃ _, _ = Some _ => eexists; reflexivity
         | |- ¬ _ => intros [=]
         end;
  try reflexivity;
  try (left; split; [reflexivity|]; split; [eexists; reflexivity|];
       first [ left; reflexivity | right; left; reflexivity | right; right; reflexivity ]);
  try (right; split; [reflexivity|]; first [ left; reflexivity | right; reflexivity ]).

Ltac inr_tac :=
  simpl;
  repeat match goal with
         | |- context [match ?x with KeyError _ => _ | _ => _ end] => destruct x; simpl
         end;
  try discriminate;
  intros [= <- <-].

Lemma check_http_shape w (e : Dict) st r st' :
  check_http w e st = (inr r, st') →
  st' = tick st ∧ r !! "name" = e !! "name" ∧ r !! "type" = Some (VStr "http") ∧
  result_schema r ∧ ¬ has_state "unknown" r.
Proof.
  unfold check_http. unfold_monad. unfold getitem.
  destruct (e !! "url") as [url|]; [|inr_tac].
  destruct (requests_get w url _) as [x|[code elapsed]]; simpl.
  - destruct x; destruct (e !! "name"); try (destruct (py_mul _ _)); inr_tac;
      by schema_tac.
  - destruct (e !! "name"); inr_tac.
    destruct (500 <=? code), (400 <=? code), (float_gt elapsed RESPONSE_TIME_CRITICAL),
      (float_gt elapsed RESPONSE_TIME_WARN);
      by schema_tac.
Qed.

Lemma check_tcp_shape w (e : Dict) st r st' :
  check_tcp w e st = (inr r, st') →
  st' = tick st ∧ r !! "name" = e !! "name" ∧ r !! "type" = Some (VStr "tcp") ∧
  result_schema r ∧ ¬ has_state "unknown" r.
Proof.
  unfold check_tcp. unfold_monad. unfold getitem.
  destruct (e !! "host") as [host|]; [|inr_tac].
  destruct (e !! "port") as [port|]; [|inr_tac].
  destruct (socket_connect_ex w host port _) as [x|[result elapsed]]; simpl.
  - destruct x; destruct (e !! "name"); inr_tac; by schema_tac.
  - destruct (result =? 0); destruct (e !! "name"); inr_tac; [|by schema_tac].
    destruct (float_gt elapsed RESPONSE_TIME_CRITICAL), (float_gt elapsed RESPONSE_TIME_WARN);
      by schema_tac.
Qed.

Lemma check_ping_shape w (e : Dict) st r st' :
  check_ping w e st = (inr r, st') →
  st' = tick st ∧ r !! "name" = e !! "name" ∧ r !! "type" = Some (VStr "ping") ∧
  result_schema r ∧ ¬ has_state "unknown" r.
Proof.
  unfold check_ping. unfold_monad. unfold getitem.
  destruct (e !! "host") as [host|]; [|inr_tac].
  destruct (py_mul _ 3) as [x|run_timeout]; simpl.
  - destruct x; destruct (e !! "name"); inr_tac; by schema_tac.
  - destruct (subprocess_run_ping w host _ _) as [x|[returncode output]]; simpl.
    + destruct x; destruct (e !! "name"); inr_tac; by schema_tac.
    + cbv zeta. generalize (ping_avg_ms w output). intros avg.
      destruct (returncode =? 0); destruct (e !! "name"); inr_tac; [|by schema_tac].
      destruct avg as [z|f]; [|by destruct (num_gt (Float f) RESPONSE_TIME_CRITICAL),
                                  (num_gt (Float f) RESPONSE_TIME_WARN); schema_tac].
      destruct (num_gt (Int z) RESPONSE_TIME_CRITICAL), (num_gt (Int z) RESPONSE_TIME_WARN);
        by schema_tac.
Qed.

Lemma result_schema_retyped (r : Dict) t :
  result_schema r → result_schema (<["type" := t]> r).
Proof.
  unfold result_schema, has_state. rewrite lookup_insert_eq, !lookup_insert_ne by done.
  intros (? & _ & ? & ? & ?). repeat (split; [by eauto|]). done.
Qed.

Lemma check_tcp_copy_shape w (e : Dict) (n h : value) t timeout port st r st' :
  e !! "name" = Some n →
  (check_tcp w {[ "name" := n; "host" := h; "port" := port; "timeout" := timeout ]}
     ≫= λ result, mret (<["type" := VStr t]> result)) st = (inr r, st') →
  st' = tick st ∧ r !! "name" = e !! "name" ∧ r !! "type" = Some (VStr t) ∧
  result_schema r ∧ ¬ has_state "unknown" r.
Proof.
  intros Hn. unfold_monad.
  destruct (check_tcp w _ st) as [[x|r0] s] eqn:E; [done|].
  intros [= <- <-]. apply check_tcp_shape in E as (-> & Hname & _ & Hs & Hu).
  split; [done|]. unfold has_state in *.
  rewrite lookup_insert_eq, !lookup_insert_ne by done.
  split; [by rewrite Hname, Hn|]. split; [done|]. split; [|done].
  by apply result_schema_retyped.
Qed.

(** What [check_endpoint] returns, when it returns: one reading of the
    clock, the name of the descriptor, the reported type, the schema, and
    the state unknown for the unknown types only. *)
Lemma check_endpoint_shape w (e : Dict) st r st' :
  check_endpoint w e st = (inr r, st') →
  st' = tick st ∧ r !! "name" = e !! "name" ∧
  r !! "type" = Some (reported_type (dict_get e "type" (VStr "tcp"))) ∧
  result_schema r ∧
  (has_state "unknown" r ↔ unknown_check_type e).
Proof.
  unfold check_endpoint, reported_type.
  set (t := dict_get e "type" (VStr "tcp")).
  assert (∀ s, s ∈ known_check_types → py_eq_str t s = true → ¬ unknown_check_type e) as Hk.
  { intros s Hs Ht Hu. apply py_eq_str_true in Ht. by apply (Hu s). }
  destruct (py_eq_str t "http") eqn:E1; simpl.
  { apply py_eq_str_true in E1 as Ht. rewrite Ht. simpl.
    intros H. apply check_http_shape in H as (? & ? & Hty & Hs & Hn).
    split; [done|]. split; [done|]. split; [done|]. split; [done|].
    split; [done|]. intros Hu. exfalso. eapply (Hk "http"); [set_solver|done|done]. }
  destruct (py_eq_str t "https") eqn:E2; simpl.
  { intros H. apply check_http_shape in H as (? & ? & Hty & Hs & Hn).
    split; [done|]. split; [done|]. split; [done|]. split; [done|].
    split; [done|]. intros Hu. exfalso. eapply (Hk "https"); [set_solver|done|done]. }
  destruct (py_eq_str t "tcp") eqn:E3.
  { apply py_eq_str_true in E3 as Ht. rewrite Ht.
    intros H. apply check_tcp_shape in H as (? & ? & Hty & Hs & Hn).
    split; [done|]. split; [done|]. split; [done|]. split; [done|].
    split; [done|]. intros Hu. exfalso. eapply (Hk "tcp"); [set_solver|by rewrite Ht|done]. }
  destruct (py_eq_str t "ping") eqn:E4.
  { apply py_eq_str_true in E4 as Ht. rewrite Ht.
    intros H. apply check_ping_shape in H as (? & ? & Hty & Hs & Hn).
    split; [done|]. split; [done|]. split; [done|]. split; [done|].
    split; [done|]. intros Hu. exfalso. eapply (Hk "ping"); [set_solver|by rewrite Ht|done]. }
  destruct (py_eq_str t "ldap") eqn:E5.
  { apply py_eq_str_true in E5 as Ht. rewrite Ht.
    unfold check_ldap. unfold_monad. unfold getitem.
    destruct (e !! "name") as [n|] eqn:En; [|done].
    destruct (e !! "host") as [h|]; [|done].
    intros H. eapply (check_tcp_copy_shape w e n h "ldap") in H as (? & ? & Hty & Hs & Hn); [|done].
    rewrite <- En. split; [done|]. split; [done|]. split; [done|]. split; [done|].
    split; [done|]. intros Hu. exfalso. eapply (Hk "ldap"); [set_solver|by rewrite Ht|done]. }
  destruct (py_eq_str t "smtp") eqn:E6.
  { apply py_eq_str_true in E6 as Ht. rewrite Ht.
    unfold check_smtp. unfold_monad. unfold getitem.
    destruct (e !! "name") as [n|] eqn:En; [|done].
    destruct (e !! "host") as [h|]; [|done].
    intros H. eapply (check_tcp_copy_shape w e n h "smtp") in H as (? & ? & Hty & Hs & Hn); [|done].
    rewrite <- En. split; [done|]. split; [done|]. split; [done|]. split; [done|].
    split; [done|]. intros Hu. exfalso. eapply (Hk "smtp"); [set_solver|by rewrite Ht|done]. }
  unfold_monad. unfold getitem. destruct (e !! "name") as [n|]; [|done].
  intros [= <- <-]. split; [done|]. split; [done|]. split; [done|].
  split; [by schema_tac|]. split; [|done]. intros _ s Hs.
  unfold known_check_types in Hs. fold t.
  repeat (apply elem_of_cons in Hs as [-> | Hs];
          [intros Ht; rewrite Ht in *; discriminate|]).
  by apply elem_of_nil in Hs.
Qed.

(** X1. Every result that [check_endpoint] returns has a name (that of the
    descriptor), a type, a detail text and a timestamp, and is either
    available with a numeric response time and the state healthy, warning
    or critical, or unavailable with the state critical or unknown; the
    state is unknown exactly for the check types that are not known. *)
Theorem result_shape w (e : Dict) st r st' :
  check_endpoint w e st = (inr r, st') →
  result_schema r ∧
  r !! "name" = e !! "name" ∧
  (has_state "unknown" r ↔ unknown_check_type e) ∧
  (has_state "healthy" r ∨ has_state "warning" r → r !! "available" = Some (VBool true)).
Proof.
  intros H. apply check_endpoint_shape in H as (_ & Hn & _ & Hs & Hu).
  split; [done|]. split; [done|]. split; [done|].
  destruct Hs as (_ & _ & _ & _ & [(Ha & _)|(Ha & Hc)]); [done|].
  unfold has_state in *. intros [H|H]; destruct Hc; congruence.
Qed.

Lemma result_shape_witness :
  let e : Dict := {[ "name" := VStr "EHR Database"; "type" := VStr "tcp";
                     "host" := VStr "ehr-db.northwoodshealth.local"; "port" := vint 5432 ]} in
  ∃ r, check_endpoint lab e initial_state = (inr r, tick initial_state) ∧
       result_schema r ∧ r !! "name" = e !! "name" ∧ has_state "healthy" r.
Proof.
  intros e. exists (result_of (check_endpoint lab e initial_state)).
  assert (He : check_endpoint lab e initial_state =
               (inr (result_of (check_endpoint lab e initial_state)), tick initial_state))
    by reflexivity.
  split; [exact He|].
  destruct (result_shape lab e initial_state _ _ He) as (Hs & Hn & _).
  split; [exact Hs|]. split; [exact Hn|]. reflexivity.
Defined.

(** X2. The result reports the declared type of its descriptor, with two
    exceptions that the code makes: an https descriptor is reported as
    "http", and a descriptor without a type as "tcp". *)
Theorem reported_type_rule w (e : Dict) st r st' :
  check_endpoint w e st = (inr r, st') →
  (e !! "type" = Some (VStr "https") → r !! "type" = Some (VStr "http")) ∧
  (e !! "type" = None → r !! "type" = Some (VStr "tcp")) ∧
  (∀ t, e !! "type" = Some t → t ≠ VStr "https" → r !! "type" = Some t).
Proof.
  intros H. apply check_endpoint_shape in H as (_ & _ & Ht & _).
  unfold reported_type, dict_get in Ht. split; [|split].
  - intros He. by rewrite He in Ht.
  - intros He. by rewrite He in Ht.
  - intros t He Hne. rewrite He in Ht. simpl in Ht.
    by rewrite (py_eq_str_false _ _ Hne) in Ht.
Qed.

Lemma reported_type_rule_witness :
  let e : Dict := {[ "name" := VStr "GLPI ITSM"; "type" := VStr "https";
                     "url" := VStr "https://glpi.harlenmorris.me" ]} in
  ∃ r, check_endpoint lab e initial_state = (inr r, tick initial_state) ∧
       r !! "type" = Some (VStr "http").
Proof.
  intros e. exists (result_of (check_endpoint lab e initial_state)).
  assert (He : check_endpoint lab e initial_state =
               (inr (result_of (check_endpoint lab e initial_state)), tick initial_state))
    by reflexivity.
  split; [exact He|].
  exact (proj1 (reported_type_rule lab e initial_state _ _ He) eq_refl).
Defined.

(** ** What the checks read *)

Lemma check_tcp_reads w (e1 e2 : Dict) st :
  e1 !! "name" = e2 !! "name" →
  e1 !! "host" = e2 !! "host" →
  e1 !! "port" = e2 !! "port" →
  e1 !! "timeout" = e2 !! "timeout" →
  check_tcp w e1 st = check_tcp w e2 st.
Proof.
  intros Hn Hh Hp Ht. unfold check_tcp, getitem, dict_get. by rewrite Hn, Hh, Hp, Ht.
Qed.

Lemma bind_relabel (m : M Dict) t st :
  (m ≫= λ result, mret (<["type" := VStr t]> result)) st = relabel t (m st).
Proof. unfold_monad. unfold relabel. by destruct (m st) as [[x|r] s]. Qed.

(** X3. [check_ldap] and [check_smtp] are the TCP check of the same
    descriptor, with the port (389, 25) and the timeout (3, 5) filled in
    when the descriptor has none, and the type of the result set to "ldap"
    or "smtp"; a missing host raises the same [KeyError]. *)
Theorem ldap_smtp_are_tcp w (e : Dict) st n :
  e !! "name" = Some n →
  check_ldap w e st =
    relabel "ldap"
      (check_tcp w (<["port" := dict_get e "port" (vint 389)]>
                      (<["timeout" := dict_get e "timeout" (vint 3)]> e)) st) ∧
  check_smtp w e st =
    relabel "smtp"
      (check_tcp w (<["port" := dict_get e "port" (vint 25)]>
                      (<["timeout" := dict_get e "timeout" (vint 5)]> e)) st).
Proof.
  intros Hn. split.
  - unfold check_ldap. unfold_monad. rewrite (getitem_Some _ _ _ Hn).
    destruct (e !! "host") as [h|] eqn:Hh.
    + rewrite (getitem_Some _ _ _ Hh).
      pose proof (bind_relabel (check_tcp w {[ "name" := n; "host" := h;
        "port" := dict_get e "port" (vint 389);
        "timeout" := dict_get e "timeout" (vint 3) ]}) "ldap" st) as Hb.
      unfold_monad. rewrite Hb. f_equal. apply check_tcp_reads.
      all: repeat first [ rewrite lookup_insert_eq | rewrite lookup_insert_ne by done
                        | rewrite lookup_singleton_eq ]; by rewrite ?Hn, ?Hh.
    + rewrite (getitem_None _ _ Hh). unfold check_tcp. unfold_monad.
      unfold getitem. rewrite !lookup_insert_ne by done. by rewrite Hh.
  - unfold check_smtp. unfold_monad. rewrite (getitem_Some _ _ _ Hn).
    destruct (e !! "host") as [h|] eqn:Hh.
    + rewrite (getitem_Some _ _ _ Hh).
      pose proof (bind_relabel (check_tcp w {[ "name" := n; "host" := h;
        "port" := dict_get e "port" (vint 25);
        "timeout" := dict_get e "timeout" (vint 5) ]}) "smtp" st) as Hb.
      unfold_monad. rewrite Hb. f_equal. apply check_tcp_reads.
      all: repeat first [ rewrite lookup_insert_eq | rewrite lookup_insert_ne by done
                        | rewrite lookup_singleton_eq ]; by rewrite ?Hn, ?Hh.
    + rewrite (getitem_None _ _ Hh). unfold check_tcp. unfold_monad.
      unfold getitem. rewrite !lookup_insert_ne by done. by rewrite Hh.
Qed.

(** The directory server of the default endpoints, without its port. *)
Lemma ldap_smtp_are_tcp_witness :
  let e : Dict := {[ "name" := VStr "Active Directory"; "type" := VStr "ldap";
                     "host" := VStr "dc1.northwoodshealth.local";
                     "critical" := VBool true ]} in
  e !! "name" = Some (VStr "Active Directory") ∧
  check_ldap lab e initial_state =
    relabel "ldap"
      (check_tcp lab (<["port" := vint 389]> (<["timeout" := vint 3]> e)) initial_state) ∧
  result_field "details" (check_ldap lab e initial_state) = Some (VStr "Port 389 open").
Proof.
  intros e. split; [reflexivity|]. split; [|reflexivity].
  exact (proj1 (ldap_smtp_are_tcp lab e initial_state (VStr "Active Directory") eq_refl)).
Defined.

(** X4. A check reads six keys of its descriptor and no other: descriptors
    that agree on name, type, url, host, port and timeout are probed alike
    and give the same result. In particular the critical flag has no part
    in the probe or in the state that it is given. *)
Theorem check_reads_probe_keys w (e1 e2 : Dict) st :
  (∀ k, k ∈ probe_keys → e1 !! k = e2 !! k) →
  check_endpoint w e1 st = check_endpoint w e2 st.
Proof.
  intros H.
  assert (e1 !! "name" = e2 !! "name") as Hn by (apply H; set_solver).
  assert (e1 !! "type" = e2 !! "type") as Hty by (apply H; set_solver).
  assert (e1 !! "url" = e2 !! "url") as Hu by (apply H; set_solver).
  assert (e1 !! "host" = e2 !! "host") as Hh by (apply H; set_solver).
  assert (e1 !! "port" = e2 !! "port") as Hp by (apply H; set_solver).
  assert (e1 !! "timeout" = e2 !! "timeout") as Hto by (apply H; set_solver).
  unfold check_endpoint, check_http, check_tcp, check_ping, check_ldap, check_smtp,
    getitem, dict_get.
  by rewrite Hn, Hty, Hu, Hh, Hp, Hto.
Qed.

Lemma check_reads_probe_keys_witness :
  let e1 : Dict := {[ "name" := VStr "EHR Database"; "type" := VStr "tcp";
                      "host" := VStr "ehr-db.northwoodshealth.local"; "port" := vint 5432;
                      "critical" := VBool true ]} in
  let e2 : Dict := {[ "name" := VStr "EHR Database"; "type" := VStr "tcp";
                      "host" := VStr "ehr-db.northwoodshealth.local"; "port" := vint 5432;
                      "critical" := VBool false; "owner" := VStr "dba" ]} in
  (∀ k, k ∈ probe_keys → e1 !! k = e2 !! k) ∧
  check_endpoint lab e1 initial_state = check_endpoint lab e2 initial_state.
Proof.
  intros e1 e2.
  assert (H : ∀ k, k ∈ probe_keys → e1 !! k = e2 !! k).
  { intros k Hk. unfold probe_keys in Hk.
    repeat (apply elem_of_cons in Hk as [-> | Hk]; [reflexivity|]).
    by apply elem_of_nil in Hk. }
  split; [exact H|]. exact (check_reads_probe_keys lab e1 e2 initial_state H).
Defined.

(** ** The trace of the dispatcher *)

Lemma count_where_app p (l1 l2 : list Dict) :
  count_where p (l1 ++ l2) = count_where p l1 + count_where p l2.
Proof. induction l1 as [|r l1 IH]; simpl; [done | rewrite IH; lia]. Qed.

Lemma count_where_bounds p (rs : list Dict) :
  0 ≤ count_where p rs ≤ Z.of_nat (length rs).
Proof. induction rs as [|r rs IH]; simpl; [lia | destruct (p r); lia]. Qed.

Lemma count_where_pos p (rs : list Dict) :
  0 < count_where p rs ↔ Exists (λ r, p r = true) rs.
Proof.
  induction rs as [|r rs IH]; simpl.
  - rewrite Exists_nil. lia.
  - rewrite Exists_cons. pose proof (count_where_bounds p rs).
    destruct (p r); split; try lia; auto.
    + intros ?. right. apply IH. lia.
    + intros [?|?]; [done|]. apply IH in H0. lia.
Qed.

(** An exception of a check does not depend on the state, and leaves it as
    it was. *)
Ltac inl_tac :=
  simpl;
  repeat match goal with
         | |- context [match ?x with KeyError _ => _ | _ => _ end] => destruct x; simpl
         end;
  try discriminate;
  intros [= <- <-]; intros; reflexivity.

Lemma check_http_raises w (e : Dict) st x st' :
  check_http w e st = (inl x, st') → ∀ s, check_http w e s = (inl x, s).
Proof.
  unfold check_http. unfold_monad. unfold getitem.
  destruct (e !! "url") as [url|]; [|inl_tac].
  destruct (requests_get w url _) as [y|[code elapsed]]; simpl.
  - destruct y; destruct (e !! "name"); try (destruct (py_mul _ _)); inl_tac.
  - destruct (e !! "name"); inl_tac.
Qed.

Lemma check_tcp_raises w (e : Dict) st x st' :
  check_tcp w e st = (inl x, st') → ∀ s, check_tcp w e s = (inl x, s).
Proof.
  unfold check_tcp. unfold_monad. unfold getitem.
  destruct (e !! "host") as [host|]; [|inl_tac].
  destruct (e !! "port") as [port|]; [|inl_tac].
  destruct (socket_connect_ex w host port _) as [y|[result elapsed]]; simpl.
  - destruct y; destruct (e !! "name"); inl_tac.
  - destruct (result =? 0); destruct (e !! "name"); inl_tac.
Qed.

Lemma check_ping_raises w (e : Dict) st x st' :
  check_ping w e st = (inl x, st') → ∀ s, check_ping w e s = (inl x, s).
Proof.
  unfold check_ping. unfold_monad. unfold getitem.
  destruct (e !! "host") as [host|]; [|inl_tac].
  destruct (py_mul _ 3) as [y|run_timeout]; simpl.
  - destruct y; destruct (e !! "name"); inl_tac.
  - destruct (subprocess_run_ping w host _ _) as [y|[returncode output]]; simpl.
    + destruct y; destruct (e !! "name"); inl_tac.
    + destruct (returncode =? 0); destruct (e !! "name"); inl_tac.
Qed.

Lemma retyped_raises (m : M Dict) t st x st' :
  (∀ st x st', m st = (inl x, st') → ∀ s, m s = (inl x, s)) →
  (m ≫= λ result, mret (<["type" := VStr t]> result)) st = (inl x, st') →
  ∀ s, (m ≫= λ result, mret (<["type" := VStr t]> result)) s = (inl x, s).
Proof.
  intros Hm. unfold_monad. destruct (m st) as [[y|r] s1] eqn:E; [|done].
  intros [= <- <-] s. by rewrite (Hm _ _ _ E s).
Qed.

Lemma check_endpoint_raises w (e : Dict) st x st' :
  check_endpoint w e st = (inl x, st') → ∀ s, check_endpoint w e s = (inl x, s).
Proof.
  unfold check_endpoint.
  destruct (_ || _); [apply check_http_raises|].
  destruct (py_eq_str _ "tcp"); [apply check_tcp_raises|].
  destruct (py_eq_str _ "ping"); [apply check_ping_raises|].
  destruct (py_eq_str _ "ldap").
  { unfold check_ldap. unfold_monad. unfold getitem.
    destruct (e !! "name"); [|inl_tac]. destruct (e !! "host"); [|inl_tac].
    apply retyped_raises, check_tcp_raises. }
  destruct (py_eq_str _ "smtp").
  { unfold check_smtp. unfold_monad. unfold getitem.
    destruct (e !! "name"); [|inl_tac]. destruct (e !! "host"); [|inl_tac].
    apply retyped_raises, check_tcp_raises. }
  unfold_monad. unfold getitem. destruct (e !! "name"); inl_tac.
Qed.

Lemma result_schema_status (r : Dict) :
  result_schema r → ∃ s, r !! "status" = Some (VStr s).
Proof.
  intros (_ & _ & _ & _ & [(_ & _ & [H|[H|H]])|(_ & [H|H])]); by eexists.
Qed.

Lemma result_schema_with_critical e (r : Dict) :
  result_schema r → result_schema (with_critical e r).
Proof.
  unfold result_schema, has_state, with_critical. rewrite !lookup_insert_ne by done. done.
Qed.

Lemma echoes_with_critical w (e : Dict) st r st' :
  check_endpoint w e st = (inr r, st') → echoes e (with_critical e r).
Proof.
  intros H. apply check_endpoint_shape in H as (_ & Hn & Ht & Hs & Hu).
  unfold echoes. split; [|split; [|split; [|split]]].
  - unfold with_critical. by rewrite lookup_insert_ne.
  - unfold with_critical. by rewrite lookup_insert_eq.
  - unfold with_critical. by rewrite lookup_insert_ne.
  - by apply result_schema_with_critical.
  - unfold has_state, with_critical in *. by rewrite lookup_insert_ne.
Qed.

Lemma count_result_counts (e r : Dict) s h :
  r !! "status" = Some (VStr s) →
  let r' := with_critical e r in
  let h' := count_result e r (VStr s) h in
  successes h' = successes h + (if in_state "healthy" r' then 1 else 0) ∧
  warnings h' = warnings h + (if in_state "warning" r' then 1 else 0) ∧
  critical_failures h' = critical_failures h + (if counted_critical r' then 1 else 0).
Proof.
  intros Hs. cbv zeta.
  unfold counted_critical, in_state, flag_set, with_critical, count_result.
  rewrite lookup_insert_eq, !lookup_insert_ne by done. rewrite Hs. simpl.
  destruct (String.eqb s "healthy") eqn:E1; simpl.
  { apply String.eqb_eq in E1 as ->. simpl. lia. }
  destruct (String.eqb s "warning"); simpl; [lia|].
  destruct (py_truthy _); lia.
Qed.

(** The loop of [run_checks], from any state: it appends the results of a
    prefix of the endpoints, one reading of the clock and one count each,
    and stops at the end of the list or at the first endpoint whose check
    raises. *)
Lemma run_checks_loop_trace w (es : list Dict) :
  ∀ st, ∃ new : list Dict,
    let o := run_checks_loop w es st in
    results (self (snd o)) = (results (self st) ++ new)%list ∧
    Forall2 echoes (take (length new) es) new ∧
    clock (snd o) = (clock st + length new)%nat ∧
    files (snd o) = files st ∧ stdout (snd o) = stdout st ∧
    successes (self (snd o)) = successes (self st) + count_where (in_state "healthy") new ∧
    warnings (self (snd o)) = warnings (self st) + count_where (in_state "warning") new ∧
    critical_failures (self (snd o)) =
      critical_failures (self st) + count_where counted_critical new ∧
    match fst o with
    | inr _ => length new = length es
    | inl x => ∃ e, es !! length new = Some e ∧ ∀ s, check_endpoint w e s = (inl x, s)
    end.
Proof.
  induction es as [|e es IH]; intros st.
  - exists []. simpl. rewrite app_nil_r. repeat split; try done; try lia.
  - destruct (check_endpoint w e st) as [[x|r] s1] eqn:E.
    + exists []. rewrite (run_checks_loop_raise _ _ _ _ _ _ E).
      pose proof (check_endpoint_raises _ _ _ _ _ E) as Hall.
      rewrite (Hall st) in E. injection E as <-.
      simpl. rewrite app_nil_r. repeat split; try done; try lia.
      all: try constructor. exists e. done.
    + pose proof (echoes_with_critical _ _ _ _ _ E) as Hecho.
      pose proof (check_endpoint_shape _ _ _ _ _ E) as (-> & _ & _ & Hs & _).
      destruct (result_schema_status _ Hs) as [s Hst].
      rewrite (run_checks_loop_cons _ _ _ _ _ _ _ E Hst).
      set (n := set_self (count_result e r (VStr s) (self (tick st))) (tick st)).
      destruct (IH n) as (new & Hres & Hall & Hclock & Hfiles & Hout & Hsu & Hwa & Hcf & Hend).
      exists (with_critical e r :: new).
      destruct (count_result_counts e r s (self st) Hst) as (Cs & Cw & Cc).
      cbv zeta in *. rewrite Hres, Hclock, Hfiles, Hout, Hsu, Hwa, Hcf.
      change (self n) with (count_result e r (VStr s) (self st)).
      change (files n) with (files st). change (stdout n) with (stdout st).
      change (clock n) with (S (clock st)).
      change (results (count_result e r (VStr s) (self st)))
        with (results (self st) ++ [with_critical e r])%list.
      cbn [count_where length take].
      split; [by rewrite <- app_assoc|].
      split; [by constructor|]. split; [lia|]. split; [done|]. split; [done|].
      split; [lia|]. split; [lia|]. split; [lia|].
      destruct (fst (run_checks_loop w es n)); [done | by rewrite Hend].
Qed.

(** [run_checks], from any state. *)
Lemma run_checks_trace w (es : list Dict) st :
  let o := run_checks w es st in
  let held := results (self (snd o)) in
  Forall2 echoes (take (length held) es) held ∧
  clock (snd o) = (clock st + length held)%nat ∧
  files (snd o) = files st ∧ stdout (snd o) = stdout st ∧
  successes (self (snd o)) = successes (self st) + count_where (in_state "healthy") held ∧
  warnings (self (snd o)) = warnings (self st) + count_where (in_state "warning") held ∧
  critical_failures (self (snd o)) =
    critical_failures (self st) + count_where counted_critical held ∧
  match fst o with
  | inr rs => rs = held ∧ length held = length es
  | inl x => ∃ e, es !! length held = Some e ∧ ∀ s, check_endpoint w e s = (inl x, s)
  end.
Proof.
  cbv zeta. unfold run_checks. unfold_monad. simpl.
  set (n := set_self _ st).
  destruct (run_checks_loop_trace w es n)
    as (new & Hres & Hall & Hclock & Hf & Ho & Hs & Hw & Hc & Hend).
  cbv zeta in *. change (results (self n)) with (@nil Dict) in Hres. simpl in Hres.
  change (clock n) with (clock st) in Hclock.
  change (files n) with (files st) in Hf. change (stdout n) with (stdout st) in Ho.
  change (successes (self n)) with (successes (self st)) in Hs.
  change (warnings (self n)) with (warnings (self st)) in Hw.
  change (critical_failures (self n)) with (critical_failures (self st)) in Hc.
  destruct (run_checks_loop w es n) as [[x|[]] s1]; simpl in *; rewrite Hres; done.
Qed.

(** X5. [run_checks] probes the endpoints in the order of the list and
    stops at the first whose check raises: the checker then holds one
    result for each endpoint before it, in order, each with the name, the
    flag and the reported type of its descriptor, the endpoints after it
    are not probed, and the exception is the one of that check; when no
    check raises, the list returned is the list held, one result per
    endpoint. *)
Theorem run_checks_stops_at_first_failure w (es : list Dict) st :
  let o := run_checks w es st in
  let held := results (self (snd o)) in
  (length held ≤ length es)%nat ∧
  Forall2 echoes (take (length held) es) held ∧
  clock (snd o) = (clock st + length held)%nat ∧
  match fst o with
  | inr rs => rs = held ∧ length held = length es
  | inl x => ∃ e, es !! length held = Some e ∧ ∀ s, check_endpoint w e s = (inl x, s)
  end.
Proof.
  destruct (run_checks_trace w es st) as (Hall & Hclock & _ & _ & _ & _ & _ & Hend).
  cbv zeta in *. split; [|done].
  destruct (fst (run_checks w es st)) as [x|rs].
  - destruct Hend as (e & He & _). apply lookup_lt_Some in He. lia.
  - destruct Hend as [_ ->]. lia.
Qed.

(** X6. Whether [run_checks] returns or raises, the counters of the checker
    are what they were before the call plus the tallies of the results it
    now holds: the healthy ones, the warning ones, and those that are
    neither and whose endpoint is marked critical. *)
Theorem counters_are_tallies w (es : list Dict) st :
  let st' := snd (run_checks w es st) in
  let held := results (self st') in
  successes (self st') = successes (self st) + count_where (in_state "healthy") held ∧
  warnings (self st') = warnings (self st) + count_where (in_state "warning") held ∧
  critical_failures (self st') =
    critical_failures (self st) + count_where counted_critical held.
Proof.
  destruct (run_checks_trace w es st) as (_ & _ & _ & _ & Hs & Hw & Hc & _). done.
Qed.

(** ** The JSON document and the exit code *)

Lemma count_if_count_where cond p (rs : list Dict) :
  Forall (λ r, cond r = inr (p r)) rs → count_if cond rs = inr (count_where p rs).
Proof. induction 1 as [|r rs Hr _ IH]; simpl; [done | by rewrite Hr, IH]. Qed.

Lemma status_is_in_state s (r : Dict) :
  is_Some (r !! "status") → status_is s r = inr (in_state s r).
Proof. intros [v Hv]. unfold status_is, in_state, getitem. by rewrite Hv. Qed.

Lemma critical_and_marked_reported (r : Dict) :
  probe_result r → critical_and_marked r = inr (reported_critical r).
Proof.
  intros [[v Hv] [c Hc]].
  unfold critical_and_marked, reported_critical, in_state, flag_set, getitem.
  rewrite Hv, Hc. by destruct (py_eq_str v "critical").
Qed.

(** The document that [generate_json_output] builds from probe results. *)
Lemma json_document_counts w (rs : list Dict) st :
  Forall probe_result rs →
  ∃ doc, json_document w rs st = (inr doc, tick st) ∧
    overall_status doc =
      (if 0 <? count_where reported_critical rs then "critical"
       else if 0 <? count_where (in_state "warning") rs then "warning"
       else "healthy") ∧
    summary_total_endpoints doc = Z.of_nat (length rs) ∧
    summary_healthy doc = count_where (in_state "healthy") rs ∧
    summary_warnings doc = count_where (in_state "warning") rs ∧
    summary_critical doc = count_where reported_critical rs ∧
    summary_down doc = count_where unavailable rs ∧
    endpoints doc = rs.
Proof.
  intros Hrs. unfold json_document. unfold_monad.
  rewrite (count_if_count_where critical_and_marked reported_critical).
  2:{ eapply Forall_impl; [exact Hrs|]. apply critical_and_marked_reported. }
  rewrite (count_if_count_where (status_is "warning") (in_state "warning")).
  2:{ eapply Forall_impl; [exact Hrs|]. intros r [? _]. by apply status_is_in_state. }
  simpl.
  rewrite (count_if_count_where (status_is "healthy") (in_state "healthy")).
  2:{ eapply Forall_impl; [exact Hrs|]. intros r [? _]. by apply status_is_in_state. }
  rewrite (count_if_count_where not_available unavailable).
  2:{ apply Forall_forall. by intros r _. }
  eexists. split; [reflexivity|]. simpl. done.
Qed.

Lemma generate_json_output_unfold w (rs : list Dict) output st :
  generate_json_output w rs output st =
  match json_document w rs st with
  | (inl x, s) => (inl x, s)
  | (inr doc, s) =>
      match open_w w output with
      | Some x => (inl x, s)
      | None => (inr tt, set_files ((output, doc) :: files s) s)
      end
  end.
Proof.
  unfold generate_json_output. unfold_monad.
  destruct (json_document w rs st) as [[x|doc] s]; [done|]. by destruct (open_w w output).
Qed.

Lemma main_unfold w output quick (es : list Dict) st :
  main w output quick es st =
  match run_checks w es (set_self HealthChecker_init st) with
  | (inl x, s1) => (inl x, s1)
  | (inr rs, s1) =>
      match generate_json_output w rs output s1 with
      | (inl x, s2) => (inl x, s2)
      | (inr _, s2) =>
          match (if negb quick then generate_console_report w rs else mret tt) s2 with
          | (inl x, s3) => (inl x, s3)
          | (inr _, s3) => (inr (exit_code_of (self s3)), s3)
          end
      end
  end.
Proof.
  unfold main, main_cycle. unfold_monad. simpl.
  destruct (run_checks w es _) as [[x|rs] s1]; [done|].
  destruct (generate_json_output w rs output s1) as [[x|[]] s2]; [done|].
  destruct ((if negb quick then generate_console_report w rs else λ st0, (inr (), st0)) s2)
    as [[x|[]] s3]; [done|].
  by rewrite exit_code_step.
Qed.

Lemma echoes_stored (e r : Dict) : echoes e r → stored_result r.
Proof. intros (_ & Hc & _ & Hs & _). split; [done | by eexists]. Qed.

Lemma stored_result_probe_result (r : Dict) : stored_result r → probe_result r.
Proof.
  intros [Hs Hc]. split; [|done]. destruct (result_schema_status _ Hs) as [s ->]. by eexists.
Qed.

(** An outcome that is a return, with the state it leaves. *)
Lemma outcome_pair {A} (o : (exn + A) * St) (a : A) :
  fst o = inr a → o = (inr a, snd o).
Proof. destruct o as [r s]. simpl. by intros ->. Qed.

(** What [main] has done when it returns an exit code. *)
Lemma main_returns w output quick (es : list Dict) st code st' :
  main w output quick es st = (inr code, st') →
  let held := results (self st') in
  ∃ doc,
    Forall2 echoes es held ∧
    files st' = (output, doc) :: files st ∧
    endpoints doc = held ∧
    overall_status doc =
      (if 0 <? count_where reported_critical held then "critical"
       else if 0 <? count_where (in_state "warning") held then "warning"
       else "healthy") ∧
    code =
      (if 0 <? count_where counted_critical held then 2
       else if 0 <? count_where (in_state "warning") held then 1
       else 0).
Proof.
  rewrite main_unfold.
  pose proof (run_checks_trace w es (set_self HealthChecker_init st))
    as (Hall & _ & Hf & _ & _ & Hw & Hc & Hend).
  cbv zeta in *.
  destruct (run_checks w es _) as [[x|rs] s1]; [done|]. simpl in *.
  destruct Hend as [-> Hlen]. rewrite Hlen, firstn_all in Hall.
  rewrite generate_json_output_unfold.
  destruct (json_document_counts w (results (self s1)) s1) as (doc & -> & Hov & _ & _ & _ & _ & _ & Hen).
  { eapply Forall2_Forall_r; [exact Hall|]. apply Forall_forall.
    intros e _ r Hr. by apply stored_result_probe_result, (echoes_stored e). }
  destruct (open_w w output); [done|].
  set (s2 := set_files _ (tick s1)).
  pose proof (generate_console_report_keeps w (results (self s1)) s2) as [Hk1 Hk2].
  destruct quick; simpl.
  - intros [= <- <-]. exists doc. subst s2. simpl. rewrite Hf.
    unfold exit_code_of. simpl. rewrite Hw, Hc. simpl. done.
  - destruct (generate_console_report w (results (self s1)) s2) as [[x|[]] s3]; [done|].
    simpl in *. intros [= <- <-]. exists doc. rewrite Hk2, Hf.
    unfold exit_code_of. rewrite Hk1, Hw, Hc. simpl. done.
Qed.





Lemma count_where_ext (p q : Dict → bool) (rs : list Dict) :
  Forall (λ r, p r = q r) rs → count_where p rs = count_where q rs.
Proof. induction 1 as [|r rs Hr _ IH]; simpl; [done | by rewrite Hr, IH]. Qed.

(** Tests of which no result passes two: their tallies add up to at most
    the number of results. *)
Lemma count_where_exclusive (p1 p2 p3 : Dict → bool) (rs : list Dict) :
  Forall (λ r, (if p1 r then 1 else 0) + (if p2 r then 1 else 0) +
               (if p3 r then 1 else 0) ≤ 1) rs →
  count_where p1 rs + count_where p2 rs + count_where p3 rs ≤ Z.of_nat (length rs).
Proof.
  induction 1 as [|r rs Hr _ IH]; simpl; [done|].
  destruct (p1 r), (p2 r), (p3 r); lia.
Qed.

(** On a result of known state the two readings of critical agree. *)
Lemma counted_is_reported (r : Dict) :
  result_schema r → ¬ has_state "unknown" r → counted_critical r = reported_critical r.
Proof.
  intros (_ & _ & _ & _ & [(_ & _ & [H|[H|H]])|(_ & [H|H])]) Hu; try done.
  all: unfold counted_critical, reported_critical, in_state; rewrite H; done.
Qed.

Lemma DEFAULT_ENDPOINTS_known : Forall (λ e, ¬ unknown_check_type e) DEFAULT_ENDPOINTS.
Proof.
  unfold DEFAULT_ENDPOINTS.
  repeat first [apply Forall_nil_2 | apply Forall_cons_2]; intros H.
  all: first [ by apply (H "http"); [set_solver|]
             | by apply (H "https"); [set_solver|]
             | by apply (H "tcp"); [set_solver|]
             | by apply (H "ping"); [set_solver|]
             | by apply (H "ldap"); [set_solver|]
             | by apply (H "smtp"); [set_solver|] ].
Qed.

(** X7. Past the loading of the endpoints (line 574 on): when [main], run on
    the endpoints [es] that it has loaded, returns an exit code, it has
    written its document, the checker holds one result per endpoint, in
    order, the document lists them, and the code is read off these results:
    2 exactly when some result is neither healthy nor warning on an endpoint
    marked critical, 1 exactly when there is no such result and some result
    is warning, 0 exactly when there is neither. A critical result on an
    endpoint that is not marked critical does not change the code. (The
    return of 1 at line 568, when the configuration does not load, comes
    before any of this: no endpoints, no checker, no document.) *)
Theorem exit_code_from_results w output quick (es : list Dict) st code st' :
  main w output quick es st = (inr code, st') →
  let held := results (self st') in
  Forall2 echoes es held ∧
  (∃ doc, files st' = (output, doc) :: files st ∧ endpoints doc = held) ∧
  (code = 2 ↔ Exists (λ r, counted_critical r = true) held) ∧
  (code = 1 ↔ ¬ Exists (λ r, counted_critical r = true) held ∧
              Exists (λ r, in_state "warning" r = true) held) ∧
  (code = 0 ↔ ¬ Exists (λ r, counted_critical r = true) held ∧
              ¬ Exists (λ r, in_state "warning" r = true) held).
Proof.
  intros Hm. destruct (main_returns _ _ _ _ _ _ _ Hm) as (doc & Hall & Hf & He & _ & Hcode).
  cbv zeta in *. split; [done|]. split; [by exists doc|].
  rewrite <- !count_where_pos. rewrite Hcode.
  set (c := count_where counted_critical _). set (v := count_where (in_state "warning") _).
  destruct (Z.ltb_spec 0 c), (Z.ltb_spec 0 v); lia.
Qed.

Lemma exit_code_from_results_witness :
  let o := main lab "health-data.json" false DEFAULT_ENDPOINTS initial_state in
  let held := results (self (snd o)) in
  o = (inr 2, snd o) ∧
  Forall2 echoes DEFAULT_ENDPOINTS held ∧
  (∃ doc, files (snd o) = ("health-data.json", doc) :: files initial_state ∧
          endpoints doc = held) ∧
  (2 = 2 ↔ Exists (λ r, counted_critical r = true) held) ∧
  (2 = 1 ↔ ¬ Exists (λ r, counted_critical r = true) held ∧
           Exists (λ r, in_state "warning" r = true) held) ∧
  (2 = 0 ↔ ¬ Exists (λ r, counted_critical r = true) held ∧
           ¬ Exists (λ r, in_state "warning" r = true) held).
Proof.
  cbv zeta.
  assert (H : main lab "health-data.json" false DEFAULT_ENDPOINTS initial_state =
              (inr 2, snd (main lab "health-data.json" false DEFAULT_ENDPOINTS initial_state)))
    by (apply outcome_pair; vm_compute; reflexivity).
  split; [exact H|].
  exact (exit_code_from_results lab "health-data.json" false DEFAULT_ENDPOINTS
           initial_state 2 _ H).
Defined.

(** X8. When every endpoint has one of the known check types and [main]
    returns an exit code, the Overall Status of the document it has written
    is the one of that code: critical for 2, warning for 1, healthy for 0.
    (With an endpoint of unknown type the two can differ.) *)
Theorem exit_code_matches_overall_status w output quick (es : list Dict) st code st' :
  Forall (λ e, ¬ unknown_check_type e) es →
  main w output quick es st = (inr code, st') →
  last_overall_status st' = Some (status_of_exit_code code).
Proof.
  intros Hk Hm.
  destruct (main_returns _ _ _ _ _ _ _ Hm) as (doc & Hall & Hf & _ & Hov & Hcode).
  cbv zeta in *. unfold last_overall_status. rewrite Hf, Hov, Hcode. f_equal.
  rewrite (count_where_ext counted_critical reported_critical).
  - unfold status_of_exit_code.
    destruct (0 <? count_where reported_critical _); [done|].
    by destruct (0 <? count_where (in_state "warning") _).
  - clear Hm Hf Hov Hcode. induction Hall as [|e r es' rs' Her _ IH]; [done|].
    apply Forall_cons in Hk as [Hke Hk]. apply Forall_cons. split; [|by apply IH].
    destruct Her as (_ & _ & _ & Hs & Hu). apply counted_is_reported; [done|].
    intros H. by apply Hke, Hu.
Qed.

Lemma exit_code_matches_overall_status_witness :
  let o := main lab "health-data.json" false DEFAULT_ENDPOINTS initial_state in
  Forall (λ e, ¬ unknown_check_type e) DEFAULT_ENDPOINTS ∧
  o = (inr 2, snd o) ∧
  last_overall_status (snd o) = Some (status_of_exit_code 2).
Proof.
  cbv zeta.
  assert (H : main lab "health-data.json" false DEFAULT_ENDPOINTS initial_state =
              (inr 2, snd (main lab "health-data.json" false DEFAULT_ENDPOINTS initial_state)))
    by (apply outcome_pair; vm_compute; reflexivity).
  split; [exact DEFAULT_ENDPOINTS_known|]. split; [exact H|].
  exact (exit_code_matches_overall_status lab "health-data.json" false DEFAULT_ENDPOINTS
           initial_state 2 _ DEFAULT_ENDPOINTS_known H).
Defined.

Lemma stored_result_exclusive (r : Dict) :
  result_schema r →
  (if in_state "healthy" r then 1 else 0) + (if in_state "warning" r then 1 else 0) +
  (if unavailable r then 1 else 0) ≤ 1 ∧
  (if in_state "healthy" r then 1 else 0) + (if in_state "warning" r then 1 else 0) +
  (if reported_critical r then 1 else 0) ≤ 1.
Proof.
  intros (_ & _ & _ & _ & [(Ha & _ & [H|[H|H]])|(Ha & [H|H])]).
  all: unfold reported_critical, unavailable, in_state, dict_get; rewrite H, Ha; simpl.
  all: destruct (flag_set r); simpl; lia.
Qed.

(** X9. From results of the shape that the checker stores,
    [generate_json_output] builds its document without raising, after one
    reading of the clock; the document lists the results as given, its
    total is their number, and the categories of its summary do not
    overlap: healthy, warnings and critical together, and healthy, warnings
    and down together, are each at most the total. *)
Theorem summary_counts w (rs : list Dict) st :
  Forall stored_result rs →
  ∃ doc, json_document w rs st = (inr doc, tick st) ∧
    endpoints doc = rs ∧
    summary_total_endpoints doc = Z.of_nat (length rs) ∧
    0 ≤ summary_healthy doc ∧ 0 ≤ summary_warnings doc ∧
    0 ≤ summary_critical doc ∧ 0 ≤ summary_down doc ∧
    summary_healthy doc + summary_warnings doc + summary_critical doc
      ≤ summary_total_endpoints doc ∧
    summary_healthy doc + summary_warnings doc + summary_down doc
      ≤ summary_total_endpoints doc.
Proof.
  intros Hrs.
  destruct (json_document_counts w rs st) as (doc & Hd & _ & Ht & Hh & Hw & Hc & Hdn & He).
  { eapply Forall_impl; [exact Hrs|]. apply stored_result_probe_result. }
  exists doc. rewrite Ht, Hh, Hw, Hc, Hdn.
  pose proof (count_where_bounds (in_state "healthy") rs).
  pose proof (count_where_bounds (in_state "warning") rs).
  pose proof (count_where_bounds reported_critical rs).
  pose proof (count_where_bounds unavailable rs).
  assert (count_where (in_state "healthy") rs + count_where (in_state "warning") rs +
          count_where reported_critical rs ≤ Z.of_nat (length rs)).
  { apply count_where_exclusive. eapply Forall_impl; [exact Hrs|].
    intros r [Hs _]. by apply stored_result_exclusive. }
  assert (count_where (in_state "healthy") rs + count_where (in_state "warning") rs +
          count_where unavailable rs ≤ Z.of_nat (length rs)).
  { apply count_where_exclusive. eapply Forall_impl; [exact Hrs|].
    intros r [Hs _]. by apply stored_result_exclusive. }
  repeat split; try done; lia.
Qed.

Lemma run_checks_stored w (es : list Dict) st :
  Forall stored_result (results (self (snd (run_checks w es st)))).
Proof.
  destruct (run_checks_trace w es st) as (Hall & _). cbv zeta in Hall.
  eapply Forall2_Forall_r; [exact Hall|]. apply Forall_forall.
  intros e _ r Hr. by apply (echoes_stored e).
Qed.

Lemma summary_counts_witness :
  let rs := results (self (snd (run_checks lab DEFAULT_ENDPOINTS initial_state))) in
  Forall stored_result rs ∧
  ∃ doc, json_document lab rs initial_state = (inr doc, tick initial_state) ∧
    endpoints doc = rs ∧
    summary_total_endpoints doc = Z.of_nat (length rs) ∧
    0 ≤ summary_healthy doc ∧ 0 ≤ summary_warnings doc ∧
    0 ≤ summary_critical doc ∧ 0 ≤ summary_down doc ∧
    summary_healthy doc + summary_warnings doc + summary_critical doc
      ≤ summary_total_endpoints doc ∧
    summary_healthy doc + summary_warnings doc + summary_down doc
      ≤ summary_total_endpoints doc.
Proof.
  cbv zeta. split; [apply run_checks_stored|].
  exact (summary_counts lab _ initial_state
           (run_checks_stored lab DEFAULT_ENDPOINTS initial_state)).
Defined.

(** X10. [main] writes the JSON document before it prints the report. Once
    [run_checks] has returned: if the output file opens, the document that
    lists the results is written under the given path whatever becomes of
    the report afterwards (printed, skipped by --quick, or ended by an
    exception); if the file does not open, [main] ends with the exception of
    [open], no file is written and no line of the report is printed. *)
Theorem document_written_before_report w output (es : list Dict) st rs s1 :
  run_checks w es (set_self HealthChecker_init st) = (inr rs, s1) →
  match open_w w output with
  | None =>
      ∃ doc, endpoints doc = rs ∧
        ∀ quick, files (snd (main w output quick es st)) = (output, doc) :: files st
  | Some x =>
      ∀ quick, ∃ s, main w output quick es st = (inl x, s) ∧
                    files s = files st ∧ stdout s = stdout st
  end.
Proof.
  intros Hrun.
  pose proof (run_checks_trace w es (set_self HealthChecker_init st))
    as (_ & _ & Hf & Ho & _ & _ & _ & Hend).
  pose proof (run_checks_stored w es (set_self HealthChecker_init st)) as Hst.
  cbv zeta in *. rewrite Hrun in *. simpl in *. destruct Hend as [-> _].
  destruct (json_document_counts w (results (self s1)) s1)
    as (doc & Hd & _ & _ & _ & _ & _ & _ & He).
  { eapply Forall_impl; [exact Hst|]. apply stored_result_probe_result. }
  destruct (open_w w output) as [x|] eqn:Hopen.
  - intros quick. eexists. rewrite main_unfold, Hrun, generate_json_output_unfold, Hd, Hopen.
    split; [reflexivity|]. simpl. done.
  - exists doc. split; [done|]. intros quick.
    rewrite main_unfold, Hrun, generate_json_output_unfold, Hd, Hopen.
    set (s2 := set_files _ (tick s1)).
    pose proof (generate_console_report_keeps w (results (self s1)) s2) as [_ Hk].
    destruct quick; simpl.
    + by rewrite Hf.
    + destruct (generate_console_report w (results (self s1)) s2) as [[x|[]] s3];
        simpl in *; rewrite Hk; subst s2; simpl; by rewrite Hf.
Qed.

Lemma document_written_before_report_witness :
  let es : list Dict :=
    [ {[ "name" := VStr "Exchange Server"; "type" := VStr "smtp";
         "host" := VStr "exchange.northwoodshealth.local"; "port" := vint 25;
         "critical" := VBool true; "timeout" := vint 5 ]} ] in
  let o := run_checks lab es (set_self HealthChecker_init initial_state) in
  o = (inr (results (self (snd o))), snd o) ∧
  ∃ doc, endpoints doc = results (self (snd o)) ∧
    ∀ quick, files (snd (main lab "health-data.json" quick es initial_state))
             = ("health-data.json", doc) :: files initial_state.
Proof.
  intros es o.
  assert (H : o = (inr (results (self (snd o))), snd o)) by reflexivity.
  split; [exact H|].
  exact (document_written_before_report lab "health-data.json" es initial_state _ _ H).
Defined.

(** ** The console report *)

Lemma select_if_filter s (rs : list Dict) :
  Forall (λ r, is_Some (r !! "status")) rs →
  select_if (status_is s) rs = inr (List.filter (in_state s) rs).
Proof.
  induction 1 as [|r rs Hr _ IH]; simpl; [done|].
  by rewrite (status_is_in_state s r Hr), IH.
Qed.

Lemma length_filter_count p (rs : list Dict) :
  Z.of_nat (length (List.filter p rs)) = count_where p rs.
Proof.
  induction rs as [|r rs IH]; simpl; [done|]. destruct (p r); simpl; lia.
Qed.

Lemma filter_Forall (p : Dict → bool) (P : Dict → Prop) (rs : list Dict) :
  Forall (λ r, p r = true → P r) rs ↔ Forall P (List.filter p rs).
Proof.
  induction rs as [|r rs IH]; simpl.
  - split; intros _; constructor.
  - rewrite Forall_cons. destruct (p r) eqn:E.
    + rewrite Forall_cons, IH. split; intros [? ?]; split; auto.
    + rewrite IH. split; [by intros [_ ?] | by intros ?].
Qed.

(** A loop whose body prints one row for each result. *)
Lemma for_each_rows (body : Dict → M unit) (row : Dict → string) (rs : list Dict) st :
  Forall (λ r, ∀ s, body r s = (inr tt, set_stdout (stdout s ++ [row r]) s)) rs →
  for_each body rs st = (inr tt, set_stdout (stdout st ++ map row rs) st).
Proof.
  intros H. revert st. induction H as [|r rs Hr _ IH]; intros st; simpl.
  - unfold_monad. rewrite app_nil_r. by destruct st.
  - unfold_monad. rewrite Hr, IH. simpl. by rewrite <- app_assoc.
Qed.

(** A loop that returns has a body that returns on each result. *)
Lemma for_each_returns (body : Dict → M unit) (rs : list Dict) st st' :
  for_each body rs st = (inr tt, st') →
  Forall (λ r, ∃ s s', body r s = (inr tt, s')) rs.
Proof.
  revert st. induction rs as [|r rs IH]; intros st; simpl; [constructor|].
  unfold_monad. destruct (body r st) as [[x|[]] s1] eqn:E; [done|].
  intros H. constructor; [by eauto | by eapply IH].
Qed.

Lemma bind_step {A B} (m : M A) (k : A → M B) st a s1 :
  m st = (inr a, s1) → (m ≫= k) st = k a s1.
Proof. unfold_monad. by intros ->. Qed.

Lemma bind_inr {A B} (m : M A) (k : A → M B) st b st' :
  (m ≫= k) st = (inr b, st') → ∃ a s1, m st = (inr a, s1) ∧ k a s1 = (inr b, st').
Proof. unfold_monad. destruct (m st) as [[x|a] s1]; [done | by eauto]. Qed.

(** A group of the report whose body prints one row for each result. *)
Lemma section_rows title (body : Dict → M unit) (row : Dict → string) (l : list Dict) st :
  Forall (λ r, ∀ s, body r s = (inr tt, set_stdout (stdout s ++ [row r]) s)) l →
  (match l with
   | [] => mret tt
   | _ => print title;; for_each body l;; print ""
   end) st = (inr tt, set_stdout (stdout st ++ report_section title (map row l)) st).
Proof.
  intros H. destruct l as [|r l].
  - simpl. unfold_monad. rewrite app_nil_r. by destruct st.
  - erewrite bind_step by reflexivity.
    erewrite bind_step by (by apply (for_each_rows body row)).
    unfold print. simpl. by rewrite <- !app_assoc.
Qed.

Lemma section_returns title (body : Dict → M unit) (l : list Dict) st st' :
  (match l with
   | [] => mret tt
   | _ => print title;; for_each body l;; print ""
   end) st = (inr tt, st') →
  Forall (λ r, ∃ s s', body r s = (inr tt, s')) l.
Proof.
  destruct l as [|r l]; [constructor|]. intros H.
  apply bind_inr in H as ([] & s1 & _ & H). apply bind_inr in H as ([] & s2 & H & _).
  by eapply for_each_returns.
Qed.

Lemma py_format_s_inr width v s :
  py_format_s width v = inr s → ∃ n, v = VStr n ∧ s = pad_right width n.
Proof. destruct v as [| |[|]| | |]; simpl; try done. intros [= <-]. eauto. Qed.

Lemma name_column_printable (r : Dict) n :
  r !! "name" = Some (VStr n) → name_column r = pad_right 30 n.
Proof. unfold name_column. by intros ->. Qed.

Lemma float_of_int_inr z :
  (∃ f, float_of_int z = inr f) ↔ Z.abs z < 2 ^ 1024 - 2 ^ 970.
Proof.
  unfold float_of_int.
  destruct (Z.leb_spec (2 ^ 1024 - 2 ^ 970) (Z.abs z)) as [Hle|Hlt].
  - split; [by intros [f Hf] | intros Hlt; exfalso; revert Hle Hlt; apply Z.le_ngt].
  - split; [done|]. intros _. destruct (_ <=? 0); by eauto.
Qed.

(** The format [f] takes every number but an int too large for a float. *)
Lemma py_format_f_num width d x :
  (∃ s, py_format_f width d (VNum x) = inr s) ↔
  (∀ z, x = Int z → Z.abs z < 2 ^ 1024 - 2 ^ 970).
Proof.
  destruct x as [z|f]; cbn [py_format_f].
  - pose proof (float_of_int_inr z) as Hz. split.
    + intros [s Hs] z' [= <-]. apply Hz. destruct (float_of_int z); [done | by eauto].
    + intros H. destruct (proj2 Hz (H z eq_refl)) as [f ->]. by eauto.
  - split; [by intros _ z | by eauto].
Qed.

Ltac report_state := cbn [set_stdout set_clock tick stdout clock files self].

(** The report of results of the shape that the checker stores, when there
    is one at least, the names of those it lists are strings and the
    response times of the healthy ones are not too large for a float. *)
Lemma report_goes_through w (rs : list Dict) st :
  Forall stored_result rs → rs ≠ [] →
  Forall (λ r, listed r = true → printable r) rs →
  Forall (λ r, in_state "healthy" r = true → float_sized r) rs →
  generate_console_report w rs st =
  (inr tt, set_stdout (stdout st ++
             report_lines w rs (now_strftime w "%Y-%m-%d %H:%M:%S" (clock st)))
           (tick st)).
Proof.
  intros Hrs Hne Hp Hfl.
  assert (Hst : Forall (λ r, is_Some (r !! "status")) rs).
  { eapply Forall_impl; [exact Hrs|]. intros r Hr. by destruct (stored_result_probe_result r Hr). }
  pose proof (proj2 (Forall_and _ rs) (conj Hrs Hp)) as Hb. simpl in Hb.
  pose proof (proj2 (Forall_and _ rs) (conj Hb Hfl)) as Hb3. simpl in Hb3.
  unfold generate_console_report.
  rewrite !select_if_filter by done.
  destruct st as [c o f h].
  do 3 (erewrite bind_step by reflexivity; report_state).
  erewrite bind_step by reflexivity. report_state.
  do 3 (erewrite bind_step by reflexivity; report_state).
  do 3 (erewrite bind_step by reflexivity; report_state).
  erewrite bind_step.
  2:{ apply (section_rows _ _ healthy_row). apply filter_Forall.
      eapply Forall_impl; [exact Hb3|].
      intros r [[[Hs _] Hl] Hz] Hh s. simpl in *.
      destruct Hl as [n Hn]; [unfold listed; by rewrite Hh|].
      assert (∃ x, r !! "response_time_ms" = Some (VNum x)) as [x Hx].
      { destruct Hs as (_ & _ & _ & _ & [(_ & Hx & _)|(_ & [H|H])]); [done| |];
          unfold in_state in Hh; rewrite H in Hh; done. }
      assert (∃ t, py_format_f 6 2 (VNum x) = inr t) as [t Ht].
      { apply py_format_f_num. intros z ->. apply (Hz Hh). unfold dict_get. by rewrite Hx. }
      unfold_monad. unfold healthy_row, dict_get. rewrite (getitem_Some _ _ _ Hn).
      rewrite (name_column_printable r n Hn), Hx.
      change (default (vint 0) (Some (VNum x))) with (VNum x). rewrite Ht. simpl. done. }
  report_state.
  erewrite bind_step.
  2:{ apply (section_rows _ _ (warning_row w)). apply filter_Forall.
      eapply Forall_impl; [exact Hb|].
      intros r [[Hs _] Hl] Hh s. simpl in *.
      destruct Hl as [n Hn]; [unfold listed; rewrite Hh; by destruct (in_state "healthy" r)|].
      destruct Hs as (_ & _ & [d Hd] & _).
      unfold_monad. unfold warning_row, dict_get. rewrite (getitem_Some _ _ _ Hn).
      rewrite (name_column_printable r n Hn), (getitem_Some _ _ _ Hd), Hd. simpl. done. }
  report_state.
  erewrite bind_step.
  2:{ apply (section_rows _ _ (critical_row w)). apply filter_Forall.
      eapply Forall_impl; [exact Hb|].
      intros r [[Hs _] Hl] Hh s. simpl in *.
      destruct Hl as [n Hn];
        [unfold listed; rewrite Hh;
         by destruct (in_state "healthy" r), (in_state "warning" r)|].
      destruct Hs as (_ & _ & [d Hd] & _).
      unfold_monad. unfold critical_row. rewrite (getitem_Some _ _ _ Hn).
      rewrite (name_column_printable r n Hn), (getitem_Some _ _ _ Hd).
      unfold dict_get at 2. rewrite Hd. simpl. done. }
  report_state.
  unfold py_truediv.
  destruct (Z.of_nat (length rs) =? 0) eqn:E.
  { apply Z.eqb_eq in E. destruct rs; [done | simpl in E; lia]. }
  erewrite bind_step by reflexivity.
  cbv zeta.
  do 2 (erewrite bind_step by reflexivity; report_state).
  unfold report_lines. cbv zeta.
  set (q := (inject_Z _ / inject_Z _ * 100)%Q).
  destruct (Qeq_bool q 100); [|destruct (Qle_bool 90 q)].
  all: erewrite bind_step by reflexivity; report_state.
  all: unfold print; report_state.
  all: rewrite <- !app_assoc; reflexivity.
Qed.

Lemma listed_cases (r : Dict) :
  listed r = true →
  in_state "healthy" r = true ∨ in_state "warning" r = true ∨ in_state "critical" r = true.
Proof.
  unfold listed.
  destruct (in_state "healthy" r), (in_state "warning" r), (in_state "critical" r); auto.
Qed.

(** A report that returns was given a result at least, strings as the
    names of the results it lists, and response times that a float holds
    for the healthy ones. *)
Lemma report_returns_printable w (rs : list Dict) st st' :
  Forall stored_result rs →
  generate_console_report w rs st = (inr tt, st') →
  rs ≠ [] ∧ Forall (λ r, listed r = true → printable r) rs ∧
  Forall (λ r, in_state "healthy" r = true → float_sized r) rs.
Proof.
  intros Hrs H. split; [by intros ->|].
  assert (Hst : Forall (λ r, is_Some (r !! "status")) rs).
  { eapply Forall_impl; [exact Hrs|].
    intros r Hr. by destruct (stored_result_probe_result r Hr). }
  unfold generate_console_report in H.
  rewrite !select_if_filter in H by done.
  do 7 (apply bind_inr in H as (? & ? & _ & H)).
  do 3 (let E := fresh in
        apply bind_inr in H as (? & ? & E & H); unfold lift in E; injection E as <- <-).
  apply bind_inr in H as ([] & ? & Hh%section_returns & H).
  apply bind_inr in H as ([] & ? & Hw%section_returns & H).
  apply bind_inr in H as ([] & ? & Hc%section_returns & _).
  assert (Hbody : ∀ (P : Dict → Prop) (p : Dict → bool) (body : Dict → M unit),
            (∀ r s s', body r s = (inr tt, s') → P r) →
            Forall (λ r, ∃ s s', body r s = (inr tt, s')) (List.filter p rs) →
            Forall (λ r, p r = true → P r) rs).
  { intros P p body Hb Hf. apply filter_Forall. eapply Forall_impl; [exact Hf|].
    intros r (s & s' & Hr). by eapply Hb. }
  pose proof Hh as Hz.
  apply (Hbody float_sized) in Hz.
  2:{ intros r s s'. unfold_monad. unfold getitem.
      destruct (r !! "name") as [[| |[|]| | |]|]; simpl; try done.
      destruct (py_format_f 6 2 (dict_get r "response_time_ms" (vint 0))) as [ex|t] eqn:E;
        [done|].
      intros _ z Hv. rewrite Hv in E.
      apply (proj1 (py_format_f_num 6 2 (Int z))); by eauto. }
  split; [|done].
  apply (Hbody printable) in Hh, Hw, Hc.
  - rewrite Forall_forall in Hh, Hw, Hc. apply Forall_forall. intros r Hr Hl.
    destruct (listed_cases r Hl) as [?|[?|?]]; eauto.
  - intros r s s'. unfold_monad. unfold getitem, printable.
    destruct (r !! "name") as [[| |[|]| | |]|]; simpl; try done. eauto.
  - intros r s s'. unfold_monad. unfold getitem, printable.
    destruct (r !! "name") as [[| |[|]| | |]|]; simpl; try done. eauto.
  - intros r s s'. unfold_monad. unfold getitem, printable.
    destruct (r !! "name") as [[| |[|]| | |]|]; simpl; try done. eauto.
Qed.

Lemma score_full (h n : Z) :
  0 < n → Qeq_bool (inject_Z h / inject_Z n * 100) 100 = true ↔ h = n.
Proof.
  intros Hn. rewrite Qeq_bool_iff.
  destruct n as [|p|p]; try lia.
  unfold Qeq, Qdiv, Qmult, Qinv, inject_Z. simpl. lia.
Qed.

Lemma score_degraded (h n : Z) :
  0 < n → Qle_bool 90 (inject_Z h / inject_Z n * 100) = true ↔ 9 * n ≤ 10 * h.
Proof.
  intros Hn. rewrite Qle_bool_iff.
  destruct n as [|p|p]; try lia.
  unfold Qle, Qdiv, Qmult, Qinv, inject_Z. simpl. lia.
Qed.

Lemma report_section_length title (rows : list string) :
  Z.of_nat (length (report_section title rows)) = group_prints (Z.of_nat (length rows)).
Proof.
  destruct rows as [|r rows]; [done|].
  unfold report_section, group_prints.
  destruct (Z.eqb_spec (Z.of_nat (length (r :: rows))) 0) as [E|E]; [done|].
  cbn [length] in *. rewrite length_app. cbn [length]. lia.
Qed.

Lemma results_of_lab_run :
  Forall stored_result (results (self (snd (run_checks lab DEFAULT_ENDPOINTS initial_state)))).
Proof. apply run_checks_stored. Qed.

(** X11. On results of the shape that the checker stores, and with [print]
    itself taken to succeed, [generate_console_report] returns exactly when
    three things hold: there is a result at least; the name of every result
    in one of the states healthy, warning and critical is a string (the
    names go through the format [:30s], which takes nothing else); and the
    response time of every healthy result is not an int too large for a
    float (it goes through the format [:6.2f], which raises [OverflowError]
    on such an int). A result in state unknown is in no group, and its name
    is not read. *)
Theorem report_returns_iff w (rs : list Dict) st :
  Forall stored_result rs →
  (∃ st', generate_console_report w rs st = (inr tt, st')) ↔
  rs ≠ [] ∧ Forall (λ r, listed r = true → printable r) rs ∧
  Forall (λ r, in_state "healthy" r = true → float_sized r) rs.
Proof.
  intros Hrs. split.
  - intros [st' H]. by eapply report_returns_printable.
  - intros (Hne & Hp & Hz). eexists. by apply report_goes_through.
Qed.

Lemma report_returns_iff_witness :
  let rs := results (self (snd (run_checks lab DEFAULT_ENDPOINTS initial_state))) in
  Forall stored_result rs ∧
  ((∃ st', generate_console_report lab rs initial_state = (inr tt, st')) ↔
   rs ≠ [] ∧ Forall (λ r, listed r = true → printable r) rs ∧
   Forall (λ r, in_state "healthy" r = true → float_sized r) rs).
Proof.
  cbv zeta. split; [exact results_of_lab_run|].
  exact (report_returns_iff lab _ initial_state results_of_lab_run).
Defined.

(** X12. The status line of a report that returns, for [h] healthy results
    of [n] (the score taken as the exact quotient): all systems operational
    exactly when every result is healthy, degraded performance exactly when
    not all but at least nine in ten are, and critical issues detected
    exactly when fewer than nine in ten are. The line is the last but one
    of the report. A report of fewer than ten results is never degraded. *)
Theorem report_status_line w (rs : list Dict) st st' :
  Forall stored_result rs →
  generate_console_report w rs st = (inr tt, st') →
  let h := count_where (in_state "healthy") rs in
  let n := Z.of_nat (length rs) in
  ∃ (lines : list string) (line : string),
    stdout st' = (stdout st ++ lines ++ [line; str_repeat "=" 80])%list ∧
    (line = "Status: ✓ ALL SYSTEMS OPERATIONAL" ↔ h = n) ∧
    (line = "Status: ⚠ DEGRADED PERFORMANCE" ↔ h < n ∧ 9 * n ≤ 10 * h) ∧
    (line = "Status: ✗ CRITICAL ISSUES DETECTED" ↔ 10 * h < 9 * n) ∧
    (line = "Status: ⚠ DEGRADED PERFORMANCE" → 10 ≤ n).
Proof.
  intros Hrs H. cbv zeta.
  destruct (report_returns_printable w rs st st' Hrs H) as (Hne & Hp & Hz).
  rewrite (report_goes_through w rs st Hrs Hne Hp Hz) in H. injection H as <-.
  assert (Hn : 0 < Z.of_nat (length rs)) by (destruct rs; [done | simpl; lia]).
  pose proof (count_where_bounds (in_state "healthy") rs) as Hb.
  unfold report_lines. cbv zeta. rewrite length_filter_count.
  pose proof (score_full (count_where (in_state "healthy") rs) _ Hn) as Hfull.
  pose proof (score_degraded (count_where (in_state "healthy") rs) _ Hn) as Hdeg.
  set (q := (inject_Z _ / inject_Z _ * 100)%Q) in *.
  match goal with
  | |- context [(?hd ++ ?s1 ++ ?s2 ++ ?s3 ++ [?a; ?b; ?c; ?d])%list] =>
      exists (hd ++ s1 ++ s2 ++ s3 ++ [a; b])%list, c
  end.
  split.
  { cbn [stdout set_stdout]. rewrite <- !app_assoc. reflexivity. }
  destruct (Qeq_bool q 100); [|destruct (Qle_bool 90 q)].
  - assert (count_where (in_state "healthy") rs = Z.of_nat (length rs)) by by apply Hfull.
    repeat split; intros; try done; lia.
  - assert (count_where (in_state "healthy") rs ≠ Z.of_nat (length rs))
      by (intros ?%Hfull; done).
    assert (9 * Z.of_nat (length rs) ≤ 10 * count_where (in_state "healthy") rs)
      by by apply Hdeg.
    repeat split; intros; try done; lia.
  - assert (count_where (in_state "healthy") rs ≠ Z.of_nat (length rs))
      by (intros ?%Hfull; done).
    assert (¬ 9 * Z.of_nat (length rs) ≤ 10 * count_where (in_state "healthy") rs)
      by (intros ?%Hdeg; done).
    repeat split; intros; try done; lia.
Qed.

Lemma report_status_line_witness :
  let rs := results (self (snd (run_checks lab DEFAULT_ENDPOINTS initial_state))) in
  let o := generate_console_report lab rs initial_state in
  let h := count_where (in_state "healthy") rs in
  let n := Z.of_nat (length rs) in
  Forall stored_result rs ∧ o = (inr tt, snd o) ∧
  ∃ (lines : list string) (line : string),
    stdout (snd o) = (stdout initial_state ++ lines ++ [line; str_repeat "=" 80])%list ∧
    (line = "Status: ✓ ALL SYSTEMS OPERATIONAL" ↔ h = n) ∧
    (line = "Status: ⚠ DEGRADED PERFORMANCE" ↔ h < n ∧ 9 * n ≤ 10 * h) ∧
    (line = "Status: ✗ CRITICAL ISSUES DETECTED" ↔ 10 * h < 9 * n) ∧
    (line = "Status: ⚠ DEGRADED PERFORMANCE" → 10 ≤ n).
Proof.
  cbv zeta.
  assert (H : generate_console_report lab
                (results (self (snd (run_checks lab DEFAULT_ENDPOINTS initial_state))))
                initial_state =
              (inr tt, snd (generate_console_report lab
                (results (self (snd (run_checks lab DEFAULT_ENDPOINTS initial_state))))
                initial_state)))
    by (apply outcome_pair; vm_compute; reflexivity).
  split; [exact results_of_lab_run|]. split; [exact H|].
  exact (report_status_line lab _ initial_state _ results_of_lab_run H).
Defined.

(** X13. A report that returns reads the clock once, leaves the checker and
    the files as they are, and calls [print] ten times outside the groups
    and, for each of the groups healthy, warning and critical that is not
    empty, once for the title, once per result and once for an empty line.
    The first call prints a line break and the rule, so the ten calls make
    eleven lines on the console. A result in state unknown adds no call,
    though it counts in the total and in the divisor of the score. *)
Theorem report_layout w (rs : list Dict) st st' :
  Forall stored_result rs →
  generate_console_report w rs st = (inr tt, st') →
  clock st' = S (clock st) ∧ self st' = self st ∧ files st' = files st ∧
  ∃ printed : list string,
    stdout st' = (stdout st ++ String newline (str_repeat "=" 80) :: printed)%list ∧
    Z.of_nat (length printed) =
      9 + group_prints (count_where (in_state "healthy") rs)
        + group_prints (count_where (in_state "warning") rs)
        + group_prints (count_where (in_state "critical") rs).
Proof.
  intros Hrs H.
  destruct (report_returns_printable w rs st st' Hrs H) as (Hne & Hp & Hz).
  rewrite (report_goes_through w rs st Hrs Hne Hp Hz) in H. injection H as <-.
  repeat split; try done.
  unfold report_lines. cbv zeta.
  eexists. split; [cbn [stdout set_stdout app]; reflexivity|].
  cbn [length].
  rewrite !length_app, !Nat2Z.inj_succ, !Nat2Z.inj_add, !report_section_length, !length_map,
    !length_filter_count.
  cbn [length]. lia.
Qed.

Lemma report_layout_witness :
  let rs := results (self (snd (run_checks lab DEFAULT_ENDPOINTS initial_state))) in
  let o := generate_console_report lab rs initial_state in
  Forall stored_result rs ∧ o = (inr tt, snd o) ∧
  clock (snd o) = S (clock initial_state) ∧ self (snd o) = self initial_state ∧
  files (snd o) = files initial_state ∧
  ∃ printed : list string,
    stdout (snd o) =
      (stdout initial_state ++ String newline (str_repeat "=" 80) :: printed)%list ∧
    Z.of_nat (length printed) =
      9 + group_prints (count_where (in_state "healthy") rs)
        + group_prints (count_where (in_state "warning") rs)
        + group_prints (count_where (in_state "critical") rs).
Proof.
  cbv zeta.
  assert (H : generate_console_report lab
                (results (self (snd (run_checks lab DEFAULT_ENDPOINTS initial_state))))
                initial_state =
              (inr tt, snd (generate_console_report lab
                (results (self (snd (run_checks lab DEFAULT_ENDPOINTS initial_state))))
                initial_state)))
    by (apply outcome_pair; vm_compute; reflexivity).
  split; [exact results_of_lab_run|]. split; [exact H|].
  exact (report_layout lab _ initial_state _ results_of_lab_run H).
Defined.

(** ** Lines of the ping output *)

Lemma str_split_nonempty sep s : ∃ h t, str_split sep s = h :: t.
Proof.
  induction s as [|c s IH]; simpl; [by eauto|].
  destruct (Ascii.eqb c sep); [by eauto|]. destruct (str_split sep s); by eauto.
Qed.

Lemma startswith_split_head sep sub s :
  free_of sep sub = true → startswith sub s = true →
  ∃ h t, str_split sep s = h :: t ∧ startswith sub h = true.
Proof.
  revert s. induction sub as [|a p IH]; intros s Hfree Hs.
  - destruct (str_split_nonempty sep s) as (h & t & ->). exists h, t. split; [done|].
    by destruct h.
  - destruct s as [|b s]; [done|]. simpl in Hfree, Hs.
    apply andb_prop in Hfree as [Ha Hp].
    destruct (Ascii.eqb a b) eqn:Eab; [|done]. apply Ascii.eqb_eq in Eab as <-.
    destruct (IH s Hp Hs) as (h & t & Hsplit & Hh).
    simpl. destruct (Ascii.eqb a sep); [done|]. rewrite Hsplit.
    exists (String a h), t. split; [done|]. simpl. by rewrite Ascii.eqb_refl.
Qed.

Lemma str_contains_tail sub c s :
  str_contains sub s = true → str_contains sub (String c s) = true.
Proof. intros H. simpl. rewrite H. by destruct (startswith sub (String c s)). Qed.

Lemma str_contains_split sep sub s :
  free_of sep sub = true → str_contains sub s = true →
  Exists (λ l, str_contains sub l = true) (str_split sep s).
Proof.
  intros Hfree. induction s as [|c s IH]; intros Hs.
  - simpl in *. by apply Exists_cons_hd.
  - destruct (startswith sub (String c s)) eqn:Est.
    + destruct (startswith_split_head sep sub _ Hfree Est) as (h & t & -> & Hh).
      apply Exists_cons_hd. destruct h; simpl in *; by rewrite Hh.
    + simpl in Hs. rewrite Est in Hs. simpl in Hs. specialize (IH Hs).
      simpl. destruct (Ascii.eqb c sep); [by apply Exists_cons_tl|].
      destruct (str_split sep s) as [|h t]; [by apply Exists_nil in IH|].
      apply Exists_cons in IH as [Hh|Ht].
      * apply Exists_cons_hd. by apply str_contains_tail.
      * by apply Exists_cons_tl.
Qed.

Lemma filter_Exists_cons (P : string → Prop) `{∀ x, Decision (P x)} (l : list string) :
  Exists P l → ∃ x xs, filter P l = x :: xs ∧ P x.
Proof.
  induction 1 as [x l Hx|x l _ IH].
  - rewrite filter_cons_True by done. eauto.
  - destruct (decide (P x)) as [Hx|Hx].
    + rewrite filter_cons_True by done. eauto.
    + rewrite filter_cons_False by done. done.
Qed.

(** X14. The index [[0]] of [check_ping] cannot fail: when ['avg'] is in the
    output of ping, one of its lines contains it, so the list of the lines
    with ['avg'] has a first element, and the timing is read from that
    line. Of the bare [except:], only the index [[4]] into the fields of
    that line and [float()] are left to catch. *)
Theorem avg_line_exists w output :
  str_contains "avg" output = true →
  ∃ avg_line others,
    filter (λ l, str_contains "avg" l = true) (str_split newline output)
      = avg_line :: others ∧
    str_contains "avg" avg_line = true ∧
    ping_avg_ms w output =
      match str_split "/" avg_line !! 4%nat with
      | Some field =>
          match float_of_str w field with
          | Some f => Float f
          | None => Int 0
          end
      | None => Int 0
      end.
Proof.
  intros Hc.
  destruct (filter_Exists_cons (λ l, str_contains "avg" l = true) (str_split newline output))
    as (l & ls & Hf & Hl).
  { by apply str_contains_split. }
  exists l, ls. split; [done|]. split; [done|].
  unfold ping_avg_ms. by rewrite Hc, Hf.
Qed.

Lemma avg_line_exists_witness :
  str_contains "avg" ping_report = true ∧
  ∃ avg_line others,
    filter (λ l, str_contains "avg" l = true) (str_split newline ping_report)
      = avg_line :: others ∧
    str_contains "avg" avg_line = true ∧
    ping_avg_ms lab ping_report =
      match str_split "/" avg_line !! 4%nat with
      | Some field =>
          match float_of_str lab field with
          | Some f => Float f
          | None => Int 0
          end
      | None => Int 0
      end.
Proof.
  split; [reflexivity|]. exact (avg_line_exists lab ping_report eq_refl).
Defined.

(** ** The exit status of the process *)

(** X15. Past the parsing of the arguments and the loading of the endpoints
    (line 574 on, and the [sys.exit] around [main]): the exit status of a
    process that has come this far with the endpoints [es] is 0, 1 or 2. It
    is 0 exactly when [main] returns with no warning result and no result
    that is neither healthy nor warning on an endpoint marked critical, and
    2 exactly when [main] returns with such a result on a marked endpoint.
    It is 1 in the two other cases: [main] returns with warnings only, or an
    exception has left [main] (a descriptor without a field that its check
    reads, an output file that does not open, a report that raises). Status
    1 does not tell the one from the other. (Before line 574 the process can
    also end with 2 or 0 in [parse_args] and with 1 at line 568.) *)
Theorem process_exit_status_cases w output quick (es : list Dict) st :
  let o := main w output quick es st in
  let held := results (self (snd o)) in
  let status := process_exit_status (fst o) in
  (status = 0 ∨ status = 1 ∨ status = 2) ∧
  (status = 0 ↔ (∃ code, fst o = inr code) ∧
                ¬ Exists (λ r, counted_critical r = true) held ∧
                ¬ Exists (λ r, in_state "warning" r = true) held) ∧
  (status = 2 ↔ (∃ code, fst o = inr code) ∧
                Exists (λ r, counted_critical r = true) held) ∧
  (status = 1 ↔ (∃ x, fst o = inl x) ∨
                (¬ Exists (λ r, counted_critical r = true) held ∧
                 Exists (λ r, in_state "warning" r = true) held)).
Proof.
  cbv zeta. destruct (main w output quick es st) as [[x|code] st'] eqn:Hm; simpl.
  - split; [by auto|]. split; [|split].
    + split; [done | by intros [[? ?] _]].
    + split; [done | by intros [[? ?] _]].
    + split; [by eauto | done].
  - destruct (main_returns _ _ _ _ _ _ _ Hm) as (doc & _ & _ & _ & _ & Hcode).
    cbv zeta in Hcode. rewrite <- !count_where_pos.
    set (c := count_where counted_critical _) in *.
    set (v := count_where (in_state "warning") _) in *.
    destruct (Z.ltb_spec 0 c), (Z.ltb_spec 0 v); subst code.
    all: split; [by auto|]; split; [|split]; split.
    all: try (intros [[? ?]|?]); try (intros [[? ?] ?]); try done; try lia.
    all: try (split; [by eauto|]); try lia; try (right; lia).
Qed.

(** ** The whole of [main] *)

Lemma run_checks_loop_turn w (e : Dict) (es : list Dict) st :
  run_checks_loop w (e :: es) st = (run_checks_loop w [e];; run_checks_loop w es) st.
Proof.
  destruct (check_endpoint w e st) as [[x|r] s1] eqn:Hc.
  - rewrite (run_checks_loop_raise _ _ _ _ _ _ Hc). unfold_monad.
    by rewrite (run_checks_loop_raise _ _ _ _ _ _ Hc).
  - destruct (check_endpoint_shape _ _ _ _ _ Hc) as (_ & _ & _ & Hs & _).
    destruct (result_schema_status _ Hs) as [s Hst].
    rewrite (run_checks_loop_cons _ _ _ _ _ _ _ Hc Hst). unfold mbind, M_mbind, M_bind.
    by rewrite (run_checks_loop_cons _ _ _ _ _ _ _ Hc Hst).
Qed.

(** Over dictionaries the loop is [run_checks_loop]. *)
Lemma run_checks_loop_json_objects w (kvss : list (list (string * value))) st :
  run_checks_loop_json w (map VDict kvss) st =
  run_checks_loop w (map dict_of_items kvss) st.
Proof.
  revert st. induction kvss as [|kvs kvss IH]; intros st; [done|].
  cbn [map]. rewrite run_checks_loop_turn. cbn [run_checks_loop_json as_endpoint].
  unfold mbind, M_mbind, M_bind, lift.
  destruct (run_checks_loop w [dict_of_items kvs] st) as [[x|[]] s1]; [done|]. apply IH.
Qed.

Lemma run_checks_json_objects w (kvss : list (list (string * value))) st :
  run_checks_json w (VList (map VDict kvss)) st =
  run_checks w (map dict_of_items kvss) st.
Proof.
  unfold run_checks_json, run_checks. unfold_monad. cbn [py_len py_iter].
  by rewrite run_checks_loop_json_objects.
Qed.

Lemma main_json_objects w output quick (kvss : list (list (string * value))) st :
  main_json w output quick (VList (map VDict kvss)) st =
  main w output quick (map dict_of_items kvss) st.
Proof.
  unfold main_json, main, main_cycle. unfold mbind, M_mbind, M_bind, put_self.
  by rewrite run_checks_json_objects.
Qed.

Lemma as_endpoint_non_object (v : value) :
  (∀ kvs, v ≠ VDict kvs) → ∃ x, as_endpoint v = inl x.
Proof.
  intros H. destruct v as [| |[|]| | |kvs]; simpl; try by eauto. by destruct (H kvs).
Qed.

(** The loop ends in an exception when an element is not a dictionary. *)
Lemma run_checks_loop_json_raises w (items : list value) st :
  Exists (λ i, ∀ kvs, i ≠ VDict kvs) items →
  ∃ x s, run_checks_loop_json w items st = (inl x, s).
Proof.
  intros H. revert st. induction H as [i items Hi|i items _ IH]; intros st.
  - destruct (as_endpoint_non_object i Hi) as [x Hx].
    cbn [run_checks_loop_json]. unfold mbind, M_mbind, M_bind, lift. rewrite Hx. by eauto.
  - cbn [run_checks_loop_json]. unfold mbind, M_mbind, M_bind, lift.
    destruct (as_endpoint i) as [x|e]; [by eauto|].
    destruct (run_checks_loop w [e] st) as [[x|[]] s1]; [by eauto|]. apply IH.
Qed.

Lemma py_iter_len (v : value) items : py_iter v = inr items → ∃ n, py_len v = inr n.
Proof. destruct v as [| |[|]| | |]; simpl; try done; by eauto. Qed.

Lemma exit_code_of_cases (h : HealthChecker) :
  exit_code_of h = 0 ∨ exit_code_of h = 1 ∨ exit_code_of h = 2.
Proof.
  unfold exit_code_of. destruct (0 <? critical_failures h); [by auto|].
  destruct (0 <? warnings h); by auto.
Qed.

Lemma main_json_unfold w output quick (v : value) st :
  main_json w output quick v st =
  match run_checks_json w v (set_self HealthChecker_init st) with
  | (inl x, s1) => (inl x, s1)
  | (inr rs, s1) =>
      match generate_json_output w rs output s1 with
      | (inl x, s2) => (inl x, s2)
      | (inr _, s2) =>
          match (if negb quick then generate_console_report w rs else mret tt) s2 with
          | (inl x, s3) => (inl x, s3)
          | (inr _, s3) => (inr (exit_code_of (self s3)), s3)
          end
      end
  end.
Proof.
  unfold main_json. unfold_monad. simpl.
  destruct (run_checks_json w v _) as [[x|rs] s1]; [done|].
  destruct (generate_json_output w rs output s1) as [[x|[]] s2]; [done|].
  destruct ((if negb quick then generate_console_report w rs else λ st0, (inr (), st0)) s2)
    as [[x|[]] s3]; [done|].
  by rewrite exit_code_step.
Qed.

(** The exit status that goes with an outcome of the engine is 0, 1 or 2. *)
Lemma main_json_status w output quick (v : value) st :
  let status := process_exit_status (fst (main_json w output quick v st)) in
  status = 0 ∨ status = 1 ∨ status = 2.
Proof.
  cbv zeta. rewrite main_json_unfold.
  destruct (run_checks_json w v _) as [[x|rs] s1]; [by auto|].
  destruct (generate_json_output w rs output s1) as [[x|[]] s2]; [by auto|].
  destruct ((if negb quick then generate_console_report w rs else mret tt) s2)
    as [[x|[]] s3]; [by auto|].
  apply exit_code_of_cases.
Qed.

Lemma main_status w output quick (es : list Dict) st :
  let status := process_exit_status (fst (main w output quick es st)) in
  status = 0 ∨ status = 1 ∨ status = 2.
Proof.
  cbv zeta. rewrite main_unfold.
  destruct (run_checks w es _) as [[x|rs] s1]; [by auto|].
  destruct (generate_json_output w rs output s1) as [[x|[]] s2]; [by auto|].
  destruct ((if negb quick then generate_console_report w rs else mret tt) s2)
    as [[x|[]] s3]; [by auto|].
  apply exit_code_of_cases.
Qed.

Lemma main_json_raises w output quick (v : value) st :
  has_non_object v → ∃ x s, main_json w output quick v st = (inl x, s).
Proof.
  intros (items & Hi & Hex). rewrite main_json_unfold.
  destruct (py_iter_len v items Hi) as [n Hn].
  unfold run_checks_json. unfold mbind, M_mbind, M_bind, lift, get_self, put_self.
  rewrite Hn, Hi.
  match goal with
  | |- context [run_checks_loop_json w items ?s] =>
      destruct (run_checks_loop_json_raises w items s Hex) as (x & s' & ->)
  end.
  by eauto.
Qed.

Lemma script_status_returned (r : exn + Z) :
  script_exit_status (returned r) = process_exit_status r.
Proof. by destruct r. Qed.

Lemma main_json_empty w output quick (v : value) st :
  py_iter v = inr [] → main_json w output quick v st = main w output quick [] st.
Proof.
  intros Hi. destruct (py_iter_len v [] Hi) as [n Hn].
  unfold main_json, main, main_cycle, run_checks_json, run_checks.
  unfold mbind, M_mbind, M_bind, lift, put_self, get_self. by rewrite Hn, Hi.
Qed.

Lemma main_whole_engine w output quick (es : list Dict) st :
  (code ← main w output quick es; mret (Return code)) st =
  (returned (fst (main w output quick es st)), snd (main w output quick es st)).
Proof. unfold_monad. by destruct (main w output quick es st) as [[x|code] s]. Qed.

Lemma main_whole_engine_json w output quick (v : value) st :
  (code ← main_json w output quick v; mret (Return code)) st =
  (returned (fst (main_json w output quick v st)), snd (main_json w output quick v st)).
Proof. unfold_monad. by destruct (main_json w output quick v st) as [[x|code] s]. Qed.

(** X16. The whole of [main], by what [parse_args] makes of the command line
    and by what the configuration file holds. The clock is read once for the
    default output name before anything else. A command line that the
    parser refuses ends the process with status 2 and [--help] with status
    0, with no probe made, no file written and no call of [print] by the
    script (what argparse itself writes is not modelled). Without
    [--config], or with an empty one, the run is the engine ([main] from
    line 574 on) on the default endpoints. With a configuration file: when
    [open] or [json.load] raises, or the value loaded has no [len] (a
    number, a boolean, null), [main] returns 1 with no probe made and no
    file written; when the value is a list of dictionaries, the run is the
    engine on these dictionaries; when the loop has nothing to go through
    (an empty list, string or object), it is the engine on no endpoint; and
    when an element that the loop comes to is not a dictionary (a list
    holding one, a string or an object that is not empty), an exception
    leaves [main] and the status is 1. In every case the exit status is 0,
    1 or 2. *)
Theorem main_whole_cases w (load : string → exn + value) (args : parsed_args) st :
  let o := main_whole w load args st in
  let status := script_exit_status (fst o) in
  let st1 := tick st in
  (status = 0 ∨ status = 1 ∨ status = 2) ∧
  match args with
  | UsageError => o = (inr (SystemExit 2), st1)
  | HelpShown => o = (inr (SystemExit 0), st1)
  | Namespace config output quick verbose =>
      let output :=
        default ("health-data-" +:+ now_strftime w "%Y%m%d-%H%M%S" (clock st) +:+ ".json")
                output in
      let engine (es : list Dict) := main w output quick es st1 in
      match config with
      | Some (String c path) =>
          match load (String c path) with
          | inl _ => o = (inr (Return 1), st1)
          | inr v =>
              match py_len v with
              | inl _ => o = (inr (Return 1), st1)
              | inr _ =>
                  (∀ kvss, list_of_objects v kvss →
                     o = (returned (fst (engine (map dict_of_items kvss))),
                          snd (engine (map dict_of_items kvss)))) ∧
                  (py_iter v = inr [] → o = (returned (fst (engine [])), snd (engine []))) ∧
                  (has_non_object v → (∃ x, fst o = inl x) ∧ status = 1)
              end
          end
      | _ => o = (returned (fst (engine DEFAULT_ENDPOINTS)), snd (engine DEFAULT_ENDPOINTS))
      end
  end.
Proof.
  cbv zeta.
  assert (Ho : main_whole w load args st =
    match args with
    | UsageError => mret (SystemExit 2)
    | HelpShown => mret (SystemExit 0)
    | Namespace config output quick verbose =>
        let output :=
          default ("health-data-" +:+ now_strftime w "%Y%m%d-%H%M%S" (clock st) +:+ ".json")
                  output in
        match config with
        | Some (String c path) =>
            loaded ← load_endpoints load (String c path);
            match loaded with
            | None => mret (Return 1)
            | Some endpoints =>
                code ← main_json w output quick endpoints;
                mret (Return code)
            end
        | _ =>
            code ← main w output quick DEFAULT_ENDPOINTS;
            mret (Return code)
        end
    end (tick st)) by reflexivity.
  rewrite Ho. clear Ho.
  destruct args as [| |config output quick verbose].
  - split; [by auto | done].
  - split; [by auto | done].
  - cbv zeta. set (out := default _ output).
    assert (Hdefault :
      let o := (code ← main w out quick DEFAULT_ENDPOINTS; mret (Return code)) (tick st) in
      (script_exit_status (fst o) = 0 ∨ script_exit_status (fst o) = 1 ∨
       script_exit_status (fst o) = 2) ∧
      o = (returned (fst (main w out quick DEFAULT_ENDPOINTS (tick st))),
           snd (main w out quick DEFAULT_ENDPOINTS (tick st)))).
    { cbv zeta. rewrite main_whole_engine. split; [|done].
      cbn [fst]. rewrite script_status_returned. apply main_status. }
    destruct config as [[|c path]|]; [exact Hdefault| |exact Hdefault].
    clear Hdefault.
    assert (Hl : (loaded ← load_endpoints load (String c path);
                  match loaded with
                  | None => mret (Return 1)
                  | Some endpoints =>
                      code ← main_json w out quick endpoints;
                      mret (Return code)
                  end) (tick st) =
                 match load (String c path) with
                 | inl _ => (inr (Return 1), tick st)
                 | inr v =>
                     match py_len v with
                     | inl _ => (inr (Return 1), tick st)
                     | inr _ => (code ← main_json w out quick v; mret (Return code)) (tick st)
                     end
                 end).
    { unfold load_endpoints, try_except, io, lift. unfold mbind, M_mbind, M_bind.
      destruct (load (String c path)) as [x|v]; [done|]. by destruct (py_len v). }
    rewrite Hl. clear Hl.
    destruct (load (String c path)) as [x|v]; [split; [by auto | done]|].
    destruct (py_len v) as [x|n]; [split; [by auto | done]|].
    rewrite main_whole_engine_json. cbn [fst snd].
    rewrite script_status_returned.
    split; [apply main_json_status|]. split; [|split].
    + intros kvss ->. by rewrite main_json_objects.
    + intros Hi. by rewrite (main_json_empty w out quick v (tick st) Hi).
    + intros Hn. destruct (main_json_raises w out quick v (tick st) Hn) as (x & s & ->).
      split; [by exists x | done].
Qed.

(** A configuration file that holds one endpoint, run with [--quick]. *)
Lemma main_whole_cases_witness :
  let kvs := [("name", VStr "GLPI ITSM"); ("type", VStr "http");
              ("url", VStr "https://glpi.harlenmorris.me"); ("critical", VBool true)] in
  let load := λ _ : string, @inr exn value (VList [VDict kvs]) in
  let o := main_whole lab load (Namespace (Some "endpoints.json") None true false)
             initial_state in
  let engine := main lab "health-data-2026-01-31 08:00:00.json" true [dict_of_items kvs]
                  (tick initial_state) in
  list_of_objects (VList [VDict kvs]) [kvs] ∧
  o = (returned (fst engine), snd engine) ∧
  script_exit_status (fst o) = 0.
Proof.
  intros kvs load o engine.
  assert (Hl : list_of_objects (VList [VDict kvs]) [kvs]) by reflexivity.
  split; [exact Hl|].
  destruct (main_whole_cases lab load (Namespace (Some "endpoints.json") None true false)
              initial_state) as [_ [H _]].
  split; [exact (H [kvs] Hl)|].
  vm_compute. reflexivity.
Defined.
